(** * Chapter model (server/models/Chapter.js): a shallow embedding

    The file follows the source top-down: the JavaScript primitives the
    model relies on (strings, regular-expression calls, numbers), the
    Markdown collaborators, the document store, and then the three static
    methods of [ChapterClass]: [addBookmark], [getBySlug], [syncContent].

    Conventions.
    - A JavaScript string is a [string]; a character is a code unit in
      the range U+0000..U+00FF.
    - A JavaScript Number that holds an integer is a [jsnum]: an exact
      integer value of a double, an infinity, or NaN.  Negative zero is
      identified with zero.
    - An ObjectId is the string of its hexadecimal form.
    - Asynchronous calls are sequenced: every [await] is a bind of the
      monad [M], which threads the document store and raises errors.
    - The persistence layer applies the schema of the file to what it is
      asked to write: [create] validates the document (lines 93-145) and
      [updateOne] casts the modifier, and both are refused by a unique
      index (lines 288-289) that the write would break.  The schema of
      the purchases is in another file; [save] stores what it is given.
    - The Markdown parser, the entity decoder, the slug generator and the
      Book model are collaborators; they are parameters of the model. *)

From Stdlib Require Import String Ascii List ZArith Bool Arith Lia.
From Equations Require Import Equations.
Import ListNotations.

Local Open Scope string_scope.
Local Open Scope list_scope.
Local Open Scope nat_scope.

(* ===================================================================== *)
(** ** JavaScript strings *)
(* ===================================================================== *)

Module Js.

Definition code (c : ascii) : nat := nat_of_ascii c.

Definition between (lo hi n : nat) : bool := (lo <=? n) && (n <=? hi).

Definition is_digit (c : ascii) : bool := between 48 57 (code c).

(** The class [\w] of a regular expression without the unicode flag:
    [A-Za-z0-9_]. *)
Definition is_word (c : ascii) : bool :=
  between 65 90 (code c) || between 97 122 (code c)
  || is_digit c || (code c =? 95).

Definition non_word (c : ascii) : bool := negb (is_word c).

(** WhiteSpace and LineTerminator code units below U+0100: TAB, LF, VT,
    FF, CR, SP and NBSP. *)
Definition is_space (c : ascii) : bool :=
  between 9 13 (code c) || (code c =? 32) || (code c =? 160).

(** [String.prototype.toLowerCase] on one code unit below U+0100: the
    letters A-Z, and the Latin-1 capitals U+00C0..U+00DE except the
    multiplication sign U+00D7. *)
Definition lower_char (c : ascii) : ascii :=
  let n := code c in
  if between 65 90 n || (between 192 222 n && negb (n =? 215))
  then ascii_of_nat (n + 32) else c.

Fixpoint dropWhile {A} (p : A -> bool) (l : list A) : list A :=
  match l with
  | [] => []
  | x :: l' => if p x then dropWhile p l' else l
  end.

Fixpoint takeWhile {A} (p : A -> bool) (l : list A) : list A :=
  match l with
  | [] => []
  | x :: l' => if p x then x :: takeWhile p l' else []
  end.

(** [s.trim()] *)
Definition trim_chars (s : list ascii) : list ascii :=
  rev (dropWhile is_space (rev (dropWhile is_space s))).

(** [s.toLowerCase()] *)
Definition lower_chars (s : list ascii) : list ascii := map lower_char s.

(** [s.replace(/[^\w]+/g, '-')]: the scan copies code units up to the
    leftmost code unit outside [\w], the greedy [+] consumes the whole run
    that starts there, one hyphen is written for the match, and the scan
    resumes after the match. *)
Equations? replace_non_word (s : list ascii) : list ascii
  by wf (length s) lt :=
  replace_non_word [] := [];
  replace_non_word (c :: s) with is_word c => {
    | true := c :: replace_non_word s;
    | false := "-"%char :: replace_non_word (dropWhile non_word s) }.
Proof.
  assert (H : forall l : list ascii,
             length (dropWhile non_word l) <= length l).
  { induction l as [|x l IH]; simpl; [lia|].
    destruct (non_word x); simpl; lia. }
  specialize (H s). simpl. lia.
Qed.

Definition trim (s : string) : string :=
  string_of_list_ascii (trim_chars (list_ascii_of_string s)).

Definition toLowerCase (s : string) : string :=
  string_of_list_ascii (lower_chars (list_ascii_of_string s)).

Definition replaceNonWord (s : string) : string :=
  string_of_list_ascii (replace_non_word (list_ascii_of_string s)).

(** [s.match(/[0-9]+/)]: [None] is [null]; otherwise the array holds one
    element, the leftmost maximal run of decimal digits. *)
Definition match_digits (s : string) : option string :=
  let rest := dropWhile (fun c => negb (is_digit c)) (list_ascii_of_string s) in
  match takeWhile is_digit rest with
  | [] => None
  | ds => Some (string_of_list_ascii ds)
  end.

(** [ToString] of the value returned by [match]: a one-element array is
    joined to its element, [null] becomes the text null. *)
Definition toString_match (m : option string) : string :=
  match m with
  | Some s => s
  | None => "null"
  end.

(* ------------------------------------------------------------------- *)
(** *** Numbers *)

Inductive jsnum : Type :=
| JNaN
| JNum (z : Z)
| JInfinity (positive : bool).

Definition jsnum_eqb (a b : jsnum) : bool :=
  match a, b with
  | JNum x, JNum y => Z.eqb x y
  | JInfinity p, JInfinity q => Bool.eqb p q
  | _, _ => false          (* NaN is not equal to itself *)
  end.

(** The double nearest to the integer [z] (ties to even): integers of at
    most 53 bits are exact, longer ones keep their 53 leading bits. *)
Definition roundToDouble (z : Z) : jsnum :=
  let a := Z.abs z in
  let bits := (Z.log2 a + 1)%Z in
  if (bits <=? 53)%Z then JNum z
  else
    let e := (bits - 53)%Z in
    let q := Z.shiftr a e in
    let r := Z.land a (Z.ones e) in
    let half := Z.shiftl 1 (e - 1) in
    let q' := if (half <? r)%Z || ((r =? half)%Z && Z.odd q)
              then (q + 1)%Z else q in
    let v := Z.shiftl q' e in
    if (Z.shiftl 1 1024 <=? v)%Z then JInfinity (0 <=? z)%Z
    else JNum (Z.sgn z * v).

(** [a + b] on numbers *)
Definition add (a b : jsnum) : jsnum :=
  match a, b with
  | JNaN, _ | _, JNaN => JNaN
  | JNum x, JNum y => roundToDouble (x + y)
  | JInfinity p, JNum _ | JNum _, JInfinity p => JInfinity p
  | JInfinity p, JInfinity q => if Bool.eqb p q then JInfinity p else JNaN
  end.

Definition digit_value (c : ascii) : Z := Z.of_nat (code c - 48).

Definition decimal_value (ds : list ascii) : Z :=
  fold_left (fun acc c => (10 * acc + digit_value c)%Z) ds 0%Z.

(** [parseInt(s, 10)]: leading white space is skipped, one sign is read,
    then the longest prefix of decimal digits; no digit gives NaN.  (With
    more than 20 significant digits the language lets an implementation
    approximate; the value here is the correctly rounded one.) *)
Definition parseInt10 (s : string) : jsnum :=
  let s1 := dropWhile is_space (list_ascii_of_string s) in
  let '(negative, s2) :=
    match s1 with
    | "-"%char :: t => (true, t)
    | "+"%char :: t => (false, t)
    | _ => (false, s1)
    end in
  match takeWhile is_digit s2 with
  | [] => JNaN
  | ds => roundToDouble (if negative then (- decimal_value ds)%Z
                         else decimal_value ds)
  end.

(** Truthiness of an optional string: [undefined] and the empty string
    are falsy. *)
Definition truthy (v : option string) : bool :=
  match v with
  | None => false
  | Some s => negb (String.eqb s "")
  end.

(** A flag that a caller may leave out. *)
Inductive jsflag : Type :=
| JUndefined
| JBool (b : bool).

Definition flag_truthy (f : jsflag) : bool :=
  match f with
  | JBool true => true
  | _ => false
  end.

End Js.

(* ===================================================================== *)
(** ** Data model *)
(* ===================================================================== *)

Definition ObjectId := string.

(** One entry of [sections] (schema lines 138-144). *)
Module SectionEntry.
Record t : Type := mk { text : string; level : Z; escapedText : string }.
End SectionEntry.

(** The Chapter document ([mongoSchema], lines 93-145).  The paths
    without [required] or [default] may be absent. *)
Module Chapter.
Record t : Type := mk {
  _id : ObjectId;
  bookId : ObjectId;
  isFree : bool;
  githubFilePath : option string;
  title : string;
  slug : string;
  excerpt : string;
  content : string;
  htmlContent : string;
  createdAt : Z;
  order : Js.jsnum;
  seoTitle : option string;
  seoDescription : option string;
  sections : list SectionEntry.t
}.
End Chapter.

(** A bookmark embedded in a purchase; the ORM gives every embedded
    document an [_id]. *)
Module Bookmark.
Record t : Type := mk {
  _id : ObjectId;
  chapterId : ObjectId;
  hash : string;
  text : string
}.
End Bookmark.

(** The paths of a Purchase that this file reads or writes. *)
Module Purchase.
Record t : Type := mk {
  _id : ObjectId;
  userId : ObjectId;
  bookId : ObjectId;
  bookmarks : list Bookmark.t
}.

Definition with_bookmarks (p : t) (bs : list Bookmark.t) : t :=
  {| _id := _id p; userId := userId p; bookId := bookId p; bookmarks := bs |}.
End Purchase.

(** The paths of a Book that this file reads; [book.id] is the string
    form of [book._id]. *)
Module Book.
Record t : Type := mk { _id : ObjectId; slug : string }.
Definition id (b : t) : ObjectId := _id b.
End Book.

(** The plain object [getBySlug] returns: the result of [toObject], on
    which [book], [isPurchased] and [bookmark] are assigned and from
    which [content] may be deleted.  [None] is an absent property. *)
Module ChapterObj.
Record t : Type := mk {
  _id : ObjectId;
  bookId : ObjectId;
  isFree : bool;
  githubFilePath : option string;
  title : string;
  slug : string;
  excerpt : string;
  content : option string;
  htmlContent : string;
  createdAt : Z;
  order : Js.jsnum;
  seoTitle : option string;
  seoDescription : option string;
  sections : list SectionEntry.t;
  book : option Book.t;
  isPurchased : option Js.jsflag;
  bookmark : option Bookmark.t
}.

Definition set_book (o : t) (b : Book.t) : t :=
  mk (_id o) (bookId o) (isFree o) (githubFilePath o) (title o) (slug o)
     (excerpt o) (content o) (htmlContent o) (createdAt o) (order o)
     (seoTitle o) (seoDescription o) (sections o)
     (Some b) (isPurchased o) (bookmark o).

Definition set_isPurchased (o : t) (f : Js.jsflag) : t :=
  mk (_id o) (bookId o) (isFree o) (githubFilePath o) (title o) (slug o)
     (excerpt o) (content o) (htmlContent o) (createdAt o) (order o)
     (seoTitle o) (seoDescription o) (sections o)
     (book o) (Some f) (bookmark o).

Definition set_bookmark (o : t) (b : Bookmark.t) : t :=
  mk (_id o) (bookId o) (isFree o) (githubFilePath o) (title o) (slug o)
     (excerpt o) (content o) (htmlContent o) (createdAt o) (order o)
     (seoTitle o) (seoDescription o) (sections o)
     (book o) (isPurchased o) (Some b).

Definition delete_content (o : t) : t :=
  mk (_id o) (bookId o) (isFree o) (githubFilePath o) (title o) (slug o)
     (excerpt o) None (htmlContent o) (createdAt o) (order o)
     (seoTitle o) (seoDescription o) (sections o)
     (book o) (isPurchased o) (bookmark o).
End ChapterObj.

(** [chapter.toObject()] *)
Definition toObject (c : Chapter.t) : ChapterObj.t :=
  ChapterObj.mk (Chapter._id c) (Chapter.bookId c) (Chapter.isFree c)
    (Chapter.githubFilePath c) (Chapter.title c) (Chapter.slug c)
    (Chapter.excerpt c) (Some (Chapter.content c)) (Chapter.htmlContent c)
    (Chapter.createdAt c) (Chapter.order c) (Chapter.seoTitle c)
    (Chapter.seoDescription c) (Chapter.sections c) None None None.

(** The argument of [syncContent]: front matter, body and source path. *)
Module Attributes.
Record t : Type := mk {
  title : string;
  excerpt : option string;
  isFree : option bool;
  seoTitle : option string;
  seoDescription : option string
}.
End Attributes.

Module Data.
Record t : Type := mk { attributes : Attributes.t; body : string; path : string }.
End Data.

(** The object passed to [$set] (lines 266-282): eight properties that
    are always there, and [title] and [slug], which are added later. *)
Module Modifier.
Record t : Type := mk {
  content : string;
  htmlContent : string;
  sections : list SectionEntry.t;
  excerpt : string;
  isFree : bool;
  order : Js.jsnum;
  seoTitle : string;
  seoDescription : string;
  title : option string;
  slug : option string
}.

Definition set_title (m : t) (v : string) : t :=
  mk (content m) (htmlContent m) (sections m) (excerpt m) (isFree m)
     (order m) (seoTitle m) (seoDescription m) (Some v) (slug m).

Definition set_slug (m : t) (v : string) : t :=
  mk (content m) (htmlContent m) (sections m) (excerpt m) (isFree m)
     (order m) (seoTitle m) (seoDescription m) (title m) (Some v).
End Modifier.

(** A destructuring default: [x = d] keeps [x] unless it is undefined. *)
Definition default {A} (d : A) (x : option A) : A :=
  match x with
  | Some v => v
  | None => d
  end.

(* ===================================================================== *)
(** ** The Markdown renderer's global options *)
(* ===================================================================== *)

Module Marked.

(** Which renderer object [marked.setOptions] last installed:
    the library's own, the one built by [markdownToHtml] (lines 11-50) or
    the one built by [getSections] (lines 68-82). *)
Inductive renderer : Type :=
| DefaultRenderer
| HtmlRenderer
| SectionsRenderer.

Record options : Type := mkOptions {
  opt_renderer : renderer;
  opt_breaks : bool;
  opt_highlight : bool
}.

End Marked.

(* ===================================================================== *)
(** ** The world: document store and renderer state *)
(* ===================================================================== *)

Record World : Type := mkWorld {
  chapters : list Chapter.t;
  books : list Book.t;
  purchases : list Purchase.t;
  (** [marked.defaults], changed by [marked.setOptions] *)
  markedDefaults : Marked.options;
  (** the array that the heading callback of [getSections] pushes to *)
  sectionsArray : list SectionEntry.t
}.

Definition set_chapters (w : World) (cs : list Chapter.t) : World :=
  mkWorld cs (books w) (purchases w) (markedDefaults w) (sectionsArray w).

Definition set_purchases (w : World) (ps : list Purchase.t) : World :=
  mkWorld (chapters w) (books w) ps (markedDefaults w) (sectionsArray w).

Definition set_markedDefaults (w : World) (o : Marked.options) : World :=
  mkWorld (chapters w) (books w) (purchases w) o (sectionsArray w).

Definition set_sectionsArray (w : World) (a : list SectionEntry.t) : World :=
  mkWorld (chapters w) (books w) (purchases w) (markedDefaults w) a.

(** What is thrown: an [Error] of the module itself, with its message,
    or one of the errors of the persistence layer. *)
Inductive Error : Type :=
| mkError (message : string)
| ValidationError    (* [create]: a path fails its cast or is required *)
| CastError          (* [updateOne]: a value of [$set] fails its cast *)
| DuplicateKeyError  (* a write that a unique index refuses *).

(** A computation reads and writes the world and returns or throws. *)
Definition M (A : Type) : Type := World -> (Error + A) * World.

Definition ret {A} (a : A) : M A := fun w => (inr a, w).

Definition throw {A} (message : string) : M A :=
  fun w => (inl (mkError message), w).

(** A rejected call of the persistence layer. *)
Definition reject {A} (e : Error) : M A := fun w => (inl e, w).

Definition bind {A B} (c : M A) (k : A -> M B) : M B :=
  fun w =>
    match c w with
    | (inl e, w') => (inl e, w')
    | (inr a, w') => k a w'
    end.

Definition gets {A} (f : World -> A) : M A := fun w => (inr (f w), w).

Definition modify (f : World -> World) : M unit := fun w => (inr tt, f w).

Notation "x <- c ;; k" := (bind c (fun x => k))
  (at level 61, c at next level, right associativity).
Notation "c ;;; k" := (bind c (fun _ => k))
  (at level 61, right associativity).

(** Callbacks run in order over the elements of a list. *)
Fixpoint forM_ {A} (l : list A) (f : A -> M unit) : M unit :=
  match l with
  | [] => ret tt
  | x :: l' => f x ;;; forM_ l' f
  end.

(** [arr.forEach(callback)] when the callback may change [arr] itself:
    the length is read once, the indices below it are visited in order,
    an index that is no longer in the array is skipped, and every visit
    reads the array as the visits before it left it. *)
Fixpoint forEach_live {A} (visit : A -> list A -> list A)
    (remaining k : nat) (arr : list A) : list A :=
  match remaining with
  | O => arr
  | S n =>
      match nth_error arr k with
      | Some x => forEach_live visit n (S k) (visit x arr)
      | None => forEach_live visit n (S k) arr
      end
  end.

Definition forEach {A} (visit : A -> list A -> list A) (arr : list A) : list A :=
  forEach_live visit (length arr) 0 arr.

(* ------------------------------------------------------------------- *)
(** *** Queries of the persistence layer

    A collection is the list of its documents in insertion order; a
    query returns the first document that matches. *)

Definition Chapter_findById (id : ObjectId) : M (option Chapter.t) :=
  gets (fun w => find (fun c => String.eqb (Chapter._id c) id) (chapters w)).

(** [this.findOne({ bookId, slug })] *)
Definition Chapter_findOne_slug (bookId : ObjectId) (slug : string)
  : M (option Chapter.t) :=
  gets (fun w =>
    find (fun c => String.eqb (Chapter.bookId c) bookId
                   && String.eqb (Chapter.slug c) slug) (chapters w)).

Definition option_eqb (a : option string) (b : string) : bool :=
  match a with
  | Some x => String.eqb x b
  | None => false
  end.

(** [this.findOne({ bookId, githubFilePath })] *)
Definition Chapter_findOne_path (bookId : ObjectId) (path : string)
  : M (option Chapter.t) :=
  gets (fun w =>
    find (fun c => String.eqb (Chapter.bookId c) bookId
                   && option_eqb (Chapter.githubFilePath c) path) (chapters w)).

(** The schema ([mongoSchema], lines 93-145 and 288-289) as the
    persistence layer applies it to a write. *)
Module mongoSchema.

(** [type: Number]: the cast takes every number but NaN. *)
Definition castNumber (n : Js.jsnum) : bool :=
  match n with
  | Js.JNaN => false
  | _ => true
  end.

(** [type: String, required: true]: the empty string does not count as
    a value. *)
Definition requiredString (s : string) : bool := negb (String.eqb s "").

(** Validation of a document that is created.  [title], [slug],
    [content] and [htmlContent] are required strings and [order] a
    required number; [bookId], [isFree] and [createdAt] are required
    too, and a [Chapter.t] always has them. *)
Definition validate (doc : Chapter.t) : bool :=
  requiredString (Chapter.title doc)
  && requiredString (Chapter.slug doc)
  && requiredString (Chapter.content doc)
  && requiredString (Chapter.htmlContent doc)
  && castNumber (Chapter.order doc).

(** The cast of the object passed to [$set]; an update runs no
    validator, so of the modifier's paths only [order] can be refused. *)
Definition castUpdate (m : Modifier.t) : bool :=
  castNumber (Modifier.order m).

(** The key of the index [{ bookId: 1, slug: 1 }] (line 288). *)
Definition sameSlug (a b : Chapter.t) : bool :=
  String.eqb (Chapter.bookId a) (Chapter.bookId b)
  && String.eqb (Chapter.slug a) (Chapter.slug b).

(** The key of the index [{ bookId: 1, githubFilePath: 1 }] (line 289);
    an absent path is a key like any other. *)
Definition samePath (a b : Chapter.t) : bool :=
  String.eqb (Chapter.bookId a) (Chapter.bookId b)
  && match Chapter.githubFilePath a, Chapter.githubFilePath b with
     | Some p, Some q => String.eqb p q
     | None, None => true
     | _, _ => false
     end.

(** A new document has a key that a stored document already has. *)
Definition duplicateKey (doc : Chapter.t) (cs : list Chapter.t) : bool :=
  existsb (fun c => sameSlug c doc || samePath c doc) cs.

(** An update gives the document [old] a slug it did not have, and a
    stored document of the book has that slug.  [$set] with the
    modifier of this file changes no other indexed path. *)
Definition duplicateSlug (old new : Chapter.t) (cs : list Chapter.t) : bool :=
  negb (String.eqb (Chapter.slug new) (Chapter.slug old))
  && existsb (fun c => sameSlug c new) cs.

End mongoSchema.

(** [this.create(doc)]: the document is validated, checked against the
    unique indexes and appended to the collection. *)
Definition Chapter_create (doc : Chapter.t) : M Chapter.t :=
  if negb (mongoSchema.validate doc) then reject ValidationError
  else
    cs <- gets chapters ;;
    if mongoSchema.duplicateKey doc cs then reject DuplicateKeyError
    else modify (fun w => set_chapters w (chapters w ++ [doc])) ;;; ret doc.

(** [$set] with a modifier: the listed paths are overwritten. *)
Definition applySet (m : Modifier.t) (c : Chapter.t) : Chapter.t :=
  {| Chapter._id := Chapter._id c;
     Chapter.bookId := Chapter.bookId c;
     Chapter.isFree := Modifier.isFree m;
     Chapter.githubFilePath := Chapter.githubFilePath c;
     Chapter.title := default (Chapter.title c) (Modifier.title m);
     Chapter.slug := default (Chapter.slug c) (Modifier.slug m);
     Chapter.excerpt := Modifier.excerpt m;
     Chapter.content := Modifier.content m;
     Chapter.htmlContent := Modifier.htmlContent m;
     Chapter.createdAt := Chapter.createdAt c;
     Chapter.order := Modifier.order m;
     Chapter.seoTitle := Some (Modifier.seoTitle m);
     Chapter.seoDescription := Some (Modifier.seoDescription m);
     Chapter.sections := Modifier.sections m |}.

(** The first element that satisfies [p] is replaced by its image. *)
Fixpoint update_first {A} (p : A -> bool) (f : A -> A) (l : list A) : list A :=
  match l with
  | [] => []
  | x :: l' => if p x then f x :: l' else x :: update_first p f l'
  end.

(** [this.updateOne({ _id }, { $set: modifier })]: the modifier is cast,
    then the first document with the [_id] is overwritten unless a unique
    index refuses its new slug; the result is the number of documents
    matched. *)
Definition Chapter_updateOne (id : ObjectId) (m : Modifier.t) : M nat :=
  if negb (mongoSchema.castUpdate m) then reject CastError
  else
    found <- gets (fun w =>
               find (fun c => String.eqb (Chapter._id c) id) (chapters w)) ;;
    match found with
    | None => ret 0
    | Some old =>
        cs <- gets chapters ;;
        if mongoSchema.duplicateSlug old (applySet m old) cs
        then reject DuplicateKeyError
        else
          modify (fun w =>
            set_chapters w
              (update_first (fun c => String.eqb (Chapter._id c) id)
                            (applySet m) (chapters w))) ;;;
          ret 1
    end.

Definition Book_findById (id : ObjectId) : M (option Book.t) :=
  gets (fun w => find (fun b => String.eqb (Book._id b) id) (books w)).

(** [Purchase.findOne({ userId, bookId })]; the query value [userId] may
    be undefined, which no stored user id equals. *)
Definition Purchase_findOne (userId : option string) (bookId : ObjectId)
  : M (option Purchase.t) :=
  gets (fun w =>
    find (fun p => match userId with
                   | Some u => String.eqb (Purchase.userId p) u
                   | None => false
                   end && String.eqb (Purchase.bookId p) bookId)
         (purchases w)).

(** [purchase.save()]: the changed path, [bookmarks], is written to the
    stored document that has the purchase's [_id]. *)
Definition Purchase_save (p : Purchase.t) : M Purchase.t :=
  modify (fun w =>
    set_purchases w
      (update_first (fun q => String.eqb (Purchase._id q) (Purchase._id p))
                    (fun q => Purchase.with_bookmarks q (Purchase.bookmarks p))
                    (purchases w))) ;;;
  ret p.

(** [purchase.bookmarks.pull(id)]: every embedded document with that
    [_id] is spliced out of the array. *)
Definition pull (id : ObjectId) (arr : list Bookmark.t) : list Bookmark.t :=
  filter (fun b => negb (String.eqb (Bookmark._id b) id)) arr.

(* ===================================================================== *)
(** ** Parts of the module's functions that need no collaborator *)
(* ===================================================================== *)

(** The heading slug of both renderers (lines 21-24 and 76-79):
    [text.trim().toLowerCase().replace(/[^\w]+/g, '-')]. *)
Definition escapeText (text : string) : string :=
  Js.replaceNonWord (Js.toLowerCase (Js.trim text)).

(** The renderer callback of [getSections] (lines 71-82). *)
Definition sections_heading (text : string) (level : Z) : M unit :=
  if negb (level =? 2)%Z then ret tt
  else
    let escapedText := escapeText text in
    modify (fun w =>
      set_sectionsArray w
        (sectionsArray w ++ [SectionEntry.mk text level escapedText])).

(** The chapter order of [syncContent] (lines 234-240). *)
Definition chapterOrder (path : string) : Js.jsnum :=
  if String.eqb path "introduction.md" then Js.JNum 1
  else Js.add (Js.parseInt10 (Js.toString_match (Js.match_digits path)))
              (Js.JNum 1).

(** What [syncContent] resolves to: the created document, or the number
    of documents the update matched. *)
Inductive SyncResult : Type :=
| Created (doc : Chapter.t)
| Updated (matched : nat).

(* ===================================================================== *)
(** ** The heading callback of markdownToHtml *)
(* ===================================================================== *)

Module Html.

Definition quote : string := String (ascii_of_nat 34) EmptyString.
Definition newline : string := String (ascii_of_nat 10) EmptyString.

(** The text pieces of a template literal, put together in order. *)
Fixpoint template (pieces : list string) : string :=
  match pieces with
  | [] => EmptyString
  | p :: rest => String.append p (template rest)
  end.

Fixpoint decimal_digits (fuel : nat) (n : Z) (acc : string) : string :=
  match fuel with
  | O => acc
  | S f =>
      let acc' := String (ascii_of_nat (48 + Z.to_nat (n mod 10))) acc in
      if (n / 10 =? 0)%Z then acc' else decimal_digits f (n / 10)%Z acc'
  end.

(** [${n}] for a Number that holds an integer of fewer than 22 digits:
    its decimal digits, after a minus sign when it is negative. *)
Definition numberToString (n : Z) : string :=
  let digits := decimal_digits (S (Z.to_nat (Z.log2 (Z.abs n))))
                               (Z.abs n) EmptyString in
  if (n <? 0)%Z then String "-"%char digits else digits.

(** [renderer.heading] of [markdownToHtml] (lines 20-50). *)
Definition heading (text : string) (level : Z) : string :=
  let escapedText := escapeText text in
  let h := numberToString level in
  if (level =? 2)%Z then
    template
      ["<a"; newline;
       "        class="; quote; "section-anchor"; quote; newline;
       "        name="; quote; escapedText; quote; newline;
       "        href="; quote; "#"; escapedText; quote; newline;
       "        >"; newline;
       "        <h"; h; " class="; quote; "chapter-section"; quote;
       " style="; quote; "color: #222; font-weight: 400;"; quote; ">"; newline;
       "          "; text; newline;
       "        </h"; h; ">"; newline;
       "      </a>"]
  else if (level =? 4)%Z then
    template
      ["<a"; newline;
       "        name="; quote; escapedText; quote; newline;
       "        href="; quote; "#"; escapedText; quote; newline;
       "        >"; newline;
       "        <h"; h; " style="; quote; "color: #222;"; quote; ">"; newline;
       "          "; text; newline;
       "        </h"; h; ">"; newline;
       "      </a>"]
  else
    template
      ["<h"; h; " style="; quote; "color: #222; font-weight: 400;"; quote; ">";
       text; "</h"; h; ">"].

End Html.

(** [needle] occurs in [hay]. *)
Definition occursIn (needle hay : string) : Prop :=
  exists pre post, hay = String.append pre (String.append needle post).

(** The characters of a heading slug: [a-z], [0-9], underscore, hyphen. *)
Definition is_slug_char (c : ascii) : bool :=
  Js.between 97 122 (Js.code c) || Js.is_digit c
  || (Js.code c =? 95) || (Js.code c =? 45).

(** No two hyphens in a row. *)
Fixpoint no_double_hyphen (s : list ascii) : bool :=
  match s with
  | [] => true
  | a :: t =>
      match t with
      | [] => true
      | b :: _ =>
          negb (Ascii.eqb a "-" && Ascii.eqb b "-") && no_double_hyphen t
      end
  end.

(** A text of white space only. *)
Definition isBlank (text : string) : bool :=
  forallb Js.is_space (list_ascii_of_string text).

(* ===================================================================== *)
(** ** A sample store and sample collaborators *)
(* ===================================================================== *)

Module Sample.

Definition nl : string := String (ascii_of_nat 10) EmptyString.

(** A small stand-in for the Markdown parser: a line that starts with
    one to six hash signs and a space is a heading of that level. *)
Fixpoint lines_of (cur s : list ascii) : list (list ascii) :=
  match s with
  | [] => [rev cur]
  | c :: s' =>
      if Js.code c =? 10 then rev cur :: lines_of [] s'
      else lines_of (c :: cur) s'
  end.

Fixpoint hashes (l : list ascii) : nat * list ascii :=
  match l with
  | "#"%char :: l' => let (n, r) := hashes l' in (S n, r)
  | _ => (0, l)
  end.

Definition atx_heading (line : list ascii) : list (string * Z) :=
  let (n, r) := hashes line in
  match r with
  | " "%char :: t =>
      if (1 <=? n) && (n <=? 6)
      then [(string_of_list_ascii t, Z.of_nat n)] else []
  | _ => []
  end.

Definition headings (_ : Marked.options) (src : string) : list (string * Z) :=
  flat_map atx_heading (lines_of [] (list_ascii_of_string src)).

Definition he_decode (s : string) : string := s.

Definition output (_ : Marked.options) (src : string) : string := src.

Definition slugFor (_ : list Chapter.t) (title : string) (_ : ObjectId)
  : string := escapeText title.

(** A sample [Book.getBySlug]: the lookup of the book by its slug. *)
Definition bookBySlug (w : World) (slug : string) (_ : option string)
  : option Book.t :=
  find (fun b => String.eqb (Book.slug b) slug) (books w).

Definition book : Book.t := Book.mk "b1" "builder-book".

Definition introduction : Chapter.t :=
  {| Chapter._id := "c0";
     Chapter.bookId := "b1";
     Chapter.isFree := true;
     Chapter.githubFilePath := Some "introduction.md";
     Chapter.title := "Introduction";
     Chapter.slug := "introduction";
     Chapter.excerpt := "";
     Chapter.content := "## Why this book";
     Chapter.htmlContent := "## Why this book";
     Chapter.createdAt := 0;
     Chapter.order := Js.JNum 1;
     Chapter.seoTitle := Some "";
     Chapter.seoDescription := Some "";
     Chapter.sections := [SectionEntry.mk "Why this book" 2 "why-this-book"] |}.

Definition deploy : Chapter.t :=
  {| Chapter._id := "c8";
     Chapter.bookId := "b1";
     Chapter.isFree := false;
     Chapter.githubFilePath := Some "chapter-08.md";
     Chapter.title := "Deploy";
     Chapter.slug := "deploy";
     Chapter.excerpt := "";
     Chapter.content := "## Heroku";
     Chapter.htmlContent := "## Heroku";
     Chapter.createdAt := 0;
     Chapter.order := Js.JNum 9;
     Chapter.seoTitle := None;
     Chapter.seoDescription := None;
     Chapter.sections := [] |}.

Definition bookmark (id chapterId : ObjectId) : Bookmark.t :=
  Bookmark.mk id chapterId "#heroku" "Heroku".

Definition purchase : Purchase.t :=
  Purchase.mk "p1" "u1" "b1" [bookmark "k1" "c0"; bookmark "k2" "c8"].

Definition defaults : Marked.options :=
  Marked.mkOptions Marked.DefaultRenderer false false.

Definition world : World :=
  mkWorld [introduction; deploy] [book] [purchase] defaults [].

(** A purchase that holds two bookmarks of one chapter next to each
    other, as two overlapping first bookmarks of the chapter leave it. *)
Definition doubled : Purchase.t :=
  Purchase.mk "p1" "u1" "b1" [bookmark "k1" "c8"; bookmark "k2" "c8"].

Definition doubledWorld : World :=
  mkWorld [introduction; deploy] [book] [doubled] defaults [].

Definition payload : Data.t :=
  Data.mk (Attributes.mk "Deploy to Heroku" (Some "## In short") None None None)
          (String.append "## Heroku  & Now!"
             (String.append nl (String.append "### Logs"
                (String.append nl "## Custom domain"))))
          "chapter-08.md".

End Sample.

(** More samples: a payload for a path the sample book has no chapter of,
    marked free. *)
Module Sample2.

Definition payload : Data.t :=
  Data.mk (Attributes.mk "Testing: Jest & Enzyme" None (Some true) None None)
          "## Unit tests"
          "chapter-09.md".

End Sample2.

(** A store that holds a chapter from a path without a digit, and a
    payload for that path. *)
Module Sample3.

Definition readme : Chapter.t :=
  {| Chapter._id := "c1";
     Chapter.bookId := "b1";
     Chapter.isFree := true;
     Chapter.githubFilePath := Some "README.md";
     Chapter.title := "Read me";
     Chapter.slug := "read-me";
     Chapter.excerpt := "";
     Chapter.content := "## About";
     Chapter.htmlContent := "## About";
     Chapter.createdAt := 0;
     Chapter.order := Js.JNum 2;
     Chapter.seoTitle := Some "";
     Chapter.seoDescription := Some "";
     Chapter.sections := [SectionEntry.mk "About" 2 "about"] |}.

Definition world : World :=
  mkWorld [Sample.introduction; readme] [Sample.book] [Sample.purchase]
          Sample.defaults [].

Definition payload : Data.t :=
  Data.mk (Attributes.mk "Read me" None (Some true) None None)
          "## About this book"
          "README.md".

End Sample3.

(* ===================================================================== *)
(** ** The rendering functions and ChapterClass *)
(* ===================================================================== *)

Section ChapterModel.

Set Default Proof Using "Type".

(** The collaborators that live outside this file. *)

(** [he.decode] *)
Variable he_decode : string -> string.

(** The Markdown parser: the heading callbacks [(text, level)] it makes on
    a source text, in document order, and the text it returns; both under
    given options. *)
Variable marked_headings : Marked.options -> string -> list (string * Z).
Variable marked_output : Marked.options -> string -> string.

(** [generateSlug(Chapter, title, { bookId })] of [../utils/slugify]; it
    reads the Chapter collection. *)
Variable generateSlug : list Chapter.t -> string -> ObjectId -> string.

(** [Book.getBySlug({ slug, userId })] of [./Book]; it reads the store. *)
Variable Book_getBySlug : World -> string -> option string -> option Book.t.

(** [marked(src)] under the global options: the parser calls the installed
    renderer; only the renderer of [getSections] has an effect. *)
Definition marked (src : string) : M string :=
  opts <- gets markedDefaults ;;
  match Marked.opt_renderer opts with
  | Marked.SectionsRenderer =>
      forM_ (marked_headings opts src)
            (fun h => sections_heading (fst h) (snd h))
  | _ => ret tt
  end ;;;
  ret (marked_output opts src).

(** The renderer built at lines 11-50 has callbacks without effects; it
    is handed to the parser under the name [Marked.HtmlRenderer]. *)
Definition markdownToHtml (content : string) : M string :=
  (* marked.setOptions({ renderer, breaks: true, highlight }) *)
  modify (fun w =>
    set_markedDefaults w (Marked.mkOptions Marked.HtmlRenderer true true)) ;;;
  marked (he_decode content).

Definition getSections (content : string) : M (list SectionEntry.t) :=
  (* const sections = [] *)
  modify (fun w => set_sectionsArray w []) ;;;
  (* marked.setOptions({ renderer }) *)
  modify (fun w =>
    set_markedDefaults w
      (Marked.mkOptions Marked.SectionsRenderer
         (Marked.opt_breaks (markedDefaults w))
         (Marked.opt_highlight (markedDefaults w)))) ;;;
  _ <- marked (he_decode content) ;;
  gets sectionsArray.

(** The callback of [purchase.bookmarks.forEach] in [addBookmark] (lines
    170-174); it changes the array it is iterating over. *)
Definition pullIfSameChapter (chapterId : ObjectId)
    (b : Bookmark.t) (arr : list Bookmark.t) : list Bookmark.t :=
  if String.eqb (Bookmark.chapterId b) chapterId
  then pull (Bookmark._id b) arr
  else arr.

(** [ChapterClass.addBookmark]; [newId] is the [_id] the ORM gives the
    pushed bookmark. *)
Definition addBookmark (newId : ObjectId)
    (chapterId : ObjectId) (hash text : string) (userId : option string)
  : M Purchase.t :=
  if negb (Js.truthy userId) then throw "User is required"
  else
    chapter <- Chapter_findById chapterId ;;
    match chapter with
    | None => throw "Chapter not found"
    | Some chapter =>
        book <- Book_findById (Chapter.bookId chapter) ;;
        match book with
        | None => throw "Book not found"
        | Some book =>
            purchase <- Purchase_findOne userId (Book._id book) ;;
            match purchase with
            | None => throw "You have not bought this book."
            | Some purchase =>
                let bookmarks :=
                  forEach (pullIfSameChapter chapterId)
                          (Purchase.bookmarks purchase) in
                let bookmarks :=
                  bookmarks ++ [Bookmark.mk newId chapterId hash text] in
                Purchase_save (Purchase.with_bookmarks purchase bookmarks)
            end
        end
    end.

(** [!!purchase || isAdmin] *)
Definition purchased_or (purchase : option Purchase.t) (isAdmin : Js.jsflag)
  : Js.jsflag :=
  match purchase with
  | Some _ => Js.JBool true
  | None => isAdmin
  end.

(** [(purchase && purchase.bookmarks) || []] *)
Definition bookmarks_of (purchase : option Purchase.t) : list Bookmark.t :=
  match purchase with
  | Some p => Purchase.bookmarks p
  | None => []
  end.

(** [ChapterClass.getBySlug] *)
Definition getBySlug (bookSlug chapterSlug : string)
    (userId : option string) (isAdmin : Js.jsflag) : M ChapterObj.t :=
  book <- gets (fun w => Book_getBySlug w bookSlug userId) ;;
  match book with
  | None => throw "Not found"
  | Some book =>
      chapter <- Chapter_findOne_slug (Book._id book) chapterSlug ;;
      match chapter with
      | None => throw "Not found"
      | Some chapter =>
          let chapterObj := ChapterObj.set_book (toObject chapter) book in
          chapterObj <-
            (if Js.truthy userId then
               purchase <- Purchase_findOne userId (Book._id book) ;;
               let chapterObj :=
                 ChapterObj.set_isPurchased chapterObj
                   (purchased_or purchase isAdmin) in
               ret (fold_left
                      (fun o b =>
                         if String.eqb (Chapter._id chapter)
                                       (Bookmark.chapterId b)
                         then ChapterObj.set_bookmark o b else o)
                      (bookmarks_of purchase) chapterObj)
             else ret chapterObj) ;;
          let isPurchased :=
            Chapter.isFree chapter
            || match ChapterObj.isPurchased chapterObj with
               | Some f => Js.flag_truthy f
               | None => false
               end in
          if negb isPurchased then ret (ChapterObj.delete_content chapterObj)
          else ret chapterObj
      end
  end.

(** Lines 266-282 of [syncContent]: the modifier for a chapter that
    exists.  [sections] is the array that [getSections] returned; the
    renderer installed by [getSections] still pushes to that array while
    the excerpt is rendered, so the modifier holds the array as the
    excerpt's rendering left it. *)
Definition buildModifier (title excerpt : string) (isFree : bool)
    (seoTitle seoDescription : string) (order : Js.jsnum)
    (content htmlContent : string) (chapter : Chapter.t) : M Modifier.t :=
  excerptHtml <- marked (he_decode excerpt) ;;
  sections <- gets sectionsArray ;;
  let modifier :=
    Modifier.mk content htmlContent sections excerptHtml isFree order
                seoTitle seoDescription None None in
  if negb (String.eqb title (Chapter.title chapter)) then
    slug <- gets (fun w =>
              generateSlug (chapters w) title (Chapter.bookId chapter)) ;;
    ret (Modifier.set_slug (Modifier.set_title modifier title) slug)
  else ret modifier.

(** [ChapterClass.syncContent]; [now] is the value of [new Date()] and
    [newId] the [_id] the ORM gives a created document. *)
Definition syncContent (now : Z) (newId : ObjectId)
    (book : Book.t) (data : Data.t) : M SyncResult :=
  let title := Attributes.title (Data.attributes data) in
  let excerpt := default "" (Attributes.excerpt (Data.attributes data)) in
  let isFree := default false (Attributes.isFree (Data.attributes data)) in
  let seoTitle := default "" (Attributes.seoTitle (Data.attributes data)) in
  let seoDescription :=
    default "" (Attributes.seoDescription (Data.attributes data)) in
  let body := Data.body data in
  let path := Data.path data in
  chapter <- Chapter_findOne_path (Book.id book) path ;;
  let order := chapterOrder path in
  let content := body in
  htmlContent <- markdownToHtml content ;;
  _ <- getSections content ;;
  match chapter with
  | None =>
      slug <- gets (fun w => generateSlug (chapters w) title (Book._id book)) ;;
      excerptHtml <- marked (he_decode excerpt) ;;
      sections <- gets sectionsArray ;;
      doc <- Chapter_create
               {| Chapter._id := newId;
                  Chapter.bookId := Book._id book;
                  Chapter.isFree := isFree;
                  Chapter.githubFilePath := Some path;
                  Chapter.title := title;
                  Chapter.slug := slug;
                  Chapter.excerpt := excerptHtml;
                  Chapter.content := content;
                  Chapter.htmlContent := htmlContent;
                  Chapter.createdAt := now;
                  Chapter.order := order;
                  Chapter.seoTitle := Some seoTitle;
                  Chapter.seoDescription := Some seoDescription;
                  Chapter.sections := sections |} ;;
      ret (Created doc)
  | Some chapter =>
      modifier <- buildModifier title excerpt isFree seoTitle seoDescription
                                order content htmlContent chapter ;;
      n <- Chapter_updateOne (Chapter._id chapter) modifier ;;
      ret (Updated n)
  end.

(* ===================================================================== *)
(** ** Reading a computation *)
(* ===================================================================== *)

Definition eval {A} (c : M A) (w : World) : Error + A := fst (c w).
Definition exec {A} (c : M A) (w : World) : World := snd (c w).

Definition isError {A} (r : Error + A) : bool :=
  match r with
  | inl _ => true
  | inr _ => false
  end.

(* ===================================================================== *)
(** ** The spec's words, as definitions to compare the code with *)
(* ===================================================================== *)

(** "The first embedded integer in the path": the value, in base ten, of
    the leftmost maximal run of decimal digits. *)
Fixpoint scan_number (acc : Z) (s : list ascii) : Z :=
  match s with
  | [] => acc
  | c :: s' =>
      if Js.is_digit c then scan_number (10 * acc + Js.digit_value c)%Z s'
      else acc
  end.

Fixpoint first_integer (s : list ascii) : option Z :=
  match s with
  | [] => None
  | c :: s' =>
      if Js.is_digit c then Some (scan_number (Js.digit_value c) s')
      else first_integer s'
  end.

Definition firstEmbeddedInteger (path : string) : option Z :=
  first_integer (list_ascii_of_string path).

Definition hasDigit (path : string) : bool :=
  existsb Js.is_digit (list_ascii_of_string path).

(** "Every run of non-word characters replaced by a single hyphen": the
    text is cut into its maximal runs of characters of one class, and a
    run outside the word class becomes one hyphen. *)
Fixpoint runs (s : list ascii) : list (bool * list ascii) :=
  match s with
  | [] => []
  | c :: s' =>
      match runs s' with
      | (cls, r) :: rest =>
          if Bool.eqb cls (Js.is_word c) then (cls, c :: r) :: rest
          else (Js.is_word c, [c]) :: (cls, r) :: rest
      | [] => [(Js.is_word c, [c])]
      end
  end.

Definition hyphenate_runs (s : list ascii) : list ascii :=
  List.concat
    (map (fun run : bool * list ascii =>
            if fst run then snd run else ["-"%char])
         (runs s)).

(** "The heading text trimmed, lower-cased, with every run of non-word
    characters replaced by a single hyphen". *)
Definition slugOfHeading (text : string) : string :=
  string_of_list_ascii
    (hyphenate_runs
       (Js.lower_chars (Js.trim_chars (list_ascii_of_string text)))).

(** The level-2 headings among heading callbacks, as section entries. *)
Definition level2_entries (hs : list (string * Z)) : list SectionEntry.t :=
  map (fun h => SectionEntry.mk (fst h) 2 (slugOfHeading (fst h)))
      (filter (fun h => (snd h =? 2)%Z) hs).

(** Neighbouring runs are of different classes: the runs are maximal. *)
Fixpoint alternating (l : list (bool * list ascii)) : Prop :=
  match l with
  | a :: (b :: _) as t => fst a <> fst b /\ alternating t
  | _ => True
  end.

(* ===================================================================== *)
(** ** Closed forms of the rendering functions and of syncContent *)
(* ===================================================================== *)

(** The world after [marked(src)]. *)
Definition after_marked (src : string) (w : World) : World :=
  match Marked.opt_renderer (markedDefaults w) with
  | Marked.SectionsRenderer =>
      set_sectionsArray w
        (sectionsArray w
         ++ level2_entries (marked_headings (markedDefaults w) src))
  | _ => w
  end.

(** The options under which [getSections] parses. *)
Definition sectionsOptions (w : World) : Marked.options :=
  Marked.mkOptions Marked.SectionsRenderer
    (Marked.opt_breaks (markedDefaults w))
    (Marked.opt_highlight (markedDefaults w)).

Definition htmlOptions : Marked.options :=
  Marked.mkOptions Marked.HtmlRenderer true true.

(** The options in force in [syncContent] once [getSections] has run
    after [markdownToHtml]. *)
Definition syncOptions : Marked.options :=
  Marked.mkOptions Marked.SectionsRenderer true true.

(** The sections [syncContent] stores: the level-2 headings of the body,
    then those of the excerpt. *)
Definition syncSections (data : Data.t) : list SectionEntry.t :=
  level2_entries
    (marked_headings syncOptions (he_decode (Data.body data)))
  ++ level2_entries
       (marked_headings syncOptions
          (he_decode (default "" (Attributes.excerpt (Data.attributes data))))).

(** The modifier [syncContent] builds for a stored chapter. *)
Definition syncModifier (data : Data.t) (cs : list Chapter.t)
    (chapter : Chapter.t) : Modifier.t :=
  let a := Data.attributes data in
  let changed := negb (String.eqb (Attributes.title a) (Chapter.title chapter)) in
  Modifier.mk
    (Data.body data)
    (marked_output htmlOptions (he_decode (Data.body data)))
    (syncSections data)
    (marked_output syncOptions (he_decode (default "" (Attributes.excerpt a))))
    (default false (Attributes.isFree a))
    (chapterOrder (Data.path data))
    (default "" (Attributes.seoTitle a))
    (default "" (Attributes.seoDescription a))
    (if changed then Some (Attributes.title a) else None)
    (if changed
     then Some (generateSlug cs (Attributes.title a) (Chapter.bookId chapter))
     else None).

(** The document [syncContent] creates for a new path. *)
Definition syncDocument (now : Z) (newId : ObjectId) (book : Book.t)
    (data : Data.t) (cs : list Chapter.t) : Chapter.t :=
  let a := Data.attributes data in
  {| Chapter._id := newId;
     Chapter.bookId := Book._id book;
     Chapter.isFree := default false (Attributes.isFree a);
     Chapter.githubFilePath := Some (Data.path data);
     Chapter.title := Attributes.title a;
     Chapter.slug := generateSlug cs (Attributes.title a) (Book._id book);
     Chapter.excerpt :=
       marked_output syncOptions (he_decode (default "" (Attributes.excerpt a)));
     Chapter.content := Data.body data;
     Chapter.htmlContent :=
       marked_output htmlOptions (he_decode (Data.body data));
     Chapter.createdAt := now;
     Chapter.order := chapterOrder (Data.path data);
     Chapter.seoTitle := Some (default "" (Attributes.seoTitle a));
     Chapter.seoDescription := Some (default "" (Attributes.seoDescription a));
     Chapter.sections := syncSections data |}.

Definition byPath (bookId : ObjectId) (path : string) (c : Chapter.t) : bool :=
  String.eqb (Chapter.bookId c) bookId
  && option_eqb (Chapter.githubFilePath c) path.

Definition byId (id : ObjectId) (c : Chapter.t) : bool :=
  String.eqb (Chapter._id c) id.

(** The world in which the modifier or the new document is built. *)
Definition syncWorld (data : Data.t) (w : World) : World :=
  mkWorld (chapters w) (books w) (purchases w) syncOptions (syncSections data).

(* ===================================================================== *)
(** ** Closed forms of addBookmark *)
(* ===================================================================== *)

Definition purchaseOf (userId : option string) (bookId : ObjectId)
    (p : Purchase.t) : bool :=
  match userId with
  | Some u => String.eqb (Purchase.userId p) u
  | None => false
  end && String.eqb (Purchase.bookId p) bookId.

(** The bookmarks [addBookmark] saves for a purchase. *)
Definition newBookmarks (newId chapterId : ObjectId) (hash text : string)
    (purchase : Purchase.t) : list Bookmark.t :=
  forEach (pullIfSameChapter chapterId) (Purchase.bookmarks purchase)
  ++ [Bookmark.mk newId chapterId hash text].

(** The stored purchases after [purchase.save()]. *)
Definition savedPurchases (p : Purchase.t) (ps : list Purchase.t)
  : list Purchase.t :=
  update_first (fun q => String.eqb (Purchase._id q) (Purchase._id p))
               (fun q => Purchase.with_bookmarks q (Purchase.bookmarks p)) ps.

Definition otherChapter (chapterId : ObjectId) (b : Bookmark.t) : bool :=
  negb (String.eqb (Bookmark.chapterId b) chapterId).

Definition sameChapter (chapterId : ObjectId) (b : Bookmark.t) : bool :=
  String.eqb (Bookmark.chapterId b) chapterId.

(* ===================================================================== *)
(** ** Closed forms of getBySlug *)
(* ===================================================================== *)

Definition bySlug (bookId : ObjectId) (slug : string) (c : Chapter.t) : bool :=
  String.eqb (Chapter.bookId c) bookId && String.eqb (Chapter.slug c) slug.

Definition bookmarkOf (chapter : Chapter.t) (b : Bookmark.t) : bool :=
  String.eqb (Chapter._id chapter) (Bookmark.chapterId b).

Definition hasPurchase (w : World) (userId : option string)
    (bookId : ObjectId) : bool :=
  match find (purchaseOf userId bookId) (purchases w) with
  | Some _ => true
  | None => false
  end.

(** The object [getBySlug] returns for a chapter and a book it found. *)
Definition chapterView (w : World) (userId : option string)
    (isAdmin : Js.jsflag) (book : Book.t) (chapter : Chapter.t)
  : ChapterObj.t :=
  let obj0 := ChapterObj.set_book (toObject chapter) book in
  let obj1 :=
    if Js.truthy userId then
      let purchase := find (purchaseOf userId (Book._id book)) (purchases w) in
      let o := ChapterObj.set_isPurchased obj0 (purchased_or purchase isAdmin) in
      match find (bookmarkOf chapter) (rev (bookmarks_of purchase)) with
      | Some b => ChapterObj.set_bookmark o b
      | None => o
      end
    else obj0 in
  if negb (Chapter.isFree chapter
           || match ChapterObj.isPurchased obj1 with
              | Some f => Js.flag_truthy f
              | None => false
              end)
  then ChapterObj.delete_content obj1
  else obj1.

(** Every property of the chapter other than [content] is copied. *)
Definition chapterFieldsKept (c : Chapter.t) (o : ChapterObj.t) : Prop :=
  ChapterObj._id o = Chapter._id c /\
  ChapterObj.bookId o = Chapter.bookId c /\
  ChapterObj.isFree o = Chapter.isFree c /\
  ChapterObj.githubFilePath o = Chapter.githubFilePath c /\
  ChapterObj.title o = Chapter.title c /\
  ChapterObj.slug o = Chapter.slug c /\
  ChapterObj.excerpt o = Chapter.excerpt c /\
  ChapterObj.htmlContent o = Chapter.htmlContent c /\
  ChapterObj.createdAt o = Chapter.createdAt c /\
  ChapterObj.order o = Chapter.order c /\
  ChapterObj.seoTitle o = Chapter.seoTitle c /\
  ChapterObj.seoDescription o = Chapter.seoDescription c /\
  ChapterObj.sections o = Chapter.sections c.

(** The user's purchase of a book, as [getBySlug] looks it up. *)
Definition purchaseExists (w : World) (userId : option string)
    (bookId : ObjectId) : Prop :=
  exists p, eval (Purchase_findOne userId bookId) w = inr (Some p).

(* ===================================================================== *)
(** ** What the store accepts from syncContent *)
(* ===================================================================== *)

(** The answer of [create] to a document, when it is an error. *)
Definition createError (doc : Chapter.t) (cs : list Chapter.t)
  : option Error :=
  if negb (mongoSchema.validate doc) then Some ValidationError
  else if mongoSchema.duplicateKey doc cs then Some DuplicateKeyError
  else None.

(** The answer of [updateOne] to a modifier for the stored document
    [old], when it is an error. *)
Definition updateError (m : Modifier.t) (old : Chapter.t)
    (cs : list Chapter.t) : option Error :=
  if negb (mongoSchema.castUpdate m) then Some CastError
  else if mongoSchema.duplicateSlug old (applySet m old) cs
       then Some DuplicateKeyError
       else None.

(** The payloads for which the store takes a new chapter of the book:
    the order derived from the path is a number, the title, the body,
    the rendered body and the generated slug are not empty, and no
    chapter of the book has the generated slug. *)
Definition creatable (book : Book.t) (data : Data.t) (w : World) : Prop :=
  let a := Data.attributes data in
  let slug := generateSlug (chapters w) (Attributes.title a) (Book._id book) in
  chapterOrder (Data.path data) <> Js.JNaN /\
  Attributes.title a <> "" /\
  Data.body data <> "" /\
  marked_output htmlOptions (he_decode (Data.body data)) <> "" /\
  slug <> "" /\
  existsb (bySlug (Book._id book) slug) (chapters w) = false.

(** The payloads for which the store takes the update of a stored
    chapter: the order derived from the path is a number, and a slug
    that is generated for a new title and differs from the stored slug
    is the slug of no chapter of the book. *)
Definition updatable (data : Data.t) (w : World) (chapter : Chapter.t)
  : Prop :=
  let a := Data.attributes data in
  let slug :=
    generateSlug (chapters w) (Attributes.title a) (Chapter.bookId chapter) in
  chapterOrder (Data.path data) <> Js.JNaN /\
  (Attributes.title a <> Chapter.title chapter ->
   slug <> Chapter.slug chapter ->
   existsb (bySlug (Chapter.bookId chapter) slug) (chapters w) = false).

(* ===================================================================== *)
(** ** Definitions for the further properties *)
(* ===================================================================== *)

(** The digits that [path.match(/[0-9]+/)] returns, if any. *)
Definition firstDigitRun (path : string) : list ascii :=
  Js.takeWhile Js.is_digit
    (Js.dropWhile (fun c => negb (Js.is_digit c)) (list_ascii_of_string path)).

(** At most one bookmark for every chapter. *)
Definition onePerChapter (bs : list Bookmark.t) : Prop :=
  forall chapterId, length (filter (sameChapter chapterId) bs) <= 1.

(** The book of a chapter, as [addBookmark] looks it up. *)
Definition bookOf (chapter : Chapter.t) (b : Book.t) : bool :=
  String.eqb (Book._id b) (Chapter.bookId chapter).

(** What the unique index on (bookId, githubFilePath) asks of the
    collection: no two chapters of one book come from one path. *)
Definition uniquePaths (cs : list Chapter.t) : Prop :=
  forall bookId path, length (filter (byPath bookId path) cs) <= 1.

(* ===================================================================== *)
(** ** Prefixes of a list *)
(* ===================================================================== *)

Lemma dropWhile_length {A} (p : A -> bool) l :
  length (Js.dropWhile p l) <= length l.
Proof.
  induction l as [|x l IH]; simpl; [lia|].
  destruct (p x); simpl; lia.
Qed.

Lemma takeWhile_dropWhile {A} (p : A -> bool) l :
  Js.takeWhile p l ++ Js.dropWhile p l = l.
Proof.
  induction l as [|x l IH]; simpl; [reflexivity|].
  destruct (p x); simpl; [now rewrite IH | reflexivity].
Qed.

Lemma takeWhile_all {A} (p : A -> bool) l : forallb p (Js.takeWhile p l) = true.
Proof.
  induction l as [|x l IH]; simpl; [reflexivity|].
  destruct (p x) eqn:E; simpl; [now rewrite E | reflexivity].
Qed.

Lemma dropWhile_none {A} (p : A -> bool) l :
  forallb p l = true -> Js.dropWhile p l = [].
Proof.
  induction l as [|x l IH]; simpl; [reflexivity|].
  destruct (p x); simpl; [exact IH | discriminate].
Qed.

(* ===================================================================== *)
(** ** Numbers and the chapter order *)
(* ===================================================================== *)

Lemma roundToDouble_exact (z : Z) :
  (0 <= z < 2 ^ 53)%Z -> Js.roundToDouble z = Js.JNum z.
Proof.
  intros [Hlo Hhi]. unfold Js.roundToDouble.
  rewrite Z.abs_eq by exact Hlo.
  assert (Hb : (Z.log2 z + 1 <= 53)%Z).
  { destruct (Z.eq_dec z 0) as [->|Hz]; [simpl; lia|].
    assert (Z.log2 z < 53)%Z by (apply Z.log2_lt_pow2; lia). lia. }
  apply Z.leb_le in Hb. now rewrite Hb.
Qed.

Lemma roundToDouble_succ (z : Z) :
  (0 <= z < 2 ^ 53)%Z -> Js.roundToDouble (z + 1) = Js.JNum (z + 1).
Proof.
  intros H. destruct (Z.eq_dec (z + 1) (2 ^ 53)) as [E|E].
  - rewrite E. vm_compute. reflexivity.
  - apply roundToDouble_exact. lia.
Qed.

Lemma digit_value_nonneg c : (0 <= Js.digit_value c)%Z.
Proof. unfold Js.digit_value. lia. Qed.

Lemma scan_number_fold acc s :
  scan_number acc s =
  fold_left (fun a c => (10 * a + Js.digit_value c)%Z)
            (Js.takeWhile Js.is_digit s) acc.
Proof.
  revert acc.
  induction s as [|c s IH]; intros acc;
    cbn [scan_number Js.takeWhile]; [reflexivity|].
  destruct (Js.is_digit c); cbn [fold_left]; [apply IH | reflexivity].
Qed.

Lemma scan_number_nonneg acc s : (0 <= acc)%Z -> (0 <= scan_number acc s)%Z.
Proof.
  revert acc.
  induction s as [|c s IH]; intros acc H; cbn [scan_number]; [exact H|].
  destruct (Js.is_digit c); [|exact H].
  apply IH. pose proof (digit_value_nonneg c). lia.
Qed.

Lemma first_integer_nonneg s n : first_integer s = Some n -> (0 <= n)%Z.
Proof.
  induction s as [|c s IH]; simpl; [discriminate|].
  destruct (Js.is_digit c); [|exact IH].
  intros [= <-]. apply scan_number_nonneg, digit_value_nonneg.
Qed.

(** The regular-expression match and the scan of the spec's words find
    the same digits. *)
Lemma first_integer_match s :
  first_integer s =
  match Js.takeWhile Js.is_digit
          (Js.dropWhile (fun c => negb (Js.is_digit c)) s) with
  | [] => None
  | ds => Some (Js.decimal_value ds)
  end.
Proof.
  induction s as [|c s IH]; simpl; [reflexivity|].
  destruct (Js.is_digit c) eqn:E; simpl.
  - rewrite E. unfold Js.decimal_value. simpl.
    now rewrite scan_number_fold.
  - exact IH.
Qed.

Lemma digit_not_space c : Js.is_digit c = true -> Js.is_space c = false.
Proof.
  unfold Js.is_digit, Js.is_space, Js.between. intros H.
  apply andb_prop in H as [H1 H2].
  apply Nat.leb_le in H1. apply Nat.leb_le in H2.
  repeat (apply orb_false_intro);
    try (apply andb_false_intro2; apply Nat.leb_gt; lia);
    apply Nat.eqb_neq; lia.
Qed.

Lemma digit_not_sign c :
  Js.is_digit c = true -> c <> "-"%char /\ c <> "+"%char.
Proof. intros H; split; intros ->; vm_compute in H; discriminate. Qed.

(** [parseInt] of a non-empty run of digits is the double nearest to its
    value. *)
Lemma parseInt10_digits (ds : list ascii) :
  ds <> [] -> forallb Js.is_digit ds = true ->
  Js.parseInt10 (string_of_list_ascii ds) = Js.roundToDouble (Js.decimal_value ds).
Proof.
  intros Hne Hall. unfold Js.parseInt10.
  rewrite list_ascii_of_string_of_list_ascii.
  destruct ds as [|c ds]; [contradiction|].
  simpl in Hall. apply andb_prop in Hall as [Hc Hds].
  simpl Js.dropWhile. rewrite (digit_not_space c Hc).
  destruct (digit_not_sign c Hc) as [Hm Hp].
  assert (Hsign :
    match c :: ds with
    | "-"%char :: t => (true, t)
    | "+"%char :: t => (false, t)
    | _ => (false, c :: ds)
    end = (false, c :: ds)).
  { destruct c as [[] [] [] [] [] [] [] []]; try reflexivity; congruence. }
  rewrite Hsign. simpl Js.takeWhile. rewrite Hc.
  assert (Ht : Js.takeWhile Js.is_digit ds = ds).
  { clear -Hds. induction ds as [|d ds IH]; simpl; [reflexivity|].
    simpl in Hds. apply andb_prop in Hds as [Hd Hr].
    now rewrite Hd, IH. }
  now rewrite Ht.
Qed.

Lemma match_digits_first_integer path n :
  firstEmbeddedInteger path = Some n ->
  Js.parseInt10 (Js.toString_match (Js.match_digits path)) = Js.roundToDouble n.
Proof.
  unfold firstEmbeddedInteger, Js.match_digits.
  rewrite first_integer_match.
  set (rest := Js.dropWhile _ _).
  pose proof (takeWhile_all Js.is_digit rest) as Hall.
  destruct (Js.takeWhile Js.is_digit rest) as [|d ds] eqn:E; [discriminate|].
  intros [= <-]. unfold Js.toString_match.
  apply (parseInt10_digits (d :: ds)); [discriminate | exact Hall].
Qed.

Lemma match_digits_none path :
  hasDigit path = false -> Js.match_digits path = None.
Proof.
  unfold hasDigit, Js.match_digits. intros H.
  assert (Hd : Js.dropWhile (fun c => negb (Js.is_digit c))
                 (list_ascii_of_string path) = []).
  { apply dropWhile_none.
    induction (list_ascii_of_string path) as [|c s IH]; simpl in *;
      [reflexivity|].
    apply orb_false_elim in H as [Hc Hs]. now rewrite Hc, IH. }
  now rewrite Hd.
Qed.

(* ===================================================================== *)
(** ** The heading slug *)
(* ===================================================================== *)

Lemma runs_cons c s :
  runs (c :: s) =
  match runs s with
  | (cls, r) :: rest =>
      if Bool.eqb cls (Js.is_word c) then (cls, c :: r) :: rest
      else (Js.is_word c, [c]) :: (cls, r) :: rest
  | [] => [(Js.is_word c, [c])]
  end.
Proof. reflexivity. Qed.

Lemma runs_head c s :
  exists r rest, runs (c :: s) = (Js.is_word c, c :: r) :: rest.
Proof.
  rewrite runs_cons. destruct (runs s) as [|[cls r] rest]; [eauto|].
  destruct (Bool.eqb cls (Js.is_word c)) eqn:E; [|eauto].
  apply eqb_prop in E. subst cls. eauto.
Qed.

(** The runs cut the text: put together again they give it back. *)
Lemma runs_concat s : List.concat (map snd (runs s)) = s.
Proof.
  induction s as [|c s IH]; [reflexivity|].
  rewrite runs_cons. destruct (runs s) as [|[cls r] rest]; simpl in *.
  - now rewrite <- IH.
  - destruct (Bool.eqb cls (Js.is_word c)); simpl; now rewrite <- IH.
Qed.

(** Every run is non-empty and of one class. *)
Lemma runs_uniform s :
  Forall (fun run : bool * list ascii =>
            snd run <> [] /\
            forallb (fun c => Bool.eqb (Js.is_word c) (fst run)) (snd run) = true)
         (runs s).
Proof.
  induction s as [|c s IH]; [constructor|].
  rewrite runs_cons. destruct (runs s) as [|[cls r] rest].
  - constructor; [|constructor]. simpl. split; [discriminate|].
    now rewrite eqb_reflx.
  - destruct (Bool.eqb cls (Js.is_word c)) eqn:E.
    + apply eqb_prop in E. inversion IH as [|? ? [Hne Hall] Hrest]; subst.
      constructor; [|exact Hrest]. simpl in *. split; [discriminate|].
      now rewrite eqb_reflx, Hall.
    + constructor; [|exact IH]. simpl. split; [discriminate|].
      now rewrite eqb_reflx.
Qed.

Lemma runs_alternating s : alternating (runs s).
Proof.
  induction s as [|c s IH]; [exact I|].
  rewrite runs_cons. destruct (runs s) as [|[cls r] rest]; [exact I|].
  destruct (Bool.eqb cls (Js.is_word c)) eqn:E.
  - destruct rest; [exact I|]. exact IH.
  - split; [|exact IH]. simpl. intros Heq. subst cls.
    now rewrite eqb_reflx in E.
Qed.

Lemma hyphenate_word c s :
  Js.is_word c = true -> hyphenate_runs (c :: s) = c :: hyphenate_runs s.
Proof.
  intros Hc. unfold hyphenate_runs. rewrite runs_cons.
  destruct (runs s) as [|[cls r] rest]; rewrite Hc; [reflexivity|].
  destruct cls; reflexivity.
Qed.

Lemma hyphenate_non_word s : forall c,
  Js.is_word c = false ->
  hyphenate_runs (c :: s) =
  "-"%char :: hyphenate_runs (Js.dropWhile Js.non_word s).
Proof.
  induction s as [|d s IH]; intros c Hc.
  - unfold hyphenate_runs. simpl. now rewrite Hc.
  - cbn [Js.dropWhile]. unfold Js.non_word at 1.
    destruct (runs_head d s) as (r & rest & Hd).
    destruct (Js.is_word d) eqn:Ed; cbn [negb].
    + unfold hyphenate_runs. rewrite (runs_cons c), Hd, Hc. reflexivity.
    + rewrite <- (IH d Ed).
      unfold hyphenate_runs. rewrite (runs_cons c), Hd, Hc. reflexivity.
Qed.

(** The regular-expression replacement does what the spec's words say. *)
Lemma replace_non_word_runs s : Js.replace_non_word s = hyphenate_runs s.
Proof.
  remember (length s) as n eqn:Hn. revert s Hn.
  induction n as [n IH] using lt_wf_ind. intros s Hn.
  destruct s as [|c s]; [reflexivity|].
  destruct (Js.is_word c) eqn:Hc.
  - rewrite (hyphenate_word c s Hc). simp replace_non_word. rewrite Hc.
    cbn [Js.replace_non_word_unfold_clause_2]. f_equal.
    apply (IH (length s)); [subst; simpl; lia | reflexivity].
  - rewrite (hyphenate_non_word s c Hc). simp replace_non_word. rewrite Hc.
    cbn [Js.replace_non_word_unfold_clause_2]. f_equal.
    apply (IH (length (Js.dropWhile Js.non_word s))); [|reflexivity].
    pose proof (dropWhile_length Js.non_word s). subst. simpl. lia.
Qed.

Lemma escapeText_slugOfHeading text : escapeText text = slugOfHeading text.
Proof.
  unfold escapeText, slugOfHeading, Js.replaceNonWord, Js.toLowerCase, Js.trim.
  rewrite !list_ascii_of_string_of_list_ascii.
  now rewrite replace_non_word_runs.
Qed.

(** The slug holds word characters and hyphens only. *)
Lemma hyphenate_runs_chars s :
  forallb (fun c => Js.is_word c || Ascii.eqb c "-") (hyphenate_runs s) = true.
Proof.
  unfold hyphenate_runs.
  pose proof (runs_uniform s) as H.
  induction H as [|[cls r] l [_ Hall] _ IH]; [reflexivity|].
  simpl. rewrite forallb_app, IH, andb_true_r.
  destruct cls; simpl in *; [|reflexivity].
  rewrite forallb_forall in *. intros c Hin.
  specialize (Hall c Hin). apply eqb_prop in Hall. now rewrite Hall.
Qed.

(* ===================================================================== *)
(** ** Runs of the rendering functions *)
(* ===================================================================== *)

Lemma world_eta w :
  mkWorld (chapters w) (books w) (purchases w) (markedDefaults w)
          (sectionsArray w) = w.
Proof. now destruct w. Qed.

Lemma forM_sections_heading hs : forall w,
  forM_ hs (fun h => sections_heading (fst h) (snd h)) w =
  (inr tt, set_sectionsArray w (sectionsArray w ++ level2_entries hs)).
Proof.
  induction hs as [|[text level] hs IH]; intros w.
  - unfold level2_entries, set_sectionsArray. simpl.
    now rewrite app_nil_r, world_eta.
  - cbn [forM_]. unfold bind, sections_heading. cbn [fst snd].
    unfold level2_entries. cbn [filter snd].
    destruct (level =? 2)%Z eqn:E; cbn [negb].
    + apply Z.eqb_eq in E. subst level.
      unfold modify. rewrite IH. unfold set_sectionsArray. cbn.
      rewrite escapeText_slugOfHeading, <- app_assoc. reflexivity.
    + unfold ret. rewrite IH. reflexivity.
Qed.

Lemma marked_run src w :
  marked src w = (inr (marked_output (markedDefaults w) src), after_marked src w).
Proof.
  unfold marked, after_marked, bind, gets, ret. cbn.
  destruct (Marked.opt_renderer (markedDefaults w)); try reflexivity.
  now rewrite forM_sections_heading.
Qed.

Lemma getSections_run content w :
  let entries :=
    level2_entries (marked_headings (sectionsOptions w) (he_decode content)) in
  getSections content w =
  (inr entries,
   mkWorld (chapters w) (books w) (purchases w) (sectionsOptions w) entries).
Proof.
  unfold getSections, bind, modify, gets. cbn -[marked].
  rewrite marked_run. unfold after_marked. reflexivity.
Qed.

Lemma bind_run {A B} (c : M A) (k : A -> M B) w a w' :
  c w = (inr a, w') -> bind c k w = k a w'.
Proof. unfold bind. now intros ->. Qed.

Lemma markdownToHtml_run content w :
  markdownToHtml content w =
  (inr (marked_output htmlOptions (he_decode content)),
   set_markedDefaults w htmlOptions).
Proof.
  unfold markdownToHtml, bind, modify. cbn -[marked].
  rewrite marked_run. reflexivity.
Qed.

Lemma buildModifier_run data chapter w :
  let a := Data.attributes data in
  buildModifier (Attributes.title a) (default "" (Attributes.excerpt a))
    (default false (Attributes.isFree a))
    (default "" (Attributes.seoTitle a))
    (default "" (Attributes.seoDescription a))
    (chapterOrder (Data.path data)) (Data.body data)
    (marked_output htmlOptions (he_decode (Data.body data))) chapter
    (mkWorld (chapters w) (books w) (purchases w) syncOptions
       (level2_entries
          (marked_headings syncOptions (he_decode (Data.body data))))) =
  (inr (syncModifier data (chapters w) chapter), syncWorld data w).
Proof.
  intros a. unfold buildModifier.
  erewrite bind_run by apply marked_run.
  unfold after_marked, syncModifier, syncWorld, syncSections, bind, gets, ret.
  cbn. fold a.
  destruct (String.eqb (Attributes.title a) (Chapter.title chapter));
    reflexivity.
Qed.

(** [create] and [updateOne], in closed form. *)
Lemma Chapter_create_run doc w :
  Chapter_create doc w =
  match createError doc (chapters w) with
  | Some e => (inl e, w)
  | None => (inr doc, set_chapters w (chapters w ++ [doc]))
  end.
Proof.
  unfold Chapter_create, createError.
  destruct (negb (mongoSchema.validate doc)); [reflexivity|].
  unfold bind, gets. cbn.
  destruct (mongoSchema.duplicateKey doc (chapters w)); reflexivity.
Qed.

Lemma Chapter_updateOne_run id m old w :
  find (byId id) (chapters w) = Some old ->
  Chapter_updateOne id m w =
  match updateError m old (chapters w) with
  | Some e => (inl e, w)
  | None =>
      (inr 1, set_chapters w (update_first (byId id) (applySet m) (chapters w)))
  end.
Proof.
  intros Hfind. unfold Chapter_updateOne, updateError.
  destruct (negb (mongoSchema.castUpdate m)); [reflexivity|].
  unfold bind, gets. cbn. fold (byId id). rewrite Hfind.
  destruct (mongoSchema.duplicateSlug old (applySet m old) (chapters w));
    reflexivity.
Qed.

(** One call of [syncContent], in closed form: the lookup, then the
    write in the world the rendering calls leave. *)
Lemma syncContent_run now newId book data w :
  syncContent now newId book data w =
  match find (byPath (Book.id book) (Data.path data)) (chapters w) with
  | None =>
      (doc <- Chapter_create (syncDocument now newId book data (chapters w)) ;;
       ret (Created doc)) (syncWorld data w)
  | Some chapter =>
      (n <- Chapter_updateOne (Chapter._id chapter)
              (syncModifier data (chapters w) chapter) ;;
       ret (Updated n)) (syncWorld data w)
  end.
Proof.
  unfold syncContent.
  unfold Chapter_findOne_path at 1. unfold bind at 1. unfold gets at 1.
  fold (byPath (Book.id book) (Data.path data)).
  erewrite bind_run by apply markdownToHtml_run.
  erewrite bind_run by apply getSections_run.
  destruct (find (byPath (Book.id book) (Data.path data)) (chapters w))
    as [chapter|].
  - erewrite bind_run by apply (buildModifier_run data chapter w).
    reflexivity.
  - unfold bind at 1. unfold gets at 1. cbn -[marked Chapter_create].
    erewrite bind_run by apply marked_run.
    reflexivity.
Qed.

(* ===================================================================== *)
(** ** Lists: first match, update of the first match, live iteration *)
(* ===================================================================== *)

Lemma NoDup_map_inj {A B} (f : A -> B) (l : list A) x y :
  NoDup (map f l) -> In x l -> In y l -> f x = f y -> x = y.
Proof.
  induction l as [|a l IH]; simpl; [contradiction|].
  intros Hnd Hx Hy Hf. inversion Hnd as [|? ? Hnotin Hnd']; subst.
  destruct Hx as [->|Hx], Hy as [->|Hy]; [reflexivity| | |now apply IH].
  - exfalso. apply Hnotin. rewrite Hf. now apply in_map.
  - exfalso. apply Hnotin. rewrite <- Hf. now apply in_map.
Qed.

Lemma filter_filter_absorb {A} (p q : A -> bool) (l : list A) :
  (forall y, In y l -> p y = true -> q y = true) ->
  filter p (filter q l) = filter p l.
Proof.
  induction l as [|a l IH]; intros H; simpl; [reflexivity|].
  assert (IH' : filter p (filter q l) = filter p l)
    by (apply IH; intros y Hy; apply H; now right).
  destruct (q a) eqn:Eq; simpl.
  - now rewrite IH'.
  - destruct (p a) eqn:Ep; [|exact IH'].
    rewrite (H a (or_introl eq_refl) Ep) in Eq. discriminate.
Qed.

Lemma forEach_live_invariant {A} (P : list A -> Prop)
    (visit : A -> list A -> list A) :
  (forall x arr, In x arr -> P arr -> P (visit x arr)) ->
  forall n k arr, P arr -> P (forEach_live visit n k arr).
Proof.
  intros Hstep. induction n as [|n IH]; intros k arr HP; simpl; [exact HP|].
  destruct (nth_error arr k) as [x|] eqn:E; apply IH; [|exact HP].
  apply Hstep; [|exact HP]. eapply nth_error_In; eassumption.
Qed.

(** A callback that leaves the array alone at every element leaves it
    alone over the whole iteration. *)
Lemma forEach_live_fixed {A} (visit : A -> list A -> list A) arr :
  (forall x, In x arr -> visit x arr = arr) ->
  forall n k, forEach_live visit n k arr = arr.
Proof.
  intros H. induction n as [|n IH]; intros k; simpl; [reflexivity|].
  destruct (nth_error arr k) as [x|] eqn:E; [|apply IH].
  rewrite (H x) by (eapply nth_error_In; eassumption). apply IH.
Qed.

Lemma find_app_none {A} (p : A -> bool) l x :
  find p l = None -> find p (l ++ [x]) = if p x then Some x else None.
Proof.
  induction l as [|a l IH]; simpl; [reflexivity|].
  destruct (p a); [discriminate | exact IH].
Qed.

Lemma update_first_app_none {A} (p : A -> bool) f l x :
  existsb p l = false ->
  update_first p f (l ++ [x]) = l ++ [if p x then f x else x].
Proof.
  induction l as [|a l IH]; simpl.
  - intros _. now destruct (p x).
  - intros H. apply orb_false_elim in H as [Ha Hl].
    now rewrite Ha, IH.
Qed.

Lemma update_first_twice {A} (p : A -> bool) (f g : A -> A) l :
  (forall x, p x = true -> p (f x) = true) ->
  update_first p g (update_first p f l) =
  update_first p (fun x => g (f x)) l.
Proof.
  intros Hp. induction l as [|a l IH]; simpl; [reflexivity|].
  destruct (p a) eqn:E; simpl.
  - now rewrite (Hp a E).
  - now rewrite E, IH.
Qed.

Lemma update_first_ext {A} (p : A -> bool) (f g : A -> A) l :
  (forall x, In x l -> f x = g x) -> update_first p f l = update_first p g l.
Proof.
  induction l as [|a l IH]; intros H; simpl; [reflexivity|].
  destruct (p a).
  - now rewrite (H a (or_introl eq_refl)).
  - rewrite IH; [reflexivity|]. intros x Hx. apply H. now right.
Qed.

Lemma existsb_update_first {A} (p : A -> bool) (f : A -> A) l :
  (forall x, p x = true -> p (f x) = true) ->
  existsb p (update_first p f l) = existsb p l.
Proof.
  intros Hp. induction l as [|a l IH]; simpl; [reflexivity|].
  destruct (p a) eqn:E; simpl.
  - now rewrite (Hp a E).
  - now rewrite E, IH.
Qed.

(** With unique [_id]s, the first match of a query is still the first
    match after an update by its [_id] that keeps it a match. *)
Lemma find_update_first_byId (q : Chapter.t -> bool) f cs ch :
  NoDup (map Chapter._id cs) ->
  find q cs = Some ch ->
  q (f ch) = true ->
  find q (update_first (byId (Chapter._id ch)) f cs) = Some (f ch).
Proof.
  intros Hnd Hfind Hq. induction cs as [|x cs IH]; simpl in *; [discriminate|].
  inversion Hnd as [|? ? Hnotin Hnd']; subst.
  destruct (q x) eqn:Ex.
  - injection Hfind as ->. unfold byId at 1. rewrite String.eqb_refl.
    simpl. now rewrite Hq.
  - destruct (byId (Chapter._id ch) x) eqn:Eid.
    + exfalso. apply Hnotin. unfold byId in Eid. apply String.eqb_eq in Eid.
      rewrite Eid. apply in_map. eapply find_some; eassumption.
    + simpl. rewrite Ex. now apply IH.
Qed.

Lemma map_id_update_first f cs id :
  (forall c, Chapter._id (f c) = Chapter._id c) ->
  map Chapter._id (update_first (byId id) f cs) = map Chapter._id cs.
Proof.
  intros Hf. induction cs as [|x cs IH]; simpl; [reflexivity|].
  destruct (byId id x); simpl; [now rewrite Hf | now rewrite IH].
Qed.

(* ===================================================================== *)
(** ** addBookmark *)
(* ===================================================================== *)

(** One call of [addBookmark], in closed form. *)
Lemma addBookmark_run newId chapterId hash text userId w :
  addBookmark newId chapterId hash text userId w =
  if negb (Js.truthy userId) then (inl (mkError "User is required"), w)
  else
    match find (byId chapterId) (chapters w) with
    | None => (inl (mkError "Chapter not found"), w)
    | Some chapter =>
        match find (fun b => String.eqb (Book._id b) (Chapter.bookId chapter))
                   (books w) with
        | None => (inl (mkError "Book not found"), w)
        | Some book =>
            match find (purchaseOf userId (Book._id book)) (purchases w) with
            | None => (inl (mkError "You have not bought this book."), w)
            | Some purchase =>
                let p' :=
                  Purchase.with_bookmarks purchase
                    (newBookmarks newId chapterId hash text purchase) in
                (inr p', set_purchases w (savedPurchases p' (purchases w)))
            end
        end
    end.
Proof.
  unfold addBookmark. destruct (negb (Js.truthy userId)); [reflexivity|].
  unfold bind, Chapter_findById, Book_findById, Purchase_findOne, gets. cbn.
  fold (byId chapterId).
  destruct (find (byId chapterId) (chapters w)) as [chapter|]; [|reflexivity].
  destruct (find _ (books w)) as [book|]; [|reflexivity].
  fold (purchaseOf userId (Book._id book)).
  destruct (find _ (purchases w)) as [purchase|]; reflexivity.
Qed.

(** Pulling a bookmark of the target chapter leaves the bookmarks of the
    other chapters as they are, when [_id]s identify bookmarks. *)
Lemma pull_keeps_others chapterId arr0 arr x :
  NoDup (map Bookmark._id arr0) -> incl arr arr0 -> In x arr ->
  filter (otherChapter chapterId) (pullIfSameChapter chapterId x arr) =
  filter (otherChapter chapterId) arr.
Proof.
  intros Hnd Hincl Hx. unfold pullIfSameChapter.
  destruct (String.eqb (Bookmark.chapterId x) chapterId) eqn:Ex;
    [|reflexivity].
  unfold pull. apply filter_filter_absorb. intros y Hy Hother.
  apply negb_true_iff. apply String.eqb_neq. intros Hid.
  assert (y = x) by
    (eapply (NoDup_map_inj Bookmark._id arr0); eauto).
  subst y. unfold otherChapter in Hother. rewrite Ex in Hother. discriminate.
Qed.

Lemma pullIfSameChapter_incl chapterId x arr :
  incl (pullIfSameChapter chapterId x arr) arr.
Proof.
  unfold pullIfSameChapter, pull.
  destruct (String.eqb _ _); [|apply incl_refl].
  intros y Hy. apply filter_In in Hy. exact (proj1 Hy).
Qed.

Lemma forEach_keeps_others chapterId arr0 :
  NoDup (map Bookmark._id arr0) ->
  filter (otherChapter chapterId) (forEach (pullIfSameChapter chapterId) arr0) =
  filter (otherChapter chapterId) arr0.
Proof.
  intros Hnd. unfold forEach.
  set (P := fun arr : list Bookmark.t =>
              incl arr arr0 /\
              filter (otherChapter chapterId) arr =
              filter (otherChapter chapterId) arr0).
  assert (Hstep : forall x arr, In x arr -> P arr ->
                  P (pullIfSameChapter chapterId x arr)).
  { intros x arr Hx [Hincl Hf]. split.
    - eapply incl_tran; [apply pullIfSameChapter_incl | exact Hincl].
    - rewrite <- Hf. apply (pull_keeps_others chapterId arr0); assumption. }
  assert (Hinit : P arr0) by (split; [apply incl_refl | reflexivity]).
  exact (proj2 (forEach_live_invariant P _ Hstep (length arr0) 0 arr0 Hinit)).
Qed.

(** When the purchase holds at most one bookmark of the chapter, the
    iteration removes it. *)
Lemma forEach_live_removes_single chapterId l2 : forall l1 n k,
  forallb (otherChapter chapterId) l1 = true ->
  forallb (otherChapter chapterId) l2 = true ->
  forall b,
  sameChapter chapterId b = true ->
  ~ In (Bookmark._id b) (map Bookmark._id (l1 ++ l2)) ->
  k <= length l1 -> length l1 < n + k ->
  forEach_live (pullIfSameChapter chapterId) n k (l1 ++ b :: l2) = l1 ++ l2.
Proof.
  intros l1 n. induction n as [|n IH]; intros k H1 H2 b Hb Hid Hk Hn;
    [lia|].
  assert (Hfix : forall x, In x (l1 ++ l2) ->
                 pullIfSameChapter chapterId x (l1 ++ l2) = l1 ++ l2).
  { intros x Hx. unfold pullIfSameChapter.
    assert (Ho : otherChapter chapterId x = true).
    { apply in_app_or in Hx as [Hx|Hx];
        [ rewrite forallb_forall in H1; now apply H1
        | rewrite forallb_forall in H2; now apply H2 ]. }
    unfold otherChapter in Ho. apply negb_true_iff in Ho. now rewrite Ho. }
  simpl. destruct (Nat.eq_dec k (length l1)) as [->|Hne].
  - rewrite nth_error_app2 by lia. rewrite Nat.sub_diag. simpl.
    unfold pullIfSameChapter at 2. unfold sameChapter in Hb. rewrite Hb.
    assert (Hpull : pull (Bookmark._id b) (l1 ++ b :: l2) = l1 ++ l2).
    { unfold pull. rewrite filter_app. simpl. rewrite String.eqb_refl. simpl.
      rewrite <- filter_app. apply forallb_filter_id.
      apply forallb_forall. intros y Hy. apply negb_true_iff.
      apply String.eqb_neq. intros E. apply Hid. rewrite <- E.
      now apply in_map. }
    rewrite Hpull. now apply forEach_live_fixed.
  - assert (Hlt : k < length l1) by lia.
    rewrite nth_error_app1 by exact Hlt.
    destruct (nth_error l1 k) as [x|] eqn:E;
      [|apply nth_error_None in E; lia].
    assert (Ho : otherChapter chapterId x = true).
    { rewrite forallb_forall in H1. apply H1.
      eapply nth_error_In; eassumption. }
    unfold pullIfSameChapter at 2. unfold otherChapter in Ho.
    apply negb_true_iff in Ho. rewrite Ho.
    apply IH; auto; lia.
Qed.

Lemma filter_single_split {A} (p : A -> bool) (l : list A) :
  length (filter p l) = 1 ->
  exists l1 b l2, l = l1 ++ b :: l2 /\ p b = true /\
    forallb (fun x => negb (p x)) l1 = true /\
    forallb (fun x => negb (p x)) l2 = true.
Proof.
  induction l as [|a l IH]; simpl; [discriminate|].
  destruct (p a) eqn:Ea; simpl; intros H.
  - exists [], a, l. repeat split; auto.
    apply forallb_forall. intros x Hx. apply negb_true_iff.
    destruct (p x) eqn:Ex; [|reflexivity].
    assert (In x (filter p l)) by (apply filter_In; auto).
    destruct (filter p l); [contradiction | discriminate].
  - destruct (IH H) as (l1 & b & l2 & -> & Hb & H1 & H2).
    exists (a :: l1), b, l2. repeat split; auto.
    simpl. now rewrite Ea, H1.
Qed.

(** With at most one bookmark of the chapter in the purchase, the
    iteration is the removal of that chapter's bookmarks. *)
Lemma forEach_removes_when_single chapterId arr :
  NoDup (map Bookmark._id arr) ->
  length (filter (sameChapter chapterId) arr) <= 1 ->
  forEach (pullIfSameChapter chapterId) arr =
  filter (otherChapter chapterId) arr.
Proof.
  intros Hnd Hle. unfold forEach.
  destruct (length (filter (sameChapter chapterId) arr)) as [|[|n]] eqn:E;
    [| |lia].
  - assert (Hall : forallb (otherChapter chapterId) arr = true).
    { apply forallb_forall. intros x Hx. unfold otherChapter.
      apply negb_true_iff. destruct (String.eqb _ _) eqn:Ex; [|reflexivity].
      assert (In x (filter (sameChapter chapterId) arr))
        by (apply filter_In; auto).
      destruct (filter (sameChapter chapterId) arr);
        [contradiction | discriminate]. }
    rewrite (forallb_filter_id _ _ Hall). apply forEach_live_fixed.
    intros x Hx. unfold pullIfSameChapter.
    rewrite forallb_forall in Hall. specialize (Hall x Hx).
    unfold otherChapter in Hall. apply negb_true_iff in Hall.
    now rewrite Hall.
  - destruct (filter_single_split _ _ E) as (l1 & b & l2 & -> & Hb & H1 & H2).
    change (forallb (otherChapter chapterId) l1 = true) in H1.
    change (forallb (otherChapter chapterId) l2 = true) in H2.
    rewrite filter_app. simpl. unfold otherChapter at 2.
    unfold sameChapter in Hb. rewrite Hb. simpl.
    rewrite (forallb_filter_id _ _ H1), (forallb_filter_id _ _ H2).
    apply forEach_live_removes_single; auto.
    + rewrite map_app in Hnd. simpl in Hnd. rewrite map_app.
      now apply NoDup_remove_2 in Hnd.
    + lia.
    + rewrite length_app. simpl. lia.
Qed.

(** In a purchase with unique bookmark [_id]s and at most one bookmark of
    the chapter, the saved bookmarks hold exactly one bookmark of the
    chapter, the new one. *)
Lemma newBookmarks_single newId chapterId hash text purchase :
  NoDup (map Bookmark._id (Purchase.bookmarks purchase)) ->
  length (filter (sameChapter chapterId) (Purchase.bookmarks purchase)) <= 1 ->
  filter (sameChapter chapterId)
         (newBookmarks newId chapterId hash text purchase) =
  [Bookmark.mk newId chapterId hash text].
Proof.
  intros Hnd Hle. unfold newBookmarks.
  rewrite forEach_removes_when_single by assumption.
  rewrite filter_app. simpl. unfold sameChapter at 2. simpl.
  rewrite String.eqb_refl.
  assert (Hnone : filter (sameChapter chapterId)
            (filter (otherChapter chapterId) (Purchase.bookmarks purchase)) = []).
  { induction (Purchase.bookmarks purchase) as [|x l IH]; simpl;
      [reflexivity|].
    destruct (otherChapter chapterId x) eqn:Ex; simpl.
    - unfold otherChapter in Ex. apply negb_true_iff in Ex.
      unfold sameChapter at 1. rewrite Ex.
      apply IH.
      + simpl in Hnd. now inversion Hnd.
      + simpl in Hle. destruct (sameChapter chapterId x); simpl in Hle; lia.
    - apply IH.
      + simpl in Hnd. now inversion Hnd.
      + simpl in Hle. destruct (sameChapter chapterId x); simpl in Hle; lia. }
  now rewrite Hnone.
Qed.

(* ===================================================================== *)
(** ** getBySlug *)
(* ===================================================================== *)

(** The assignments of the bookmark loop (lines 202-206): the last
    bookmark of the chapter is the one that stays. *)
Lemma bookmark_loop chapter bs : forall o,
  fold_left (fun o b => if String.eqb (Chapter._id chapter)
                                         (Bookmark.chapterId b)
                        then ChapterObj.set_bookmark o b else o) bs o =
  match find (bookmarkOf chapter) (rev bs) with
  | Some b => ChapterObj.set_bookmark o b
  | None => o
  end.
Proof.
  induction bs as [|b bs IH] using rev_ind; intros o; [reflexivity|].
  rewrite fold_left_app, rev_app_distr. simpl. rewrite IH.
  change (String.eqb (Chapter._id chapter) (Bookmark.chapterId b))
    with (bookmarkOf chapter b).
  destruct (bookmarkOf chapter b); [|reflexivity].
  destruct (find (bookmarkOf chapter) (rev bs)); reflexivity.
Qed.

(** One call of [getBySlug], in closed form. *)
Lemma getBySlug_run bookSlug chapterSlug userId isAdmin w :
  getBySlug bookSlug chapterSlug userId isAdmin w =
  match Book_getBySlug w bookSlug userId with
  | None => (inl (mkError "Not found"), w)
  | Some book =>
      match find (bySlug (Book._id book) chapterSlug) (chapters w) with
      | None => (inl (mkError "Not found"), w)
      | Some chapter => (inr (chapterView w userId isAdmin book chapter), w)
      end
  end.
Proof.
  unfold getBySlug, bind, gets, Chapter_findOne_slug. cbn.
  destruct (Book_getBySlug w bookSlug userId) as [book|]; [|reflexivity].
  fold (bySlug (Book._id book) chapterSlug).
  destruct (find (bySlug (Book._id book) chapterSlug) (chapters w))
    as [chapter|]; [|reflexivity].
  unfold chapterView.
  destruct (Js.truthy userId) eqn:Eu.
  - unfold Purchase_findOne, gets. cbn.
    fold (purchaseOf userId (Book._id book)).
    rewrite bookmark_loop.
    destruct (negb _); reflexivity.
  - cbn. destruct (negb _); reflexivity.
Qed.

Lemma chapterView_fields w userId isAdmin book chapter :
  let o := chapterView w userId isAdmin book chapter in
  chapterFieldsKept chapter o /\ ChapterObj.book o = Some book.
Proof.
  unfold chapterView, chapterFieldsKept.
  destruct (Js.truthy userId);
    [destruct (find (bookmarkOf chapter) _)|];
    cbn; destruct (negb _); cbn; repeat split; reflexivity.
Qed.

Lemma chapterView_content w userId isAdmin book chapter :
  ChapterObj.content (chapterView w userId isAdmin book chapter) =
  if Chapter.isFree chapter
     || (Js.truthy userId
         && (hasPurchase w userId (Book._id book) || Js.flag_truthy isAdmin))
  then Some (Chapter.content chapter)
  else None.
Proof.
  unfold chapterView, hasPurchase.
  destruct (Js.truthy userId); cbn.
  - destruct (find (purchaseOf userId (Book._id book)) (purchases w));
      destruct (find (bookmarkOf chapter) _); cbn;
      destruct (Chapter.isFree chapter); cbn; try reflexivity;
      destruct (Js.flag_truthy isAdmin); reflexivity.
  - rewrite orb_false_r. destruct (Chapter.isFree chapter); reflexivity.
Qed.

(* ===================================================================== *)
(** ** syncContent: lemmas on the stored chapter *)
(* ===================================================================== *)

Lemma byPath_applySet bookId path m c :
  byPath bookId path (applySet m c) = byPath bookId path c.
Proof. reflexivity. Qed.

Lemma byId_applySet id m c : byId id (applySet m c) = byId id c.
Proof. reflexivity. Qed.

(** After a sync the stored title is the payload's title. *)
Lemma title_after_sync data cs chapter :
  Chapter.title (applySet (syncModifier data cs chapter) chapter) =
  Attributes.title (Data.attributes data).
Proof.
  unfold syncModifier, applySet. cbn.
  destruct (String.eqb (Attributes.title (Data.attributes data))
                       (Chapter.title chapter)) eqn:E; cbn; [|reflexivity].
  apply String.eqb_eq in E. now rewrite E.
Qed.

(** A second modifier for the same payload changes nothing more. *)
Lemma applySet_again data cs cs' chapter' chapter c :
  Chapter.title chapter' = Attributes.title (Data.attributes data) ->
  applySet (syncModifier data cs' chapter')
           (applySet (syncModifier data cs chapter) c) =
  applySet (syncModifier data cs chapter) c.
Proof.
  intros Ht. unfold syncModifier. rewrite Ht, String.eqb_refl. cbn.
  unfold applySet. cbn. reflexivity.
Qed.

Lemma syncDocument_stable now newId book data cs cs' :
  let doc := syncDocument now newId book data cs in
  applySet (syncModifier data cs' doc) doc = doc.
Proof.
  unfold syncModifier, syncDocument, applySet. cbn.
  rewrite String.eqb_refl. reflexivity.
Qed.

Lemma find_none_existsb {A} (q : A -> bool) l :
  existsb q l = false -> find q l = None.
Proof.
  induction l as [|a l IH]; simpl; [reflexivity|].
  destruct (q a); [discriminate | exact IH].
Qed.

Lemma find_byId_unique cs ch :
  NoDup (map Chapter._id cs) -> In ch cs ->
  find (byId (Chapter._id ch)) cs = Some ch.
Proof.
  intros Hnd Hin.
  destruct (find (byId (Chapter._id ch)) cs) as [x|] eqn:E.
  - apply find_some in E as [Hx Hid]. unfold byId in Hid.
    apply String.eqb_eq in Hid. f_equal.
    now apply (NoDup_map_inj Chapter._id cs).
  - exfalso. apply (find_none _ _ E ch) in Hin. unfold byId in Hin.
    rewrite String.eqb_refl in Hin. discriminate.
Qed.

Lemma existsb_ext_in {A} (f g : A -> bool) l :
  (forall x, In x l -> f x = g x) -> existsb f l = existsb g l.
Proof.
  induction l as [|a l IH]; intros H; simpl; [reflexivity|].
  rewrite (H a) by now left. rewrite IH; [reflexivity|].
  intros x Hx. apply H. now right.
Qed.

Lemma requiredString_spec s :
  mongoSchema.requiredString s = true <-> s <> "".
Proof.
  unfold mongoSchema.requiredString. rewrite negb_true_iff.
  apply String.eqb_neq.
Qed.

Lemma castNumber_spec n :
  mongoSchema.castNumber n = true <-> n <> Js.JNaN.
Proof.
  destruct n; simpl; split; intros H; try reflexivity; try discriminate.
  now contradiction H.
Qed.

Lemma syncWorld_again data w :
  syncWorld data (syncWorld data w) = syncWorld data w.
Proof. reflexivity. Qed.

(** The answer of [create] depends on neither the [_id] nor the date. *)
Lemma createError_any_id now1 id1 now2 id2 book data cs :
  createError (syncDocument now1 id1 book data cs) cs =
  createError (syncDocument now2 id2 book data cs) cs.
Proof. reflexivity. Qed.

(** For a path the book has no chapter of, [create] takes the document
    exactly for the payloads described by [creatable]. *)
Lemma createError_creatable now newId book data w :
  find (byPath (Book.id book) (Data.path data)) (chapters w) = None ->
  createError (syncDocument now newId book data (chapters w)) (chapters w)
    = None
  <-> creatable book data w.
Proof.
  intros Hnone. unfold createError, creatable. cbv zeta.
  set (doc := syncDocument now newId book data (chapters w)).
  assert (Hdup : mongoSchema.duplicateKey doc (chapters w) =
                 existsb (bySlug (Book._id book) (Chapter.slug doc))
                         (chapters w)).
  { unfold mongoSchema.duplicateKey. apply existsb_ext_in. intros c Hc.
    assert (Hp : mongoSchema.samePath c doc = false).
    { pose proof (find_none _ _ Hnone c Hc) as Hq.
      unfold byPath, option_eqb, Book.id in Hq.
      unfold mongoSchema.samePath, doc, syncDocument. cbn.
      destruct (Chapter.githubFilePath c); [exact Hq|].
      apply andb_false_r. }
    rewrite Hp, orb_false_r. reflexivity. }
  rewrite Hdup. unfold mongoSchema.validate.
  change (Chapter.title doc) with (Attributes.title (Data.attributes data)).
  change (Chapter.content doc) with (Data.body data).
  change (Chapter.htmlContent doc)
    with (marked_output htmlOptions (he_decode (Data.body data))).
  change (Chapter.order doc) with (chapterOrder (Data.path data)).
  change (Chapter.slug doc)
    with (generateSlug (chapters w) (Attributes.title (Data.attributes data))
                       (Book._id book)).
  rewrite <- !requiredString_spec, <- castNumber_spec.
  destruct (mongoSchema.requiredString
              (Attributes.title (Data.attributes data)));
  destruct (mongoSchema.requiredString
              (generateSlug (chapters w)
                 (Attributes.title (Data.attributes data)) (Book._id book)));
  destruct (mongoSchema.requiredString (Data.body data));
  destruct (mongoSchema.requiredString
              (marked_output htmlOptions (he_decode (Data.body data))));
  destruct (mongoSchema.castNumber (chapterOrder (Data.path data)));
  destruct (existsb
              (bySlug (Book._id book)
                 (generateSlug (chapters w)
                    (Attributes.title (Data.attributes data)) (Book._id book)))
              (chapters w));
  cbn; split; intros H; try discriminate; try reflexivity;
  try (repeat split; reflexivity);
  destruct H as (H1 & H2 & H3 & H4 & H5 & H6); discriminate.
Qed.

(** [updateOne] takes the modifier of a stored chapter exactly for the
    payloads described by [updatable]. *)
Lemma updateError_updatable data w chapter :
  updateError (syncModifier data (chapters w) chapter) chapter (chapters w)
    = None
  <-> updatable data w chapter.
Proof.
  unfold updateError, updatable, mongoSchema.castUpdate,
    mongoSchema.duplicateSlug. cbv zeta.
  set (a := Data.attributes data).
  set (slug := generateSlug (chapters w) (Attributes.title a)
                            (Chapter.bookId chapter)).
  change (Modifier.order (syncModifier data (chapters w) chapter))
    with (chapterOrder (Data.path data)).
  rewrite <- castNumber_spec.
  destruct (mongoSchema.castNumber (chapterOrder (Data.path data)));
    cbn [negb]; [|split; [discriminate | intros [H _]; discriminate]].
  unfold syncModifier, applySet. cbn. fold a. fold slug.
  destruct (String.eqb (Attributes.title a) (Chapter.title chapter)) eqn:Et;
    cbn.
  - rewrite String.eqb_refl. cbn. split; [|reflexivity].
    intros _. split; [reflexivity|]. intros Hne.
    apply String.eqb_eq in Et. contradiction.
  - apply String.eqb_neq in Et.
    destruct (String.eqb slug (Chapter.slug chapter)) eqn:Es; cbn.
    + apply String.eqb_eq in Es. split; [|reflexivity].
      intros _. split; [reflexivity|]. intros _ Hne. contradiction.
    + apply String.eqb_neq in Es.
      change (fun c : Chapter.t =>
                mongoSchema.sameSlug c _)
        with (bySlug (Chapter.bookId chapter) slug).
      destruct (existsb (bySlug (Chapter.bookId chapter) slug) (chapters w)).
      * split; [discriminate|]. intros [_ H]. specialize (H Et Es).
        discriminate.
      * split; [|reflexivity]. intros _. split; [reflexivity|].
        intros _ _. reflexivity.
Qed.

(** [syncContent] for a path the book has no chapter of. *)
Lemma syncContent_create_run now newId book data w :
  find (byPath (Book.id book) (Data.path data)) (chapters w) = None ->
  syncContent now newId book data w =
  match createError (syncDocument now newId book data (chapters w))
                    (chapters w) with
  | Some e => (inl e, syncWorld data w)
  | None =>
      (inr (Created (syncDocument now newId book data (chapters w))),
       set_chapters (syncWorld data w)
         (chapters w ++ [syncDocument now newId book data (chapters w)]))
  end.
Proof.
  intros Hnone. rewrite syncContent_run, Hnone.
  unfold bind. rewrite Chapter_create_run.
  change (chapters (syncWorld data w)) with (chapters w).
  destruct (createError (syncDocument now newId book data (chapters w))
                        (chapters w)); reflexivity.
Qed.

(** [syncContent] for a chapter that is stored under the only [_id] of
    its kind. *)
Lemma syncContent_update_run now newId book data w chapter :
  find (byId (Chapter._id chapter)) (chapters w) = Some chapter ->
  find (byPath (Book.id book) (Data.path data)) (chapters w) = Some chapter ->
  syncContent now newId book data w =
  match updateError (syncModifier data (chapters w) chapter) chapter
                    (chapters w) with
  | Some e => (inl e, syncWorld data w)
  | None =>
      (inr (Updated 1),
       set_chapters (syncWorld data w)
         (update_first (byId (Chapter._id chapter))
            (applySet (syncModifier data (chapters w) chapter)) (chapters w)))
  end.
Proof.
  intros Hid Hfind. rewrite syncContent_run, Hfind.
  unfold bind.
  rewrite (Chapter_updateOne_run _ _ chapter) by exact Hid.
  change (chapters (syncWorld data w)) with (chapters w).
  destruct (updateError (syncModifier data (chapters w) chapter) chapter
                        (chapters w)); reflexivity.
Qed.

(* ===================================================================== *)
(** ** The claims *)
(* ===================================================================== *)

Lemma hasPurchase_exists w userId bookId :
  hasPurchase w userId bookId = true <-> purchaseExists w userId bookId.
Proof.
  unfold hasPurchase, purchaseExists, eval, Purchase_findOne, gets. cbn.
  fold (purchaseOf userId bookId).
  destruct (find (purchaseOf userId bookId) (purchases w)) as [p|]; split.
  - intros _. now exists p.
  - reflexivity.
  - discriminate.
  - intros [p H]. discriminate.
Qed.

(** C1 (amended).  When [getBySlug] finds both the book and the chapter:
    the returned object has no [content] if the chapter is not free and
    the request does not carry a user id together with either a purchase
    of the book by that user or a set admin flag; it has the chapter's
    [content] if the chapter is free, or if a user id is supplied and
    that user has a purchase of the book or the admin flag is set.  In
    particular an admin flag without a user id does not unlock it. *)
Theorem getBySlug_content bookSlug chapterSlug userId isAdmin w book chapter :
  Book_getBySlug w bookSlug userId = Some book ->
  eval (Chapter_findOne_slug (Book._id book) chapterSlug) w
    = inr (Some chapter) ->
  exists obj,
    getBySlug bookSlug chapterSlug userId isAdmin w = (inr obj, w) /\
    (Chapter.isFree chapter = false ->
     ~ (Js.truthy userId = true /\
        (purchaseExists w userId (Book._id book) \/ isAdmin = Js.JBool true)) ->
     ChapterObj.content obj = None) /\
    (Chapter.isFree chapter = true \/
     (Js.truthy userId = true /\
      (purchaseExists w userId (Book._id book) \/ isAdmin = Js.JBool true)) ->
     ChapterObj.content obj = Some (Chapter.content chapter)).
Proof.
  intros Hbook Hchapter.
  unfold eval, Chapter_findOne_slug, gets in Hchapter. cbn in Hchapter.
  injection Hchapter as Hchapter.
  fold (bySlug (Book._id book) chapterSlug) in Hchapter.
  exists (chapterView w userId isAdmin book chapter).
  rewrite getBySlug_run, Hbook, Hchapter. split; [reflexivity|].
  rewrite chapterView_content. split.
  - intros Hfree Hnot. rewrite Hfree. cbn.
    destruct (Js.truthy userId) eqn:Eu; [|reflexivity]. cbn.
    destruct (hasPurchase w userId (Book._id book)) eqn:Ep.
    + exfalso. apply Hnot. split; [reflexivity|]. left.
      now apply hasPurchase_exists.
    + cbn. destruct isAdmin as [|[|]]; cbn; try reflexivity.
      exfalso. apply Hnot. split; [reflexivity|]. now right.
  - intros [Hfree|[Hu [Hp|Ha]]].
    + now rewrite Hfree.
    + apply hasPurchase_exists in Hp. rewrite Hu, Hp. cbn.
      now rewrite orb_true_r.
    + rewrite Hu, Ha. cbn. now rewrite !orb_true_r.
Qed.

(** C8.  [getBySlug] raises the error "Not found" if and only if the book
    lookup by slug or the chapter lookup by (bookId, slug) returns no
    record, and it raises no other error; when both lookups succeed it
    returns, without changing the store, a plain object that has the
    chapter's properties (its [content] or none) and the book attached. *)
Theorem getBySlug_not_found bookSlug chapterSlug userId isAdmin w :
  (eval (getBySlug bookSlug chapterSlug userId isAdmin) w
     = inl (mkError "Not found") <->
   Book_getBySlug w bookSlug userId = None \/
   exists book,
     Book_getBySlug w bookSlug userId = Some book /\
     eval (Chapter_findOne_slug (Book._id book) chapterSlug) w = inr None) /\
  (isError (eval (getBySlug bookSlug chapterSlug userId isAdmin) w) = true ->
   eval (getBySlug bookSlug chapterSlug userId isAdmin) w
     = inl (mkError "Not found")) /\
  (forall book chapter,
     Book_getBySlug w bookSlug userId = Some book ->
     eval (Chapter_findOne_slug (Book._id book) chapterSlug) w
       = inr (Some chapter) ->
     exists obj,
       getBySlug bookSlug chapterSlug userId isAdmin w = (inr obj, w) /\
       chapterFieldsKept chapter obj /\
       ChapterObj.book obj = Some book /\
       (ChapterObj.content obj = Some (Chapter.content chapter) \/
        ChapterObj.content obj = None)).
Proof.
  unfold eval. rewrite getBySlug_run.
  unfold Chapter_findOne_slug, gets. cbn.
  destruct (Book_getBySlug w bookSlug userId) as [book|] eqn:Hbook.
  - fold (bySlug (Book._id book) chapterSlug).
    destruct (find (bySlug (Book._id book) chapterSlug) (chapters w))
      as [chapter|] eqn:Hchapter; cbn.
    + split; [|split].
      * split; [discriminate|].
        intros [H|(b & Hb & H)]; [discriminate|].
        injection Hb as <-.
        fold (bySlug (Book._id book) chapterSlug) in H.
        rewrite Hchapter in H. discriminate.
      * discriminate.
      * intros b c [= <-] Hc.
        fold (bySlug (Book._id book) chapterSlug) in Hc.
        rewrite Hchapter in Hc. injection Hc as <-.
        exists (chapterView w userId isAdmin book chapter).
        split; [reflexivity|].
        destruct (chapterView_fields w userId isAdmin book chapter) as [Hf Hb].
        repeat split; try apply Hf; try exact Hb.
        rewrite chapterView_content. destruct (_ || _); auto.
    + split; [|split].
      * split; [|reflexivity]. intros _. right. exists book.
        fold (bySlug (Book._id book) chapterSlug). now rewrite Hchapter.
      * reflexivity.
      * intros b c [= <-] Hc.
        fold (bySlug (Book._id book) chapterSlug) in Hc.
        rewrite Hchapter in Hc. discriminate.
  - cbn. split; [|split].
    + split; [now left | reflexivity].
    + reflexivity.
    + intros b c Hb. discriminate.
Qed.


(** C10.  In a purchase whose bookmarks have pairwise distinct [_id]s, a
    successful [addBookmark] leaves every bookmark of another chapter as
    it was and in its place, and changes no other property of the
    purchase; in the store only the [bookmarks] of the purchase with that
    [_id] are written. *)
Theorem addBookmark_frame newId chapterId hash text userId w p' w' :
  (forall p, In p (purchases w) ->
             NoDup (map Bookmark._id (Purchase.bookmarks p))) ->
  addBookmark newId chapterId hash text userId w = (inr p', w') ->
  exists chapter book p,
    eval (Chapter_findById chapterId) w = inr (Some chapter) /\
    eval (Book_findById (Chapter.bookId chapter)) w = inr (Some book) /\
    eval (Purchase_findOne userId (Book._id book)) w = inr (Some p) /\
    filter (otherChapter chapterId) (Purchase.bookmarks p') =
    filter (otherChapter chapterId) (Purchase.bookmarks p) /\
    Purchase._id p' = Purchase._id p /\
    Purchase.userId p' = Purchase.userId p /\
    Purchase.bookId p' = Purchase.bookId p /\
    chapters w' = chapters w /\
    books w' = books w /\
    purchases w' = savedPurchases p' (purchases w).
Proof.
  intros Hids. rewrite addBookmark_run.
  unfold eval, Chapter_findById, Book_findById, Purchase_findOne, gets. cbn.
  fold (byId chapterId).
  destruct (negb (Js.truthy userId)); [discriminate|].
  destruct (find (byId chapterId) (chapters w)) as [chapter|]; [|discriminate].
  destruct (find (fun b => String.eqb (Book._id b) (Chapter.bookId chapter))
                 (books w)) as [book|] eqn:Eb; [|discriminate].
  fold (purchaseOf userId (Book._id book)).
  destruct (find (purchaseOf userId (Book._id book)) (purchases w))
    as [p|] eqn:Ep; [|discriminate].
  cbv zeta. intros [= <- <-].
  exists chapter, book, p. rewrite Eb.
  fold (purchaseOf userId (Book._id book)). rewrite Ep.
  repeat split.
  cbn. unfold newBookmarks. rewrite filter_app. cbn.
  unfold otherChapter at 2. cbn. rewrite String.eqb_refl. cbn.
  rewrite app_nil_r. apply forEach_keeps_others.
  apply Hids. eapply find_some. eassumption.
Qed.

(** C3.  In a store whose chapters have pairwise distinct [_id]s, and
    with a fresh [_id] for a created chapter, a second [syncContent] with
    the same book and payload leaves the world exactly as the first call
    left it, for every payload.  When the first call returns, the second
    call finds the chapter, whose stored title is the payload's title, so
    it is an update that regenerates no slug.  When the store refuses the
    write of the first call, no chapter has changed and the second call
    is refused in the same way. *)
Theorem syncContent_idempotent now1 id1 now2 id2 book data w :
  NoDup (map Chapter._id (chapters w)) ->
  ~ In id1 (map Chapter._id (chapters w)) ->
  let w1 := exec (syncContent now1 id1 book data) w in
  exec (syncContent now2 id2 book data) w1 = w1 /\
  (forall r,
     eval (syncContent now1 id1 book data) w = inr r ->
     exists chapter,
       eval (Chapter_findOne_path (Book.id book) (Data.path data)) w1
         = inr (Some chapter) /\
       Chapter.title chapter = Attributes.title (Data.attributes data) /\
       eval (syncContent now2 id2 book data) w1 = inr (Updated 1)) /\
  (forall e,
     eval (syncContent now1 id1 book data) w = inl e ->
     chapters w1 = chapters w /\
     eval (syncContent now2 id2 book data) w1 = inl e).
Proof.
  intros Hnd Hfresh. cbv zeta. unfold exec, eval.
  unfold Chapter_findOne_path, gets. cbn [fst snd].
  fold (byPath (Book.id book) (Data.path data)).
  destruct (find (byPath (Book.id book) (Data.path data)) (chapters w))
    as [chapter|] eqn:Efind.
  - (* the chapter was there *)
    assert (Hin : In chapter (chapters w))
      by (eapply find_some; eassumption).
    assert (Hid : find (byId (Chapter._id chapter)) (chapters w)
                  = Some chapter)
      by (apply find_byId_unique; assumption).
    rewrite (syncContent_update_run now1 id1 book data w chapter Hid Efind).
    set (m := syncModifier data (chapters w) chapter).
    destruct (updateError m chapter (chapters w)) as [e|] eqn:Eup;
      cbn [fst snd].
    + (* the update is refused, twice *)
      rewrite (syncContent_update_run now2 id2 book data (syncWorld data w)
                 chapter Hid Efind).
      change (chapters (syncWorld data w)) with (chapters w).
      fold m. rewrite Eup. cbn [fst snd].
      split; [reflexivity|]. split; [intros r Hr; discriminate|].
      intros e' He'. injection He' as <-. split; reflexivity.
    + (* two updates *)
      set (cs1 := update_first (byId (Chapter._id chapter)) (applySet m)
                               (chapters w)).
      assert (Hfind1 : find (byPath (Book.id book) (Data.path data)) cs1
                       = Some (applySet m chapter)).
      { apply find_update_first_byId; [exact Hnd | exact Efind |].
        rewrite byPath_applySet.
        apply find_some in Efind. apply Efind. }
      assert (Hid1 : find (byId (Chapter._id (applySet m chapter))) cs1
                     = Some (applySet m chapter)).
      { change (Chapter._id (applySet m chapter)) with (Chapter._id chapter).
        apply find_update_first_byId; [exact Hnd | exact Hid |].
        unfold byId. apply String.eqb_refl. }
      assert (Ht : Chapter.title (applySet m chapter)
                   = Attributes.title (Data.attributes data))
        by apply title_after_sync.
      assert (Hcast : mongoSchema.castUpdate m = true).
      { unfold updateError in Eup.
        destruct (mongoSchema.castUpdate m); [reflexivity|discriminate]. }
      assert (Eup1 : updateError (syncModifier data cs1 (applySet m chapter))
                       (applySet m chapter) cs1 = None).
      { unfold updateError, mongoSchema.duplicateSlug.
        change (mongoSchema.castUpdate
                  (syncModifier data cs1 (applySet m chapter)))
          with (mongoSchema.castUpdate m).
        rewrite Hcast. cbn [negb].
        unfold m at 2.
        rewrite (applySet_again data (chapters w) cs1 (applySet m chapter)
                   chapter chapter Ht).
        fold m. now rewrite String.eqb_refl. }
      pose proof (syncContent_update_run now2 id2 book data
                    (set_chapters (syncWorld data w) cs1)
                    (applySet m chapter) Hid1 Hfind1) as Hrun.
      cbn [chapters set_chapters syncWorld] in Hrun.
      rewrite Eup1 in Hrun. rewrite Hrun. cbn [fst snd].
      split.
      * unfold set_chapters, syncWorld. cbn. f_equal.
        change (Chapter._id (applySet m chapter)) with (Chapter._id chapter).
        unfold cs1. rewrite update_first_twice by (intros; assumption).
        apply update_first_ext. intros c _.
        apply applySet_again. exact Ht.
      * split; [|intros e He; discriminate].
        intros r _. exists (applySet m chapter).
        cbn [chapters set_chapters]. rewrite Hfind1.
        split; [reflexivity|]. split; [exact Ht | reflexivity].
  - (* no chapter for the path *)
    rewrite (syncContent_create_run now1 id1 book data w Efind).
    set (doc := syncDocument now1 id1 book data (chapters w)).
    destruct (createError doc (chapters w)) as [e|] eqn:Ecr; cbn [fst snd].
    + (* the document is refused, twice *)
      rewrite (syncContent_create_run now2 id2 book data (syncWorld data w)
                 Efind).
      change (chapters (syncWorld data w)) with (chapters w).
      rewrite (createError_any_id now2 id2 now1 id1). fold doc.
      rewrite Ecr. cbn [fst snd].
      split; [reflexivity|]. split; [intros r Hr; discriminate|].
      intros e' He'. injection He' as <-. split; reflexivity.
    + (* the chapter is created: the second call updates it *)
      assert (Hdoc : byPath (Book.id book) (Data.path data) doc = true).
      { unfold byPath, doc, syncDocument, Book.id. cbn.
        now rewrite !String.eqb_refl. }
      assert (Hnone : existsb (byId id1) (chapters w) = false).
      { destruct (existsb (byId id1) (chapters w)) eqn:E; [|reflexivity].
        exfalso. apply Hfresh. apply existsb_exists in E as (c & Hc & Hid).
        unfold byId in Hid. apply String.eqb_eq in Hid. rewrite <- Hid.
        now apply in_map. }
      assert (Hid : byId id1 doc = true)
        by (unfold byId; apply String.eqb_refl).
      assert (Hfind1 : find (byPath (Book.id book) (Data.path data))
                            (chapters w ++ [doc]) = Some doc)
        by (rewrite (find_app_none _ _ _ Efind), Hdoc; reflexivity).
      assert (Hid1 : find (byId (Chapter._id doc)) (chapters w ++ [doc])
                     = Some doc).
      { change (Chapter._id doc) with id1.
        rewrite (find_app_none _ _ _ (find_none_existsb _ _ Hnone)), Hid.
        reflexivity. }
      assert (Hvalid : mongoSchema.validate doc = true).
      { unfold createError in Ecr.
        destruct (mongoSchema.validate doc); [reflexivity|discriminate]. }
      assert (Eup1 : updateError (syncModifier data (chapters w ++ [doc]) doc)
                       doc (chapters w ++ [doc]) = None).
      { unfold updateError, mongoSchema.duplicateSlug.
        pose proof (syncDocument_stable now1 id1 book data (chapters w)
                      (chapters w ++ [doc])) as Hst.
        cbv zeta in Hst. fold doc in Hst. rewrite Hst.
        rewrite String.eqb_refl. cbn [negb andb].
        unfold mongoSchema.validate in Hvalid.
        apply andb_prop in Hvalid as [_ Horder].
        change (mongoSchema.castUpdate
                  (syncModifier data (chapters w ++ [doc]) doc))
          with (mongoSchema.castNumber (Chapter.order doc)).
        now rewrite Horder. }
      pose proof (syncContent_update_run now2 id2 book data
                    (set_chapters (syncWorld data w) (chapters w ++ [doc]))
                    doc Hid1 Hfind1) as Hrun.
      cbn [chapters set_chapters syncWorld] in Hrun.
      rewrite Eup1 in Hrun. rewrite Hrun. cbn [fst snd].
      split.
      * unfold set_chapters, syncWorld. cbn. f_equal.
        change (Chapter._id doc) with id1.
        rewrite (update_first_app_none _ _ _ _ Hnone), Hid.
        unfold doc. now rewrite syncDocument_stable.
      * split; [|intros e He; discriminate].
        intros r _. exists doc. cbn [chapters set_chapters].
        rewrite Hfind1. split; [reflexivity|]. split; reflexivity.
Qed.


(** C4 (amended).  The order of the path "introduction.md" is 1; for
    every other path that holds a decimal digit, and whose first embedded
    integer is below 2^53, the order is that integer plus one; in
    particular "chapter-03.md" yields order 4. *)
Theorem chapterOrder_spec :
  chapterOrder "introduction.md" = Js.JNum 1 /\
  (forall path n,
     path <> "introduction.md" ->
     firstEmbeddedInteger path = Some n ->
     (n < 2 ^ 53)%Z ->
     chapterOrder path = Js.JNum (n + 1)) /\
  chapterOrder "chapter-03.md" = Js.JNum 4.
Proof.
  split; [reflexivity|]. split; [|reflexivity].
  intros path n Hne Hfirst Hn. unfold chapterOrder.
  apply String.eqb_neq in Hne. rewrite Hne.
  rewrite (match_digits_first_integer path n Hfirst).
  assert (Hpos : (0 <= n)%Z) by (eapply first_integer_nonneg; exact Hfirst).
  rewrite roundToDouble_exact by lia.
  unfold Js.add. apply roundToDouble_succ. lia.
Qed.

(** C9.  For every path other than "introduction.md" that holds no
    decimal digit, the regular expression does not match and the order
    is NaN; so the order is a number only if the path is
    "introduction.md" or holds a digit. *)
Theorem chapterOrder_without_digit :
  (forall path,
     path <> "introduction.md" -> hasDigit path = false ->
     Js.match_digits path = None /\ chapterOrder path = Js.JNaN) /\
  (forall path,
     chapterOrder path <> Js.JNaN ->
     path = "introduction.md" \/ hasDigit path = true).
Proof.
  assert (H1 : forall path,
     path <> "introduction.md" -> hasDigit path = false ->
     Js.match_digits path = None /\ chapterOrder path = Js.JNaN).
  { intros path Hne Hd. pose proof (match_digits_none path Hd) as Hm.
    split; [exact Hm|]. unfold chapterOrder.
    apply String.eqb_neq in Hne. rewrite Hne, Hm. reflexivity. }
  split; [exact H1|].
  intros path Hnum.
  destruct (String.eqb path "introduction.md") eqn:E.
  - left. now apply String.eqb_eq.
  - right. destruct (hasDigit path) eqn:Hd; [reflexivity|].
    exfalso. apply Hnum. apply H1; [now apply String.eqb_neq | exact Hd].
Qed.

(** C5.  [getSections] returns one entry for each level-2 heading the
    parser reports on the decoded content, in document order; an entry
    holds the heading text, the level 2 and, as [escapedText], the text
    trimmed, lower-cased, with every run of non-word characters replaced
    by one hyphen; without a level-2 heading the result is empty. *)
Theorem getSections_level2 content w :
  let hs := marked_headings (sectionsOptions w) (he_decode content) in
  eval (getSections content) w =
    inr (map (fun h => SectionEntry.mk (fst h) 2 (slugOfHeading (fst h)))
             (filter (fun h => (snd h =? 2)%Z) hs)) /\
  ((forall h, In h hs -> snd h <> 2%Z) ->
   eval (getSections content) w = inr []).
Proof.
  cbv zeta. unfold eval. rewrite getSections_run. cbn [fst].
  split; [reflexivity|].
  intros Hnone. f_equal. unfold level2_entries.
  set (hs := marked_headings _ _) in *.
  assert (Hf : filter (fun h : string * Z => (snd h =? 2)%Z) hs = []).
  { induction hs as [|h hs IH]; [reflexivity|]. simpl.
    destruct (snd h =? 2)%Z eqn:E.
    - apply Z.eqb_eq in E. exfalso.
      apply (Hnone h); [now left | exact E].
    - apply IH. intros x Hx. apply Hnone. now right. }
  now rewrite Hf.
Qed.

(** What [addBookmark] does guarantee: if the purchase it loads has
    pairwise distinct bookmark [_id]s and at most one bookmark of the
    chapter, the purchase it saves has exactly one, the new one. *)
Lemma addBookmark_single newId chapterId hash text userId w p' w' :
  (forall p, In p (purchases w) ->
             NoDup (map Bookmark._id (Purchase.bookmarks p)) /\
             length (filter (sameChapter chapterId) (Purchase.bookmarks p)) <= 1) ->
  addBookmark newId chapterId hash text userId w = (inr p', w') ->
  filter (sameChapter chapterId) (Purchase.bookmarks p') =
  [Bookmark.mk newId chapterId hash text].
Proof.
  intros Hwf. rewrite addBookmark_run.
  destruct (negb (Js.truthy userId)); [discriminate|].
  destruct (find (byId chapterId) (chapters w)) as [chapter|]; [|discriminate].
  destruct (find _ (books w)) as [book|]; [|discriminate].
  destruct (find (purchaseOf userId (Book._id book)) (purchases w))
    as [p|] eqn:Ep; [|discriminate].
  cbv zeta. intros [= <- _]. cbn [Purchase.bookmarks Purchase.with_bookmarks].
  apply find_some in Ep. destruct (Hwf p (proj1 Ep)) as [Hnd Hle].
  now apply newBookmarks_single.
Qed.

(* ===================================================================== *)
(** ** Further properties: the heading slug *)
(* ===================================================================== *)

Lemma hyphen_not_word : Js.is_word "-" = false.
Proof. reflexivity. Qed.

Lemma lower_char_slug c :
  Js.is_word (Js.lower_char c) = true ->
  is_slug_char (Js.lower_char c) = true.
Proof.
  destruct c as [[] [] [] [] [] [] [] []]; vm_compute; intros H;
    first [reflexivity | discriminate H].
Qed.

Lemma slug_char_lower c : is_slug_char c = true -> Js.lower_char c = c.
Proof.
  destruct c as [[] [] [] [] [] [] [] []]; vm_compute; intros H;
    first [reflexivity | discriminate H].
Qed.

Lemma slug_char_not_space c : is_slug_char c = true -> Js.is_space c = false.
Proof.
  destruct c as [[] [] [] [] [] [] [] []]; vm_compute; intros H;
    first [reflexivity | discriminate H].
Qed.

Lemma slug_char_word c :
  is_slug_char c = true -> c <> "-"%char -> Js.is_word c = true.
Proof.
  destruct c as [[] [] [] [] [] [] [] []]; vm_compute; intros H Hne;
    first [reflexivity | discriminate H | exfalso; apply Hne; reflexivity].
Qed.

Lemma lower_char_space c : Js.is_space (Js.lower_char c) = Js.is_space c.
Proof. destruct c as [[] [] [] [] [] [] [] []]; reflexivity. Qed.

Lemma lower_char_twice c : Js.lower_char (Js.lower_char c) = Js.lower_char c.
Proof. destruct c as [[] [] [] [] [] [] [] []]; reflexivity. Qed.

(** The head of what [dropWhile] leaves does not satisfy the test. *)
Lemma dropWhile_head {A} (p : A -> bool) l x r :
  Js.dropWhile p l = x :: r -> p x = false.
Proof.
  induction l as [|a l IH]; simpl; [discriminate|].
  destruct (p a) eqn:E; [exact IH|]. now intros [= <- _].
Qed.

Lemma dropWhile_stop {A} (p : A -> bool) x l :
  p x = false -> Js.dropWhile p (x :: l) = x :: l.
Proof. intros H. simpl. now rewrite H. Qed.

(** A character of the slug is a hyphen or a word character of the text. *)
Lemma hyphenate_runs_from s : forall c,
  In c (hyphenate_runs s) ->
  c = "-"%char \/ (In c s /\ Js.is_word c = true).
Proof.
  remember (length s) as n eqn:Hn. revert s Hn.
  induction n as [n IH] using lt_wf_ind. intros s Hn c Hin.
  destruct s as [|a s]; [contradiction|].
  destruct (Js.is_word a) eqn:Ea.
  - rewrite (hyphenate_word a s Ea) in Hin. destruct Hin as [<-|Hin].
    + right. split; [now left | exact Ea].
    + destruct (IH (length s) ltac:(subst; simpl; lia) s eq_refl c Hin)
        as [H|[H1 H2]]; [now left|]. right. split; [now right | exact H2].
  - rewrite (hyphenate_non_word s a Ea) in Hin. destruct Hin as [<-|Hin];
      [now left|].
    pose proof (dropWhile_length Js.non_word s) as Hlen.
    destruct (IH (length (Js.dropWhile Js.non_word s))
                 ltac:(subst; simpl; lia) _ eq_refl c Hin) as [H|[H1 H2]];
      [now left|].
    right. split; [|exact H2]. right.
    rewrite <- (takeWhile_dropWhile Js.non_word s). apply in_or_app. now right.
Qed.

Lemma hyphenate_runs_no_double s : no_double_hyphen (hyphenate_runs s) = true.
Proof.
  remember (length s) as n eqn:Hn. revert s Hn.
  induction n as [n IH] using lt_wf_ind. intros s Hn.
  destruct s as [|a s]; [reflexivity|].
  destruct (Js.is_word a) eqn:Ea.
  - rewrite (hyphenate_word a s Ea).
    assert (Hs := IH (length s) ltac:(subst; simpl; lia) s eq_refl).
    cbn [no_double_hyphen]. destruct (hyphenate_runs s) as [|b t];
      [reflexivity|].
    rewrite Hs, andb_true_r.
    destruct (Ascii.eqb a "-") eqn:E; [|reflexivity].
    apply Ascii.eqb_eq in E. subst a. discriminate Ea.
  - rewrite (hyphenate_non_word s a Ea).
    pose proof (dropWhile_length Js.non_word s) as Hlen.
    assert (Hr := IH (length (Js.dropWhile Js.non_word s))
                     ltac:(subst; simpl; lia) _ eq_refl).
    destruct (Js.dropWhile Js.non_word s) as [|d r] eqn:Ed; [reflexivity|].
    assert (Hd : Js.is_word d = true).
    { apply dropWhile_head in Ed. unfold Js.non_word in Ed.
      now apply negb_false_iff in Ed. }
    rewrite (hyphenate_word d r Hd) in *.
    cbn [no_double_hyphen]. cbn [no_double_hyphen] in Hr.
    destruct (Ascii.eqb d "-") eqn:E.
    + apply Ascii.eqb_eq in E. subst d. discriminate Hd.
    + rewrite andb_false_r. cbn [negb andb]. exact Hr.
Qed.

(** A text that already has the shape of a slug is its own slug. *)
Lemma hyphenate_runs_fixed s :
  forallb is_slug_char s = true -> no_double_hyphen s = true ->
  hyphenate_runs s = s.
Proof.
  induction s as [|a s IH]; intros Hall Hnd; [reflexivity|].
  cbn [forallb] in Hall. apply andb_prop in Hall as [Ha Hs].
  assert (Hnd' : no_double_hyphen s = true).
  { cbn [no_double_hyphen] in Hnd. destruct s; [reflexivity|].
    now apply andb_prop in Hnd. }
  destruct (Js.is_word a) eqn:Ea.
  - rewrite (hyphenate_word a s Ea). now rewrite IH.
  - assert (a = "-"%char).
    { destruct (ascii_dec a "-") as [E|E]; [exact E|].
      rewrite (slug_char_word a Ha E) in Ea. discriminate. }
    subst a. rewrite (hyphenate_non_word s "-" Ea).
    destruct s as [|d r]; [reflexivity|].
    cbn [no_double_hyphen] in Hnd. apply andb_prop in Hnd as [Hd _].
    cbn in Hd.
    assert (Hsd : is_slug_char d = true)
      by (cbn [forallb] in Hs; now apply andb_prop in Hs).
    assert (Hw : Js.is_word d = true).
    { apply slug_char_word; [exact Hsd|]. intros ->. discriminate Hd. }
    rewrite dropWhile_stop by (unfold Js.non_word; now rewrite Hw).
    now rewrite (IH Hs Hnd').
Qed.

Lemma forallb_rev {A} (p : A -> bool) l : forallb p (rev l) = forallb p l.
Proof.
  induction l as [|a l IH]; [reflexivity|].
  simpl. rewrite forallb_app, IH. simpl. rewrite andb_true_r.
  apply andb_comm.
Qed.

Lemma dropWhile_all {A} (p : A -> bool) l :
  Js.dropWhile p l = [] <-> forallb p l = true.
Proof.
  split; [|apply dropWhile_none].
  induction l as [|a l IH]; simpl; [reflexivity|].
  destruct (p a); [exact IH | discriminate].
Qed.

Lemma dropWhile_keep {A} (p : A -> bool) l :
  forallb (fun x => negb (p x)) l = true -> Js.dropWhile p l = l.
Proof.
  destruct l as [|a l]; [reflexivity|]. simpl. intros H.
  apply andb_prop in H as [Ha _]. apply negb_true_iff in Ha. now rewrite Ha.
Qed.

Lemma trim_chars_fixed s :
  forallb (fun c => negb (Js.is_space c)) s = true -> Js.trim_chars s = s.
Proof.
  intros H. unfold Js.trim_chars.
  rewrite (dropWhile_keep _ s H).
  rewrite dropWhile_keep by (now rewrite forallb_rev).
  apply rev_involutive.
Qed.

Lemma trim_chars_nil s :
  Js.trim_chars s = [] <-> forallb Js.is_space s = true.
Proof.
  unfold Js.trim_chars. split.
  - intros H. apply (f_equal (@rev ascii)) in H.
    rewrite rev_involutive in H. simpl in H.
    apply dropWhile_all in H. rewrite forallb_rev in H.
    destruct (Js.dropWhile Js.is_space s) as [|a r] eqn:E.
    + now apply dropWhile_all.
    + apply dropWhile_head in E. simpl in H. rewrite E in H. discriminate.
  - intros H. now rewrite (dropWhile_none _ _ H).
Qed.

Lemma dropWhile_space_lower s :
  Js.dropWhile Js.is_space (Js.lower_chars s) =
  Js.lower_chars (Js.dropWhile Js.is_space s).
Proof.
  induction s as [|a s IH]; [reflexivity|].
  simpl. rewrite lower_char_space. destruct (Js.is_space a); [exact IH|].
  reflexivity.
Qed.

Lemma trim_lower_commute s :
  Js.trim_chars (Js.lower_chars s) = Js.lower_chars (Js.trim_chars s).
Proof.
  unfold Js.trim_chars. rewrite dropWhile_space_lower.
  unfold Js.lower_chars at 1. rewrite <- map_rev.
  fold (Js.lower_chars (rev (Js.dropWhile Js.is_space s))).
  rewrite dropWhile_space_lower. unfold Js.lower_chars. now rewrite map_rev.
Qed.

Lemma lower_chars_twice s : Js.lower_chars (Js.lower_chars s) = Js.lower_chars s.
Proof.
  unfold Js.lower_chars. rewrite map_map. apply map_ext.
  intros c. apply lower_char_twice.
Qed.

Lemma string_eq_chars a b :
  list_ascii_of_string a = list_ascii_of_string b -> a = b.
Proof.
  intros H. rewrite <- (string_of_list_ascii_of_string a).
  rewrite <- (string_of_list_ascii_of_string b). now rewrite H.
Qed.

(** The characters of the slug of a text. *)
Lemma escapeText_chars text :
  list_ascii_of_string (escapeText text) =
  hyphenate_runs
    (Js.lower_chars (Js.trim_chars (list_ascii_of_string text))).
Proof.
  rewrite escapeText_slugOfHeading. unfold slugOfHeading.
  apply list_ascii_of_string_of_list_ascii.
Qed.

Lemma slug_shape s :
  forallb is_slug_char (hyphenate_runs (Js.lower_chars s)) = true.
Proof.
  apply forallb_forall. intros c Hin.
  destruct (hyphenate_runs_from _ c Hin) as [->|[Hc Hw]]; [reflexivity|].
  unfold Js.lower_chars in Hc. apply in_map_iff in Hc as (c0 & <- & _).
  now apply lower_char_slug.
Qed.

(** X1.  Every heading slug is made of the characters a-z, 0-9,
    underscore and hyphen only, and never has two hyphens in a row. *)
Theorem escapeText_shape text :
  forallb is_slug_char (list_ascii_of_string (escapeText text)) = true /\
  no_double_hyphen (list_ascii_of_string (escapeText text)) = true.
Proof.
  rewrite escapeText_chars. split;
    [apply slug_shape | apply hyphenate_runs_no_double].
Qed.

(** X2.  The slug of a slug is the slug itself. *)
Theorem escapeText_idempotent text :
  escapeText (escapeText text) = escapeText text.
Proof.
  apply string_eq_chars. rewrite (escapeText_chars (escapeText text)).
  set (s := list_ascii_of_string (escapeText text)).
  assert (Hshape : forallb is_slug_char s = true /\ no_double_hyphen s = true)
    by (unfold s; rewrite escapeText_chars; split;
        [apply slug_shape | apply hyphenate_runs_no_double]).
  destruct Hshape as [Hall Hnd].
  assert (Htrim : Js.trim_chars s = s).
  { apply trim_chars_fixed. apply forallb_forall. intros c Hc.
    rewrite forallb_forall in Hall. apply negb_true_iff.
    now apply slug_char_not_space, Hall. }
  assert (Hlower : Js.lower_chars s = s).
  { unfold Js.lower_chars. rewrite <- (map_id s) at 2. apply map_ext_in.
    intros c Hc. rewrite forallb_forall in Hall.
    now apply slug_char_lower, Hall. }
  rewrite Htrim, Hlower. now apply hyphenate_runs_fixed.
Qed.

(** X3.  The slug does not see letter case: a text and its lower-case
    form have the same slug, so headings that differ only in case share
    one anchor. *)
Theorem escapeText_ignores_case text :
  escapeText (Js.toLowerCase text) = escapeText text.
Proof.
  apply string_eq_chars. rewrite !escapeText_chars. unfold Js.toLowerCase.
  rewrite list_ascii_of_string_of_list_ascii.
  now rewrite trim_lower_commute, lower_chars_twice.
Qed.

Lemma hyphenate_runs_nil s : hyphenate_runs s = [] <-> s = [].
Proof.
  split; [|now intros ->].
  destruct s as [|a s]; [reflexivity|].
  destruct (Js.is_word a) eqn:Ea.
  - rewrite (hyphenate_word a s Ea). discriminate.
  - rewrite (hyphenate_non_word s a Ea). discriminate.
Qed.

(** X4.  The slug is empty exactly for a text of white space only (the
    empty text included); any other heading gets a non-empty anchor. *)
Theorem escapeText_empty text :
  escapeText text = "" <-> isBlank text = true.
Proof.
  unfold isBlank. rewrite <- trim_chars_nil.
  split.
  - intros H. apply (f_equal list_ascii_of_string) in H.
    rewrite escapeText_chars in H. simpl in H.
    apply (proj1 (hyphenate_runs_nil _)) in H. unfold Js.lower_chars in H.
    now apply map_eq_nil in H.
  - intros H. apply string_eq_chars.
    rewrite escapeText_chars, H. reflexivity.
Qed.

(* ===================================================================== *)
(** ** Further properties: the chapter order *)
(* ===================================================================== *)

Lemma roundToDouble_positive z :
  (1 <= z)%Z ->
  match Js.roundToDouble z with
  | Js.JNum v => (1 <= v)%Z
  | Js.JInfinity p => p = true
  | Js.JNaN => False
  end.
Proof.
  intros Hz. unfold Js.roundToDouble. rewrite Z.abs_eq by lia.
  destruct (Z.log2 z + 1 <=? 53)%Z eqn:Hb; [exact Hz|].
  apply Z.leb_gt in Hb. cbv zeta.
  set (e := (Z.log2 z + 1 - 53)%Z).
  set (q := Z.shiftr z e).
  match goal with
  | |- context [Z.shiftl ?x e] => set (q' := x)
  end.
  destruct (Z.shiftl 1 1024 <=? Z.shiftl q' e)%Z.
  - apply Z.leb_le. lia.
  - assert (He : (0 < e)%Z) by (unfold e; lia).
    assert (Hpow : (2 ^ e <= z)%Z).
    { transitivity (2 ^ Z.log2 z)%Z.
      - apply Z.pow_le_mono_r; unfold e; lia.
      - apply Z.log2_spec. lia. }
    assert (Hq : (1 <= q)%Z).
    { unfold q. rewrite Z.shiftr_div_pow2 by lia.
      apply Z.div_le_lower_bound; lia. }
    assert (Hq' : (1 <= q')%Z) by (unfold q'; destruct (_ || _); lia).
    rewrite Z.sgn_pos by lia. rewrite Z.shiftl_mul_pow2 by lia.
    assert (0 < 2 ^ e)%Z by (apply Z.pow_pos_nonneg; lia). nia.
Qed.

Lemma roundToDouble_nonneg z :
  (0 <= z)%Z ->
  match Js.roundToDouble z with
  | Js.JNum v => (0 <= v)%Z
  | Js.JInfinity p => p = true
  | Js.JNaN => False
  end.
Proof.
  intros Hz. destruct (Z.eq_dec z 0) as [->|Hne]; [simpl; lia|].
  pose proof (roundToDouble_positive z ltac:(lia)) as H.
  destruct (Js.roundToDouble z); auto. lia.
Qed.

Lemma decimal_fold_nonneg ds : forall acc,
  (0 <= acc)%Z ->
  (0 <= fold_left (fun a c => (10 * a + Js.digit_value c)%Z) ds acc)%Z.
Proof.
  induction ds as [|c ds IH]; intros acc H; cbn [fold_left]; [exact H|].
  apply IH. pose proof (digit_value_nonneg c). lia.
Qed.

Lemma digit_value_le c : Js.is_digit c = true -> (Js.digit_value c <= 9)%Z.
Proof.
  unfold Js.is_digit, Js.between, Js.digit_value. intros H.
  apply andb_prop in H as [H1 H2].
  apply Nat.leb_le in H1. apply Nat.leb_le in H2. lia.
Qed.

Lemma decimal_fold_bound ds : forall acc,
  forallb Js.is_digit ds = true -> (0 <= acc)%Z ->
  (fold_left (fun a c => (10 * a + Js.digit_value c)%Z) ds acc
   < (acc + 1) * 10 ^ Z.of_nat (length ds))%Z.
Proof.
  induction ds as [|c ds IH]; intros acc Hall Hacc.
  - cbn [fold_left length]. simpl. lia.
  - cbn [forallb] in Hall. apply andb_prop in Hall as [Hc Hds].
    cbn [fold_left length]. pose proof (digit_value_nonneg c) as H0.
    pose proof (digit_value_le c Hc) as H9.
    specialize (IH (10 * acc + Js.digit_value c)%Z Hds ltac:(lia)).
    rewrite Nat2Z.inj_succ, Z.pow_succ_r by lia.
    assert (0 < 10 ^ Z.of_nat (length ds))%Z
      by (apply Z.pow_pos_nonneg; lia).
    nia.
Qed.

(** The order, read off the digits the regular expression matches. *)
Lemma chapterOrder_digits path :
  chapterOrder path =
  if String.eqb path "introduction.md" then Js.JNum 1
  else
    match firstDigitRun path with
    | [] => Js.JNaN
    | ds => Js.add (Js.roundToDouble (Js.decimal_value ds)) (Js.JNum 1)
    end.
Proof.
  unfold chapterOrder. destruct (String.eqb path "introduction.md");
    [reflexivity|].
  unfold Js.match_digits. fold (firstDigitRun path).
  pose proof (takeWhile_all Js.is_digit
                (Js.dropWhile (fun c => negb (Js.is_digit c))
                              (list_ascii_of_string path))) as Hall.
  fold (firstDigitRun path) in Hall.
  destruct (firstDigitRun path) as [|d ds]; [reflexivity|].
  unfold Js.toString_match.
  now rewrite (parseInt10_digits (d :: ds)) by (auto; discriminate).
Qed.

Lemma firstEmbeddedInteger_digits path :
  firstEmbeddedInteger path =
  match firstDigitRun path with
  | [] => None
  | ds => Some (Js.decimal_value ds)
  end.
Proof. unfold firstEmbeddedInteger. apply first_integer_match. Qed.

(** X5.  Whenever the order is a number it is at least 1: it is never
    zero, negative or minus infinity, whatever the path. *)
Theorem chapterOrder_at_least_one path :
  match chapterOrder path with
  | Js.JNum n => (1 <= n)%Z
  | Js.JInfinity positive => positive = true
  | Js.JNaN => True
  end.
Proof.
  rewrite chapterOrder_digits.
  destruct (String.eqb path "introduction.md"); [lia|].
  destruct (firstDigitRun path) as [|d ds]; [exact I|].
  assert (Hv : (0 <= Js.decimal_value (d :: ds))%Z)
    by (apply decimal_fold_nonneg; lia).
  pose proof (roundToDouble_nonneg _ Hv) as H.
  destruct (Js.roundToDouble (Js.decimal_value (d :: ds))) as [|v|p];
    [contradiction| |exact H].
  unfold Js.add.
  pose proof (roundToDouble_positive (v + 1) ltac:(lia)) as H1.
  destruct (Js.roundToDouble (v + 1)); auto.
Qed.

(** X6.  When the first run of digits in a path other than
    "introduction.md" has at most 15 digits, the order is exactly the
    integer they spell plus one. *)
Theorem chapterOrder_exact_up_to_15_digits path :
  path <> "introduction.md" ->
  firstDigitRun path <> [] ->
  length (firstDigitRun path) <= 15 ->
  exists n,
    firstEmbeddedInteger path = Some n /\
    (0 <= n < 10 ^ 15)%Z /\
    chapterOrder path = Js.JNum (n + 1).
Proof.
  intros Hne Hrun Hlen.
  rewrite chapterOrder_digits, firstEmbeddedInteger_digits.
  apply String.eqb_neq in Hne. rewrite Hne.
  pose proof (takeWhile_all Js.is_digit
                (Js.dropWhile (fun c => negb (Js.is_digit c))
                              (list_ascii_of_string path))) as Hall.
  fold (firstDigitRun path) in Hall.
  destruct (firstDigitRun path) as [|d ds] eqn:E; [contradiction|].
  exists (Js.decimal_value (d :: ds)).
  assert (Hlo : (0 <= Js.decimal_value (d :: ds))%Z)
    by (apply decimal_fold_nonneg; lia).
  assert (Hhi : (Js.decimal_value (d :: ds) < 10 ^ 15)%Z).
  { pose proof (decimal_fold_bound (d :: ds) 0%Z Hall ltac:(lia)) as Hb.
    fold (Js.decimal_value (d :: ds)) in Hb.
    assert (10 ^ Z.of_nat (length (d :: ds)) <= 10 ^ 15)%Z
      by (apply Z.pow_le_mono_r; lia).
    lia. }
  split; [reflexivity|]. split; [lia|].
  assert (H53 : (10 ^ 15 < 2 ^ 53)%Z) by reflexivity.
  rewrite roundToDouble_exact by lia.
  unfold Js.add. apply roundToDouble_succ. lia.
Qed.

(** X7.  The order depends on the path only through its first embedded
    integer: two paths with the same first integer get the same order,
    and a path whose first integer is 0 gets the order of
    "introduction.md". *)
Theorem chapterOrder_collisions :
  (forall p1 p2 n,
     p1 <> "introduction.md" -> p2 <> "introduction.md" ->
     firstEmbeddedInteger p1 = Some n ->
     firstEmbeddedInteger p2 = Some n ->
     chapterOrder p1 = chapterOrder p2) /\
  (forall p,
     firstEmbeddedInteger p = Some 0%Z ->
     chapterOrder p = chapterOrder "introduction.md").
Proof.
  split.
  - intros p1 p2 n H1 H2 F1 F2. unfold chapterOrder.
    apply String.eqb_neq in H1. apply String.eqb_neq in H2.
    rewrite H1, H2.
    now rewrite (match_digits_first_integer p1 n F1),
                (match_digits_first_integer p2 n F2).
  - intros p F. unfold chapterOrder at 1.
    destruct (String.eqb p "introduction.md") eqn:E.
    + apply String.eqb_eq in E. subst p. discriminate F.
    + now rewrite (match_digits_first_integer p 0%Z F).
Qed.

(* ===================================================================== *)
(** ** Further properties: the rendering functions *)
(* ===================================================================== *)

Lemma append_assoc (a b c : string) :
  String.append (String.append a b) c = String.append a (String.append b c).
Proof. induction a as [|x a IH]; simpl; [reflexivity | now rewrite IH]. Qed.

Lemma template_app l1 l2 :
  Html.template (l1 ++ l2) =
  String.append (Html.template l1) (Html.template l2).
Proof.
  induction l1 as [|p l1 IH]; simpl; [reflexivity|].
  now rewrite IH, append_assoc.
Qed.

(** X8.  The anchor that [markdownToHtml] writes around a level-2
    heading is the one [getSections] records for the same heading text:
    the section entry's [escapedText] is the [name] of the anchor and,
    after a hash sign, its [href].  For a level other than 2 the callback
    of [getSections] records nothing. *)
Theorem heading_anchor_matches_section text w :
  (exists entry,
     sectionsArray (exec (sections_heading text 2) w)
       = sectionsArray w ++ [entry] /\
     SectionEntry.text entry = text /\
     occursIn (Html.template ["name="; Html.quote;
                              SectionEntry.escapedText entry; Html.quote])
              (Html.heading text 2) /\
     occursIn (Html.template ["href="; Html.quote; "#";
                              SectionEntry.escapedText entry; Html.quote])
              (Html.heading text 2)) /\
  (forall level, level <> 2%Z -> exec (sections_heading text level) w = w).
Proof.
  split.
  - exists (SectionEntry.mk text 2 (escapeText text)).
    split; [reflexivity|]. split; [reflexivity|].
    cbn [SectionEntry.escapedText]. unfold Html.heading. cbn [Z.eqb Pos.eqb].
    split.
    + exists (Html.template
                ["<a"; Html.newline;
                 "        class="; Html.quote; "section-anchor"; Html.quote;
                 Html.newline; "        "]).
      eexists. rewrite <- !template_app. cbn [app]. reflexivity.
    + exists (Html.template
                ["<a"; Html.newline;
                 "        class="; Html.quote; "section-anchor"; Html.quote;
                 Html.newline;
                 "        name="; Html.quote; escapeText text; Html.quote;
                 Html.newline; "        "]).
      eexists. rewrite <- !template_app. cbn [app]. reflexivity.
  - intros level Hne. unfold exec, sections_heading.
    apply Z.eqb_neq in Hne. now rewrite Hne.
Qed.

(** X9.  [getSections] starts from an empty array on every call: what it
    returns depends on the world only through the [breaks] and
    [highlight] options, and an earlier call, on any content, does not
    change what a later call returns. *)
Theorem getSections_fresh content :
  (forall w w',
     Marked.opt_breaks (markedDefaults w)
       = Marked.opt_breaks (markedDefaults w') ->
     Marked.opt_highlight (markedDefaults w)
       = Marked.opt_highlight (markedDefaults w') ->
     eval (getSections content) w = eval (getSections content) w') /\
  (forall earlier w,
     eval (getSections content) (exec (getSections earlier) w)
       = eval (getSections content) w).
Proof.
  assert (H : forall w w',
     Marked.opt_breaks (markedDefaults w)
       = Marked.opt_breaks (markedDefaults w') ->
     Marked.opt_highlight (markedDefaults w)
       = Marked.opt_highlight (markedDefaults w') ->
     eval (getSections content) w = eval (getSections content) w').
  { intros w w' Hb Hh. unfold eval. rewrite !getSections_run. cbn [fst].
    unfold sectionsOptions. now rewrite Hb, Hh. }
  split; [exact H|].
  intros earlier w. apply H; unfold exec; rewrite getSections_run;
    reflexivity.
Qed.

(** X10.  The array [getSections] returns is still the one its renderer
    pushes to: a later [marked(src)] appends the level-2 headings of
    [src] to it. *)
Theorem marked_after_getSections content src w :
  let w1 := exec (getSections content) w in
  exists entries,
    eval (getSections content) w = inr entries /\
    sectionsArray w1 = entries /\
    sectionsArray (exec (marked src) w1) =
      entries ++ level2_entries (marked_headings (sectionsOptions w) src).
Proof.
  cbv zeta. unfold eval, exec. rewrite getSections_run. cbn [fst snd].
  eexists. split; [reflexivity|]. split; [reflexivity|].
  rewrite marked_run. reflexivity.
Qed.

(** X11.  [markdownToHtml] returns the same text whatever options an
    earlier call left behind; it changes nothing but the global options,
    which it leaves as its own renderer with [breaks] and [highlight]
    on, and it adds nothing to the sections array. *)
Theorem markdownToHtml_state content w :
  (forall w', eval (markdownToHtml content) w
              = eval (markdownToHtml content) w') /\
  exec (markdownToHtml content) w = set_markedDefaults w htmlOptions /\
  sectionsArray (exec (markdownToHtml content) w) = sectionsArray w.
Proof.
  unfold eval, exec. rewrite markdownToHtml_run. cbn [fst snd].
  split; [|split; reflexivity].
  intros w'. now rewrite markdownToHtml_run.
Qed.

(* ===================================================================== *)
(** ** Further properties: addBookmark *)
(* ===================================================================== *)

(** What a successful [addBookmark] found and did. *)
Lemma addBookmark_success newId chapterId hash text userId w p' w' :
  addBookmark newId chapterId hash text userId w = (inr p', w') ->
  exists chapter book p,
    Js.truthy userId = true /\
    find (byId chapterId) (chapters w) = Some chapter /\
    find (bookOf chapter) (books w) = Some book /\
    find (purchaseOf userId (Book._id book)) (purchases w) = Some p /\
    p' = Purchase.with_bookmarks p
           (newBookmarks newId chapterId hash text p) /\
    w' = set_purchases w (savedPurchases p' (purchases w)).
Proof.
  rewrite addBookmark_run.
  destruct (Js.truthy userId); [|discriminate]. cbn [negb].
  destruct (find (byId chapterId) (chapters w)) as [chapter|] eqn:Ec;
    [|discriminate].
  fold (bookOf chapter).
  destruct (find (bookOf chapter) (books w)) as [book|] eqn:Eb;
    [|discriminate].
  destruct (find (purchaseOf userId (Book._id book)) (purchases w))
    as [p|] eqn:Ep; [|discriminate].
  cbv zeta. intros [= <- <-]. exists chapter, book, p. repeat split; assumption.
Qed.

Lemma find_update_first_key {A} (key : A -> string) (q : A -> bool)
    (f : A -> A) (l : list A) (x : A) :
  NoDup (map key l) ->
  find q l = Some x ->
  q (f x) = true ->
  find q (update_first (fun y => String.eqb (key y) (key x)) f l)
    = Some (f x).
Proof.
  intros Hnd Hfind Hq. induction l as [|a l IH]; simpl in *; [discriminate|].
  inversion Hnd as [|? ? Hnotin Hnd']; subst.
  destruct (q a) eqn:Ea.
  - injection Hfind as ->. rewrite String.eqb_refl. simpl. now rewrite Hq.
  - destruct (String.eqb (key a) (key x)) eqn:Ek.
    + exfalso. apply Hnotin. apply String.eqb_eq in Ek. rewrite Ek.
      apply in_map. eapply find_some; eassumption.
    + simpl. rewrite Ea. now apply IH.
Qed.

(** With unique purchase [_id]s, the purchase that was saved is the one a
    lookup by the same user and book finds afterwards. *)
Lemma saved_purchase_found userId bookId p bs ps :
  NoDup (map Purchase._id ps) ->
  find (purchaseOf userId bookId) ps = Some p ->
  find (purchaseOf userId bookId)
       (savedPurchases (Purchase.with_bookmarks p bs) ps)
    = Some (Purchase.with_bookmarks p bs).
Proof.
  intros Hnd Hfind. unfold savedPurchases.
  cbn [Purchase._id Purchase.with_bookmarks Purchase.bookmarks].
  apply (find_update_first_key Purchase._id (purchaseOf userId bookId)
           (fun q => Purchase.with_bookmarks q bs) ps p Hnd Hfind).
  apply find_some in Hfind. apply Hfind.
Qed.

Lemma NoDup_map_filter {A B} (f : A -> B) (p : A -> bool) l :
  NoDup (map f l) -> NoDup (map f (filter p l)).
Proof.
  induction l as [|a l IH]; intros H; simpl; [constructor|].
  inversion H as [|? ? Hnotin Hnd]; subst.
  destruct (p a); simpl; [|now apply IH].
  constructor; [|now apply IH].
  intros Hin. apply Hnotin. apply in_map_iff in Hin as (x & Hx & Hin).
  apply filter_In in Hin. apply in_map_iff. exists x.
  split; [exact Hx | exact (proj1 Hin)].
Qed.

Lemma NoDup_snoc {A} (l : list A) x :
  NoDup l -> ~ In x l -> NoDup (l ++ [x]).
Proof.
  induction l as [|a l IH]; intros Hnd Hx; simpl.
  - constructor; [intros [] | constructor].
  - inversion Hnd as [|? ? Hnotin Hnd']; subst. constructor.
    + intros Hin. apply in_app_or in Hin as [Hin|[<-|[]]];
        [contradiction | apply Hx; now left].
    + apply IH; [exact Hnd'|]. intros Hin. apply Hx. now right.
Qed.

Lemma filter_filter_length {A} (p q : A -> bool) l :
  length (filter p (filter q l)) <= length (filter p l).
Proof.
  induction l as [|a l IH]; simpl; [lia|].
  destruct (q a); simpl; destruct (p a); simpl; lia.
Qed.

Lemma filter_and {A} (p q : A -> bool) l :
  filter q (filter p l) = filter (fun x => p x && q x) l.
Proof.
  induction l as [|a l IH]; simpl; [reflexivity|].
  destruct (p a); simpl; [destruct (q a); now rewrite IH | exact IH].
Qed.

Lemma filter_none {A} (p : A -> bool) (l : list A) :
  (forall x, p x = false) -> filter p l = [].
Proof.
  intros H. induction l as [|a l IH]; simpl; [reflexivity|].
  now rewrite H.
Qed.

Lemma filter_all {A} (l : list A) : filter (fun _ => true) l = l.
Proof. induction l as [|a l IH]; simpl; [reflexivity | now rewrite IH]. Qed.

(** The iteration only takes elements out: what is left is a selection
    of the array, in its order. *)
Lemma forEach_selection chapterId arr0 :
  exists keep,
    forEach (pullIfSameChapter chapterId) arr0 = filter keep arr0.
Proof.
  unfold forEach.
  apply (forEach_live_invariant
           (fun arr => exists keep, arr = filter keep arr0)).
  - intros x arr _ [keep ->]. unfold pullIfSameChapter.
    destruct (String.eqb (Bookmark.chapterId x) chapterId).
    + unfold pull. rewrite filter_and. eexists. reflexivity.
    + now exists keep.
  - exists (fun _ => true). now rewrite filter_all.
Qed.

(** X12.  A successful [addBookmark] never reorders, changes or repeats
    an old bookmark: the saved bookmarks are a selection of the old ones,
    in their order, followed by the new bookmark, in a purchase that
    keeps its [_id], user and book. *)
Theorem addBookmark_shape newId chapterId hash text userId w p' w' :
  addBookmark newId chapterId hash text userId w = (inr p', w') ->
  exists p keep,
    In p (purchases w) /\
    Purchase._id p' = Purchase._id p /\
    Purchase.bookmarks p' =
      filter keep (Purchase.bookmarks p)
      ++ [Bookmark.mk newId chapterId hash text] /\
    length (Purchase.bookmarks p') <= S (length (Purchase.bookmarks p)).
Proof.
  intros Hrun.
  destruct (addBookmark_success _ _ _ _ _ _ _ _ Hrun)
    as (chapter & book & p & _ & _ & _ & Hp & -> & _).
  destruct (forEach_selection chapterId (Purchase.bookmarks p)) as [keep Hk].
  exists p, keep. split; [eapply find_some; eassumption|].
  split; [reflexivity|].
  cbn [Purchase.bookmarks Purchase.with_bookmarks]. unfold newBookmarks.
  rewrite Hk. split; [reflexivity|].
  rewrite length_app. simpl. pose proof (filter_length_le keep (Purchase.bookmarks p)).
  lia.
Qed.

(** With unique [_id]s and at most one bookmark of the chapter, the saved
    bookmarks are the bookmarks of the other chapters and the new one. *)
Lemma newBookmarks_replace newId chapterId hash text p :
  NoDup (map Bookmark._id (Purchase.bookmarks p)) ->
  length (filter (sameChapter chapterId) (Purchase.bookmarks p)) <= 1 ->
  newBookmarks newId chapterId hash text p =
  filter (otherChapter chapterId) (Purchase.bookmarks p)
  ++ [Bookmark.mk newId chapterId hash text].
Proof.
  intros Hnd Hle. unfold newBookmarks.
  rewrite forEach_removes_when_single; [reflexivity | exact Hnd | exact Hle].
Qed.

Lemma newBookmarks_NoDup newId chapterId hash text p :
  NoDup (map Bookmark._id (Purchase.bookmarks p)) ->
  length (filter (sameChapter chapterId) (Purchase.bookmarks p)) <= 1 ->
  ~ In newId (map Bookmark._id (Purchase.bookmarks p)) ->
  NoDup (map Bookmark._id (newBookmarks newId chapterId hash text p)).
Proof.
  intros Hnd Hle Hfresh.
  rewrite newBookmarks_replace by assumption.
  rewrite map_app. apply NoDup_snoc.
  - now apply NoDup_map_filter.
  - intros Hin. apply Hfresh. cbn [Bookmark._id] in Hin.
    apply in_map_iff in Hin as (x & Hx & Hin).
    apply filter_In in Hin. apply in_map_iff. exists x.
    split; [exact Hx | exact (proj1 Hin)].
Qed.

Lemma same_of_other_none chapterId bs :
  filter (sameChapter chapterId) (filter (otherChapter chapterId) bs) = [].
Proof.
  rewrite filter_and. apply filter_none.
  intros b. unfold otherChapter, sameChapter.
  destruct (String.eqb (Bookmark.chapterId b) chapterId); reflexivity.
Qed.

(** X13.  The invariant of the bookmarks is kept: if in every stored
    purchase the bookmark [_id]s are pairwise distinct and no chapter has
    two bookmarks, and the new [_id] is fresh, then the same holds of the
    purchase a successful [addBookmark] saves, and its only bookmark of
    the chapter is the new one. *)
Theorem addBookmark_keeps_invariant newId chapterId hash text userId w p' w' :
  (forall p, In p (purchases w) ->
     NoDup (map Bookmark._id (Purchase.bookmarks p)) /\
     onePerChapter (Purchase.bookmarks p) /\
     ~ In newId (map Bookmark._id (Purchase.bookmarks p))) ->
  addBookmark newId chapterId hash text userId w = (inr p', w') ->
  NoDup (map Bookmark._id (Purchase.bookmarks p')) /\
  onePerChapter (Purchase.bookmarks p') /\
  filter (sameChapter chapterId) (Purchase.bookmarks p')
    = [Bookmark.mk newId chapterId hash text].
Proof.
  intros Hinv Hrun.
  destruct (addBookmark_success _ _ _ _ _ _ _ _ Hrun)
    as (chapter & book & p & _ & _ & _ & Hp & -> & _).
  apply find_some in Hp. destruct (Hinv p (proj1 Hp)) as (Hnd & Hone & Hfresh).
  cbn [Purchase.bookmarks Purchase.with_bookmarks].
  split; [|split].
  - apply newBookmarks_NoDup; [exact Hnd | apply Hone | exact Hfresh].
  - intros c.
    rewrite newBookmarks_replace by (try exact Hnd; apply Hone).
    rewrite filter_app, length_app.
    cbn [filter]. unfold sameChapter at 2. cbn [Bookmark.chapterId].
    destruct (String.eqb chapterId c) eqn:E.
    + apply String.eqb_eq in E. subst c.
      rewrite same_of_other_none. simpl. lia.
    + pose proof (filter_filter_length (sameChapter c)
                    (otherChapter chapterId) (Purchase.bookmarks p)).
      specialize (Hone c). simpl. lia.
  - apply newBookmarks_single; [exact Hnd | apply Hone].
Qed.

(** X14.  With unique purchase [_id]s, the purchase [addBookmark] saved
    is the one [Purchase.findOne] returns afterwards for the same user
    and book, and the other collections are as before. *)
Theorem addBookmark_then_findOne newId chapterId hash text userId w p' w' :
  NoDup (map Purchase._id (purchases w)) ->
  addBookmark newId chapterId hash text userId w = (inr p', w') ->
  exists chapter book,
    eval (Chapter_findById chapterId) w' = inr (Some chapter) /\
    eval (Book_findById (Chapter.bookId chapter)) w' = inr (Some book) /\
    eval (Purchase_findOne userId (Book._id book)) w' = inr (Some p').
Proof.
  intros Hnd Hrun.
  destruct (addBookmark_success _ _ _ _ _ _ _ _ Hrun)
    as (chapter & book & p & _ & Hc & Hb & Hp & -> & ->).
  exists chapter, book.
  unfold eval, Chapter_findById, Book_findById, Purchase_findOne, gets.
  cbn [fst chapters books purchases set_purchases].
  fold (byId chapterId). fold (bookOf chapter).
  fold (purchaseOf userId (Book._id book)).
  rewrite Hc, Hb. repeat split.
  f_equal. now apply saved_purchase_found.
Qed.

(** X15.  Bookmarking a chapter again replaces the bookmark: after two
    successful calls for the same chapter and user, the purchase holds
    the bookmarks of the other chapters as they were before the first
    call, followed by the second bookmark only. *)
Theorem addBookmark_twice newId1 hash1 text1 newId2 hash2 text2
    chapterId userId w p1 w1 :
  NoDup (map Purchase._id (purchases w)) ->
  (forall p, In p (purchases w) ->
     NoDup (map Bookmark._id (Purchase.bookmarks p)) /\
     length (filter (sameChapter chapterId) (Purchase.bookmarks p)) <= 1 /\
     ~ In newId1 (map Bookmark._id (Purchase.bookmarks p))) ->
  addBookmark newId1 chapterId hash1 text1 userId w = (inr p1, w1) ->
  exists p p2 w2,
    In p (purchases w) /\
    Purchase.bookmarks p1 =
      filter (otherChapter chapterId) (Purchase.bookmarks p)
      ++ [Bookmark.mk newId1 chapterId hash1 text1] /\
    addBookmark newId2 chapterId hash2 text2 userId w1 = (inr p2, w2) /\
    Purchase.bookmarks p2 =
      filter (otherChapter chapterId) (Purchase.bookmarks p)
      ++ [Bookmark.mk newId2 chapterId hash2 text2].
Proof.
  intros Hids Hinv Hrun.
  destruct (addBookmark_success _ _ _ _ _ _ _ _ Hrun)
    as (chapter & book & p & Hu & Hc & Hb & Hp & -> & ->).
  pose proof (find_some _ _ Hp) as [Hin _].
  destruct (Hinv p Hin) as (Hnd & Hle & Hfresh).
  set (p1 := Purchase.with_bookmarks p
               (newBookmarks newId1 chapterId hash1 text1 p)).
  assert (H1 : Purchase.bookmarks p1 =
               filter (otherChapter chapterId) (Purchase.bookmarks p)
               ++ [Bookmark.mk newId1 chapterId hash1 text1])
    by (apply newBookmarks_replace; assumption).
  assert (Hnd1 : NoDup (map Bookmark._id (Purchase.bookmarks p1)))
    by (apply newBookmarks_NoDup; assumption).
  assert (Hle1 : length (filter (sameChapter chapterId)
                                (Purchase.bookmarks p1)) <= 1).
  { rewrite H1, filter_app, same_of_other_none. simpl.
    unfold sameChapter. simpl. rewrite String.eqb_refl. simpl. lia. }
  exists p. eexists. eexists. split; [exact Hin|]. split; [exact H1|].
  rewrite addBookmark_run. rewrite Hu. cbn [negb].
  cbn [chapters books purchases set_purchases]. rewrite Hc.
  fold (bookOf chapter). rewrite Hb.
  unfold p1 at 1.
  rewrite (saved_purchase_found userId (Book._id book) p _ _ Hids Hp).
  fold p1. cbv zeta. split; [reflexivity|].
  cbn [Purchase.bookmarks Purchase.with_bookmarks].
  rewrite (newBookmarks_replace newId2 chapterId hash2 text2 p1 Hnd1 Hle1).
  f_equal. rewrite H1, filter_app.
  rewrite filter_filter_absorb by (intros; assumption).
  simpl. unfold otherChapter at 2. simpl. rewrite String.eqb_refl. simpl.
  apply app_nil_r.
Qed.

(* ===================================================================== *)
(** ** Further properties: getBySlug *)
(* ===================================================================== *)

Lemma chapterView_isPurchased w userId isAdmin book chapter :
  ChapterObj.isPurchased (chapterView w userId isAdmin book chapter) =
  if Js.truthy userId
  then Some (purchased_or
               (find (purchaseOf userId (Book._id book)) (purchases w))
               isAdmin)
  else None.
Proof.
  unfold chapterView. destruct (Js.truthy userId).
  - destruct (find (bookmarkOf chapter) _); destruct (negb _); reflexivity.
  - destruct (negb _); reflexivity.
Qed.

Lemma chapterView_bookmark w userId isAdmin book chapter :
  ChapterObj.bookmark (chapterView w userId isAdmin book chapter) =
  if Js.truthy userId
  then find (bookmarkOf chapter)
            (rev (bookmarks_of
                    (find (purchaseOf userId (Book._id book)) (purchases w))))
  else None.
Proof.
  unfold chapterView. destruct (Js.truthy userId).
  - destruct (find (bookmarkOf chapter) _); destruct (negb _); reflexivity.
  - destruct (negb _); reflexivity.
Qed.

(** What [getBySlug] returns once both lookups are known. *)
Lemma getBySlug_found bookSlug chapterSlug userId isAdmin w book chapter :
  Book_getBySlug w bookSlug userId = Some book ->
  eval (Chapter_findOne_slug (Book._id book) chapterSlug) w
    = inr (Some chapter) ->
  getBySlug bookSlug chapterSlug userId isAdmin w =
  (inr (chapterView w userId isAdmin book chapter), w).
Proof.
  intros Hbook Hchapter.
  unfold eval, Chapter_findOne_slug, gets in Hchapter. cbn in Hchapter.
  injection Hchapter as Hchapter.
  fold (bySlug (Book._id book) chapterSlug) in Hchapter.
  now rewrite getBySlug_run, Hbook, Hchapter.
Qed.

(** X16.  The bookmark a reader adds is the bookmark the reader gets
    back: after a successful [addBookmark] for a chapter, [getBySlug] of
    that chapter for the same user returns the new bookmark, reports the
    chapter as purchased and includes its content. *)
Theorem addBookmark_then_getBySlug
    newId chapterId hash text userId isAdmin bookSlug chapterSlug
    w p' w' book chapter :
  NoDup (map Purchase._id (purchases w)) ->
  NoDup (map Chapter._id (chapters w)) ->
  addBookmark newId chapterId hash text userId w = (inr p', w') ->
  Book_getBySlug w' bookSlug userId = Some book ->
  eval (Chapter_findOne_slug (Book._id book) chapterSlug) w'
    = inr (Some chapter) ->
  Chapter._id chapter = chapterId ->
  exists obj,
    getBySlug bookSlug chapterSlug userId isAdmin w' = (inr obj, w') /\
    ChapterObj.bookmark obj = Some (Bookmark.mk newId chapterId hash text) /\
    ChapterObj.isPurchased obj = Some (Js.JBool true) /\
    ChapterObj.content obj = Some (Chapter.content chapter).
Proof.
  intros Hpids Hcids Hrun Hbook Hchapter Hid.
  rewrite (getBySlug_found _ _ _ _ _ _ _ Hbook Hchapter).
  eexists. split; [reflexivity|].
  destruct (addBookmark_success _ _ _ _ _ _ _ _ Hrun)
    as (ch & bk & p & Hu & Hc & Hb & Hp & -> & ->).
  unfold eval, Chapter_findOne_slug, gets in Hchapter.
  cbn [fst chapters set_purchases] in Hchapter.
  injection Hchapter as Hchapter. apply find_some in Hchapter.
  destruct Hchapter as [Hin Hslug].
  apply andb_prop in Hslug as [Hbid _]. apply String.eqb_eq in Hbid.
  apply find_some in Hc. destruct Hc as [Hin' Hcid].
  unfold byId in Hcid. apply String.eqb_eq in Hcid.
  assert (chapter = ch).
  { apply (NoDup_map_inj Chapter._id (chapters w)); auto. congruence. }
  subst ch.
  pose proof (find_some _ _ Hb) as [_ Hbk]. unfold bookOf in Hbk.
  apply String.eqb_eq in Hbk.
  assert (Hsame : Book._id book = Book._id bk) by congruence.
  assert (Hfound :
    find (purchaseOf userId (Book._id book))
         (purchases
            (set_purchases w
               (savedPurchases
                  (Purchase.with_bookmarks p
                     (newBookmarks newId chapterId hash text p))
                  (purchases w))))
    = Some (Purchase.with_bookmarks p
              (newBookmarks newId chapterId hash text p))).
  { cbn [purchases set_purchases]. rewrite Hsame.
    now apply saved_purchase_found. }
  split; [|split].
  - rewrite chapterView_bookmark, Hu, Hfound.
    cbn [bookmarks_of Purchase.bookmarks Purchase.with_bookmarks].
    unfold newBookmarks. rewrite rev_app_distr. cbn [rev app find].
    unfold bookmarkOf at 1. cbn [Bookmark.chapterId].
    now rewrite Hid, String.eqb_refl.
  - now rewrite chapterView_isPurchased, Hu, Hfound.
  - rewrite chapterView_content, Hu. unfold hasPurchase. rewrite Hfound.
    cbn. now rewrite orb_true_r.
Qed.

(** X17.  [getBySlug] only reads: whatever the arguments, and whether it
    returns or throws, the store and the renderer state are unchanged. *)
Theorem getBySlug_reads_only bookSlug chapterSlug userId isAdmin w :
  exec (getBySlug bookSlug chapterSlug userId isAdmin) w = w.
Proof.
  unfold exec. rewrite getBySlug_run.
  destruct (Book_getBySlug w bookSlug userId) as [book|]; [|reflexivity].
  destruct (find (bySlug (Book._id book) chapterSlug) (chapters w));
    reflexivity.
Qed.

(** X18.  The [isPurchased] property of the returned object: it is not
    set when no user id is supplied; with a user id it is [true] when
    that user has a purchase of the book, and otherwise it is the value
    of the admin flag as it was passed, [undefined] included. *)
Theorem getBySlug_isPurchased bookSlug chapterSlug userId isAdmin w
    book chapter :
  Book_getBySlug w bookSlug userId = Some book ->
  eval (Chapter_findOne_slug (Book._id book) chapterSlug) w
    = inr (Some chapter) ->
  exists obj,
    getBySlug bookSlug chapterSlug userId isAdmin w = (inr obj, w) /\
    (Js.truthy userId = false -> ChapterObj.isPurchased obj = None) /\
    (Js.truthy userId = true ->
     purchaseExists w userId (Book._id book) ->
     ChapterObj.isPurchased obj = Some (Js.JBool true)) /\
    (Js.truthy userId = true ->
     ~ purchaseExists w userId (Book._id book) ->
     ChapterObj.isPurchased obj = Some isAdmin).
Proof.
  intros Hbook Hchapter.
  rewrite (getBySlug_found _ _ _ _ _ _ _ Hbook Hchapter).
  eexists. split; [reflexivity|].
  rewrite chapterView_isPurchased.
  split; [|split].
  - now intros ->.
  - intros -> Hp. apply hasPurchase_exists in Hp. unfold hasPurchase in Hp.
    destruct (find _ (purchases w)); [reflexivity | discriminate].
  - intros -> Hp.
    destruct (find (purchaseOf userId (Book._id book)) (purchases w))
      as [p|] eqn:E; [|reflexivity].
    exfalso. apply Hp. apply hasPurchase_exists. unfold hasPurchase.
    now rewrite E.
Qed.

Lemma find_app_skip {A} (q : A -> bool) l l' :
  forallb (fun x => negb (q x)) l = true -> find q (l ++ l') = find q l'.
Proof.
  induction l as [|x l IH]; simpl; [reflexivity|]. intros H.
  apply andb_prop in H as [Hx Hl]. apply negb_true_iff in Hx.
  now rewrite Hx, IH.
Qed.

Lemma find_last_match {A} (q : A -> bool) l1 b l2 :
  q b = true -> forallb (fun x => negb (q x)) l2 = true ->
  find q (rev (l1 ++ b :: l2)) = Some b.
Proof.
  intros Hb Hl2. rewrite rev_app_distr. cbn [rev]. rewrite <- app_assoc.
  rewrite find_app_skip by (now rewrite forallb_rev).
  simpl. now rewrite Hb.
Qed.

(** X19.  The [bookmark] property of the returned object: a bookmark is
    attached only for a supplied user id, it is a bookmark of this
    chapter taken from that user's purchase of the book, and among
    several bookmarks of the chapter it is the last; without a user id
    or without a purchase none is attached. *)
Theorem getBySlug_bookmark bookSlug chapterSlug userId isAdmin w
    book chapter :
  Book_getBySlug w bookSlug userId = Some book ->
  eval (Chapter_findOne_slug (Book._id book) chapterSlug) w
    = inr (Some chapter) ->
  exists obj,
    getBySlug bookSlug chapterSlug userId isAdmin w = (inr obj, w) /\
    (forall b,
       ChapterObj.bookmark obj = Some b ->
       Js.truthy userId = true /\
       Bookmark.chapterId b = Chapter._id chapter /\
       exists p,
         eval (Purchase_findOne userId (Book._id book)) w = inr (Some p) /\
         In b (Purchase.bookmarks p)) /\
    (forall p l1 b l2,
       Js.truthy userId = true ->
       eval (Purchase_findOne userId (Book._id book)) w = inr (Some p) ->
       Purchase.bookmarks p = l1 ++ b :: l2 ->
       Bookmark.chapterId b = Chapter._id chapter ->
       (forall x, In x l2 -> Bookmark.chapterId x <> Chapter._id chapter) ->
       ChapterObj.bookmark obj = Some b) /\
    (Js.truthy userId = false \/
     ~ purchaseExists w userId (Book._id book) ->
     ChapterObj.bookmark obj = None).
Proof.
  intros Hbook Hchapter.
  rewrite (getBySlug_found _ _ _ _ _ _ _ Hbook Hchapter).
  eexists. split; [reflexivity|].
  rewrite chapterView_bookmark.
  unfold eval, Purchase_findOne, gets. cbn [fst].
  fold (purchaseOf userId (Book._id book)).
  split; [|split].
  - intros b Hb. destruct (Js.truthy userId); [|discriminate].
    split; [reflexivity|]. apply find_some in Hb as [Hin Hq].
    unfold bookmarkOf in Hq. apply String.eqb_eq in Hq.
    split; [now symmetry|].
    destruct (find (purchaseOf userId (Book._id book)) (purchases w))
      as [p|]; [|contradiction].
    exists p. split; [reflexivity|]. now apply in_rev.
  - intros p l1 b l2 -> Hp Hbs Hb Hl2. injection Hp as Hp. rewrite Hp.
    cbn [bookmarks_of]. rewrite Hbs. apply find_last_match.
    + unfold bookmarkOf. rewrite Hb. apply String.eqb_refl.
    + apply forallb_forall. intros x Hx. apply negb_true_iff.
      unfold bookmarkOf. apply String.eqb_neq. intros E.
      now apply (Hl2 x Hx).
  - intros [->|Hno]; [reflexivity|].
    destruct (Js.truthy userId); [|reflexivity].
    destruct (find (purchaseOf userId (Book._id book)) (purchases w))
      as [p|] eqn:E; [|reflexivity].
    exfalso. apply Hno. apply hasPurchase_exists. unfold hasPurchase.
    now rewrite E.
Qed.

(** X20.  Withholding [content] withholds nothing else: for a chapter
    that is not free, requested without a user id or by a user without a
    purchase and without the admin flag, the returned object has no
    [content] but still carries the chapter's [htmlContent], its
    [excerpt] and its [sections]. *)
Theorem getBySlug_withholds_content_only bookSlug chapterSlug userId isAdmin
    w book chapter :
  Book_getBySlug w bookSlug userId = Some book ->
  eval (Chapter_findOne_slug (Book._id book) chapterSlug) w
    = inr (Some chapter) ->
  Chapter.isFree chapter = false ->
  Js.truthy userId = false \/
  (~ purchaseExists w userId (Book._id book) /\ isAdmin <> Js.JBool true) ->
  exists obj,
    getBySlug bookSlug chapterSlug userId isAdmin w = (inr obj, w) /\
    ChapterObj.content obj = None /\
    ChapterObj.htmlContent obj = Chapter.htmlContent chapter /\
    ChapterObj.excerpt obj = Chapter.excerpt chapter /\
    ChapterObj.sections obj = Chapter.sections chapter.
Proof.
  intros Hbook Hchapter Hfree Hno.
  rewrite (getBySlug_found _ _ _ _ _ _ _ Hbook Hchapter).
  eexists. split; [reflexivity|].
  destruct (chapterView_fields w userId isAdmin book chapter) as [Hf _].
  unfold chapterFieldsKept in Hf.
  split; [|repeat split; apply Hf].
  rewrite chapterView_content, Hfree. cbn [orb].
  destruct Hno as [->|[Hp Ha]]; [reflexivity|].
  destruct (Js.truthy userId); [|reflexivity]. cbn [andb].
  destruct (hasPurchase w userId (Book._id book)) eqn:E.
  - exfalso. apply Hp. now apply hasPurchase_exists.
  - destruct isAdmin as [|[|]]; try reflexivity.
    exfalso. now apply Ha.
Qed.

(* ===================================================================== *)
(** ** Further properties: syncContent *)
(* ===================================================================== *)

Lemma findOne_path_eval bookId path w :
  eval (Chapter_findOne_path bookId path) w
  = inr (find (byPath bookId path) (chapters w)).
Proof. reflexivity. Qed.

Lemma find_none_filter {A} (q : A -> bool) l :
  find q l = None -> filter q l = [].
Proof.
  induction l as [|a l IH]; simpl; [reflexivity|].
  destruct (q a); [discriminate | exact IH].
Qed.

Lemma filter_update_first_length {A} (q p : A -> bool) (f : A -> A) l :
  (forall x, q (f x) = q x) ->
  length (filter q (update_first p f l)) = length (filter q l).
Proof.
  intros Hq. induction l as [|a l IH]; simpl; [reflexivity|].
  destruct (p a); simpl.
  - rewrite Hq. destruct (q a); reflexivity.
  - destruct (q a); simpl; now rewrite IH.
Qed.

Lemma update_first_keeps_others {A} (p : A -> bool) (f : A -> A) l c :
  In c l -> p c = false -> In c (update_first p f l).
Proof.
  induction l as [|a l IH]; simpl; [contradiction|].
  intros [->|Hin] Hc.
  - rewrite Hc. now left.
  - destruct (p a); [now right | right; now apply IH].
Qed.

Lemma update_first_none {A} (p : A -> bool) (f : A -> A) l :
  find p l = None -> update_first p f l = l.
Proof.
  induction l as [|a l IH]; simpl; [reflexivity|].
  destruct (p a); [discriminate|]. intros H. now rewrite IH.
Qed.

Lemma Forall_update_first {A} (P : A -> Prop) (p : A -> bool) (f : A -> A) l :
  (forall x, P x -> P (f x)) -> Forall P l -> Forall P (update_first p f l).
Proof.
  intros Hf. induction 1 as [|a l Ha Hl IH]; simpl; [constructor|].
  destruct (p a); constructor; auto.
Qed.

Lemma Chapter_updateOne_any id m w :
  Chapter_updateOne id m w =
  if negb (mongoSchema.castUpdate m) then (inl CastError, w)
  else
    match find (byId id) (chapters w) with
    | None => (inr 0, w)
    | Some old =>
        if mongoSchema.duplicateSlug old (applySet m old) (chapters w)
        then (inl DuplicateKeyError, w)
        else (inr 1, set_chapters w
                       (update_first (byId id) (applySet m) (chapters w)))
    end.
Proof.
  unfold Chapter_updateOne.
  destruct (negb (mongoSchema.castUpdate m)); [reflexivity|].
  unfold bind, gets. cbn. fold (byId id).
  destruct (find (byId id) (chapters w)) as [old|]; [|reflexivity].
  destruct (mongoSchema.duplicateSlug old (applySet m old) (chapters w));
    reflexivity.
Qed.

(** The three ways a call of [syncContent] ends: it throws and no
    chapter has changed, it has created the document, or it has run the
    update of the first chapter with the [_id] of the chapter found. *)
Lemma syncContent_cases now newId book data w :
  let r := syncContent now newId book data w in
  let cs := chapters w in
  books (snd r) = books w /\
  purchases (snd r) = purchases w /\
  markedDefaults (snd r) = syncOptions /\
  ((exists e, fst r = inl e /\ chapters (snd r) = cs) \/
   (exists doc,
      fst r = inr (Created doc) /\
      doc = syncDocument now newId book data cs /\
      find (byPath (Book.id book) (Data.path data)) cs = None /\
      mongoSchema.validate doc = true /\
      chapters (snd r) = cs ++ [doc]) \/
   (exists n chapter,
      fst r = inr (Updated n) /\
      find (byPath (Book.id book) (Data.path data)) cs = Some chapter /\
      mongoSchema.castUpdate (syncModifier data cs chapter) = true /\
      chapters (snd r) =
        update_first (byId (Chapter._id chapter))
          (applySet (syncModifier data cs chapter)) cs)).
Proof.
  cbv zeta.
  destruct (find (byPath (Book.id book) (Data.path data)) (chapters w))
    as [chapter|] eqn:Efind.
  - rewrite syncContent_run, Efind. unfold bind.
    set (m := syncModifier data (chapters w) chapter).
    rewrite Chapter_updateOne_any.
    change (chapters (syncWorld data w)) with (chapters w).
    destruct (mongoSchema.castUpdate m) eqn:Ecast; cbn [negb].
    + destruct (find (byId (Chapter._id chapter)) (chapters w))
        as [old|] eqn:Eid.
      * destruct (mongoSchema.duplicateSlug old (applySet m old) (chapters w)).
        -- cbn. repeat (split; [reflexivity|]). left.
           exists DuplicateKeyError. now split.
        -- cbn. repeat (split; [reflexivity|]). right. right.
           exists 1, chapter. repeat split; try reflexivity. exact Ecast.
      * cbn. repeat (split; [reflexivity|]). right. right.
        exists 0, chapter. repeat split; try reflexivity; [exact Ecast|].
        now rewrite update_first_none.
    + cbn. repeat (split; [reflexivity|]). left. exists CastError.
      now split.
  - rewrite (syncContent_create_run _ _ _ _ _ Efind).
    set (doc := syncDocument now newId book data (chapters w)).
    destruct (createError doc (chapters w)) as [e|] eqn:Ecr.
    + cbn. repeat (split; [reflexivity|]). left. exists e. now split.
    + cbn. repeat (split; [reflexivity|]). right. left. exists doc.
      repeat split; try reflexivity.
      unfold createError in Ecr.
      destruct (mongoSchema.validate doc); [reflexivity|discriminate].
Qed.

(** X21.  For a path the book has no chapter of, and a payload the
    store accepts (the order derived from the path is a number; title,
    body, rendered body and generated slug are not empty; no chapter of
    the book has the generated slug), [syncContent] creates one chapter:
    it is appended to the collection, it carries the payload (title, body
    as content, rendered body, order, free flag), a slug from the slug
    generator, the given creation date, and as sections the level-2
    headings of the body followed by those of the excerpt; afterwards the
    lookup by (bookId, path) finds it. *)
Theorem syncContent_new_chapter now newId book data w :
  eval (Chapter_findOne_path (Book.id book) (Data.path data)) w = inr None ->
  creatable book data w ->
  let a := Data.attributes data in
  let w' := exec (syncContent now newId book data) w in
  exists doc,
    eval (syncContent now newId book data) w = inr (Created doc) /\
    chapters w' = chapters w ++ [doc] /\
    eval (Chapter_findOne_path (Book.id book) (Data.path data)) w'
      = inr (Some doc) /\
    Chapter._id doc = newId /\
    Chapter.bookId doc = Book._id book /\
    Chapter.githubFilePath doc = Some (Data.path data) /\
    Chapter.title doc = Attributes.title a /\
    Chapter.slug doc =
      generateSlug (chapters w) (Attributes.title a) (Book._id book) /\
    Chapter.isFree doc = default false (Attributes.isFree a) /\
    Chapter.content doc = Data.body data /\
    eval (markdownToHtml (Data.body data)) w
      = inr (Chapter.htmlContent doc) /\
    Chapter.createdAt doc = now /\
    Chapter.order doc = chapterOrder (Data.path data) /\
    Chapter.sections doc =
      level2_entries
        (marked_headings syncOptions (he_decode (Data.body data)))
      ++ level2_entries
           (marked_headings syncOptions
              (he_decode (default "" (Attributes.excerpt a)))).
Proof.
  intros Hnone Hok a w'. rewrite findOne_path_eval in Hnone.
  injection Hnone as Hnone.
  apply (createError_creatable now newId _ _ _ Hnone) in Hok.
  exists (syncDocument now newId book data (chapters w)).
  unfold w', eval, exec. rewrite (syncContent_create_run _ _ _ _ _ Hnone), Hok.
  cbn [fst snd chapters set_chapters].
  split; [reflexivity|]. split; [reflexivity|]. split.
  - unfold Chapter_findOne_path, gets. cbn [fst chapters set_chapters].
    fold (byPath (Book.id book) (Data.path data)).
    rewrite (find_app_none _ _ _ Hnone).
    unfold byPath, syncDocument, Book.id. cbn.
    now rewrite !String.eqb_refl.
  - rewrite markdownToHtml_run. cbn [fst].
    repeat split.
Qed.

(** X22.  [syncContent] never removes a chapter and never touches books
    or purchases, and it leaves the global renderer options as those of
    [getSections].  When it returns a created document, no chapter was
    found for the path and the chapter [_id]s are those before, in order,
    followed by the new [_id]; when it returns from an update the chapter
    [_id]s are those before; when it throws, the chapters are as they
    were. *)
Theorem syncContent_frame now newId book data w :
  let w' := exec (syncContent now newId book data) w in
  let r := eval (syncContent now newId book data) w in
  books w' = books w /\
  purchases w' = purchases w /\
  markedDefaults w' = syncOptions /\
  (forall doc,
     r = inr (Created doc) ->
     eval (Chapter_findOne_path (Book.id book) (Data.path data)) w
       = inr None /\
     map Chapter._id (chapters w') = map Chapter._id (chapters w) ++ [newId]) /\
  (forall n,
     r = inr (Updated n) ->
     map Chapter._id (chapters w') = map Chapter._id (chapters w)) /\
  (forall e, r = inl e -> chapters w' = chapters w).
Proof.
  cbv zeta. unfold exec, eval.
  destruct (syncContent_cases now newId book data w)
    as (Hb & Hp & Hm & Hcases).
  split; [exact Hb|]. split; [exact Hp|]. split; [exact Hm|].
  destruct Hcases as [(e & He & Hcs) | [(doc & Hr & Hdoc & Hnone & _ & Hcs)
                                       | (n & ch & Hr & _ & _ & Hcs)]].
  - rewrite He. split; [intros d H; discriminate|].
    split; [intros n H; discriminate|]. intros _ _. exact Hcs.
  - rewrite Hr. split.
    + intros _ _.
      pose proof (findOne_path_eval (Book.id book) (Data.path data) w) as Hf.
      unfold eval in Hf. rewrite Hf, Hnone. split; [reflexivity|].
      rewrite Hcs, map_app, Hdoc. reflexivity.
    + split; [intros n H; discriminate | intros e H; discriminate].
  - rewrite Hr. split; [intros d H; discriminate|]. split.
    + intros _ _. rewrite Hcs. now apply map_id_update_first.
    + intros e H. discriminate.
Qed.

(** X23.  An update keeps the identity of the chapter: with unique
    chapter [_id]s, after [syncContent] found a chapter and the store
    accepted the update, the call has returned and the document stored
    under the chapter's [_id] has the same book, path and creation date,
    the payload's title and body, and its old slug when the title did
    not change; every other chapter is still in the collection. *)
Theorem syncContent_update_keeps now newId book data w chapter :
  NoDup (map Chapter._id (chapters w)) ->
  eval (Chapter_findOne_path (Book.id book) (Data.path data)) w
    = inr (Some chapter) ->
  updatable data w chapter ->
  let w' := exec (syncContent now newId book data) w in
  eval (syncContent now newId book data) w = inr (Updated 1) /\
  exists chapter',
    eval (Chapter_findById (Chapter._id chapter)) w' = inr (Some chapter') /\
    Chapter._id chapter' = Chapter._id chapter /\
    Chapter.bookId chapter' = Chapter.bookId chapter /\
    Chapter.githubFilePath chapter' = Chapter.githubFilePath chapter /\
    Chapter.createdAt chapter' = Chapter.createdAt chapter /\
    Chapter.title chapter' = Attributes.title (Data.attributes data) /\
    Chapter.content chapter' = Data.body data /\
    (Attributes.title (Data.attributes data) = Chapter.title chapter ->
     Chapter.slug chapter' = Chapter.slug chapter) /\
    (forall c, In c (chapters w) ->
               Chapter._id c <> Chapter._id chapter ->
               In c (chapters w')).
Proof.
  intros Hnd Hfind Hok w'. rewrite findOne_path_eval in Hfind.
  injection Hfind as Hfind.
  set (m := syncModifier data (chapters w) chapter).
  assert (Hid : find (byId (Chapter._id chapter)) (chapters w) = Some chapter).
  { apply find_byId_unique; [exact Hnd|]. eapply find_some; eassumption. }
  apply updateError_updatable in Hok.
  pose proof (syncContent_update_run now newId book data w chapter Hid Hfind)
    as Hrun.
  rewrite Hok in Hrun.
  assert (Hw' : chapters w' =
                update_first (byId (Chapter._id chapter)) (applySet m)
                             (chapters w)).
  { unfold w', exec. now rewrite Hrun. }
  split; [unfold eval; now rewrite Hrun|].
  exists (applySet m chapter).
  unfold eval, Chapter_findById, gets. cbn [fst]. rewrite Hw'.
  fold (byId (Chapter._id chapter)).
  split.
  - f_equal. apply find_update_first_byId; [exact Hnd | exact Hid |].
    unfold byId. apply String.eqb_refl.
  - repeat split.
    + apply title_after_sync.
    + intros Ht. unfold m, syncModifier, applySet. cbn.
      now rewrite Ht, String.eqb_refl.
    + intros c Hin Hne. apply update_first_keeps_others; [exact Hin|].
      unfold byId. now apply String.eqb_neq.
Qed.

(** X24.  [syncContent] keeps what the unique index on (bookId,
    githubFilePath) asks: if no two chapters of one book come from one
    path before the call, none do after it, whether the call returns or
    throws; and when the call returns, exactly one chapter exists for
    the synced book and path. *)
Theorem syncContent_keeps_unique_paths now newId book data w :
  uniquePaths (chapters w) ->
  let w' := exec (syncContent now newId book data) w in
  uniquePaths (chapters w') /\
  (isError (eval (syncContent now newId book data) w) = false ->
   length (filter (byPath (Book.id book) (Data.path data)) (chapters w')) = 1).
Proof.
  intros Huniq w'. unfold w', exec, eval.
  destruct (syncContent_cases now newId book data w)
    as (_ & _ & _ & Hcases).
  destruct Hcases as [(e & He & Hcs) | [(doc & Hr & Hdoc & Hnone & _ & Hcs)
                                       | (n & chapter & Hr & Efind & _ & Hcs)]].
  - rewrite He, Hcs. split; [exact Huniq | discriminate].
  - rewrite Hcs.
    assert (Hkey : forall b p, byPath b p doc = true ->
                   byPath b p = byPath (Book.id book) (Data.path data)).
    { intros b p H. rewrite Hdoc in H. unfold byPath, syncDocument in H.
      cbn in H. apply andb_prop in H as [Hb Hp].
      apply String.eqb_eq in Hb. apply String.eqb_eq in Hp.
      unfold Book.id. now rewrite Hb, Hp. }
    split.
    + intros b p. rewrite filter_app, length_app. cbn [filter].
      destruct (byPath b p doc) eqn:E.
      * rewrite (Hkey b p E), (find_none_filter _ _ Hnone). simpl. lia.
      * specialize (Huniq b p). simpl. lia.
    + intros _. rewrite filter_app, (find_none_filter _ _ Hnone).
      cbn [filter app].
      assert (Hd : byPath (Book.id book) (Data.path data) doc = true).
      { rewrite Hdoc. unfold byPath, syncDocument, Book.id. cbn.
        now rewrite !String.eqb_refl. }
      now rewrite Hd.
  - rewrite Hcs.
    assert (Hlen : forall b p,
      length (filter (byPath b p)
                (update_first (byId (Chapter._id chapter))
                   (applySet (syncModifier data (chapters w) chapter))
                   (chapters w)))
      = length (filter (byPath b p) (chapters w)))
      by (intros; now apply filter_update_first_length).
    split.
    + intros b p. rewrite Hlen. apply Huniq.
    + intros _. rewrite Hlen.
      specialize (Huniq (Book.id book) (Data.path data)).
      apply find_some in Efind as [Hin Hq].
      assert (In chapter (filter (byPath (Book.id book) (Data.path data))
                                 (chapters w)))
        by (apply filter_In; split; assumption).
      destruct (filter (byPath (Book.id book) (Data.path data)) (chapters w));
        [contradiction | simpl in *; lia].
Qed.

(** X25.  What is synced is what readers get: after [syncContent]
    created a chapter for a payload the store accepts (so the generated
    slug is the slug of no other chapter of the book), [getBySlug] with
    that slug returns the new chapter with the payload's title, the
    rendered body and the derived order, and with the body as [content]
    when the payload marks the chapter free. *)
Theorem syncContent_then_getBySlug now newId book data bookSlug userId
    isAdmin w :
  let a := Data.attributes data in
  let slug := generateSlug (chapters w) (Attributes.title a) (Book._id book) in
  let w' := exec (syncContent now newId book data) w in
  eval (Chapter_findOne_path (Book.id book) (Data.path data)) w = inr None ->
  creatable book data w ->
  Book_getBySlug w' bookSlug userId = Some book ->
  exists obj,
    getBySlug bookSlug slug userId isAdmin w' = (inr obj, w') /\
    ChapterObj._id obj = newId /\
    ChapterObj.title obj = Attributes.title a /\
    ChapterObj.htmlContent obj
      = marked_output htmlOptions (he_decode (Data.body data)) /\
    ChapterObj.order obj = chapterOrder (Data.path data) /\
    (Attributes.isFree a = Some true ->
     ChapterObj.content obj = Some (Data.body data)).
Proof.
  intros a slug w' Hnone Hok Hbook. rewrite findOne_path_eval in Hnone.
  injection Hnone as Hnone.
  assert (Hfree : existsb (bySlug (Book._id book) slug) (chapters w) = false)
    by exact (proj2 (proj2 (proj2 (proj2 (proj2 Hok))))).
  apply (createError_creatable now newId _ _ _ Hnone) in Hok.
  set (doc := syncDocument now newId book data (chapters w)).
  assert (Hw' : chapters w' = chapters w ++ [doc]).
  { unfold w', exec.
    now rewrite (syncContent_create_run _ _ _ _ _ Hnone), Hok. }
  assert (Hfound : eval (Chapter_findOne_slug (Book._id book) slug) w'
                   = inr (Some doc)).
  { unfold eval, Chapter_findOne_slug, gets. cbn [fst]. rewrite Hw'.
    fold (bySlug (Book._id book) slug).
    rewrite (find_app_none _ _ _ (find_none_existsb _ _ Hfree)).
    unfold bySlug, doc, syncDocument, slug. cbn.
    now rewrite !String.eqb_refl. }
  rewrite (getBySlug_found _ _ _ _ _ _ _ Hbook Hfound).
  eexists. split; [reflexivity|].
  destruct (chapterView_fields w' userId isAdmin book doc) as [Hf _].
  unfold chapterFieldsKept in Hf.
  destruct Hf as (H1 & _ & _ & _ & H5 & _ & _ & H8 & _ & H10 & _).
  split; [exact H1|]. split; [exact H5|]. split; [exact H8|].
  split; [exact H10|].
  intros Hisfree. rewrite chapterView_content.
  unfold doc, syncDocument. cbn [Chapter.isFree Chapter.content].
  fold a. now rewrite Hisfree.
Qed.

(** X27.  A path other than "introduction.md" that holds no digit cannot
    be synced: its order is NaN, which the schema's number type refuses.
    The call throws a validation error when no chapter is stored for the
    path and a cast error when one is, and in both cases no chapter is
    created or changed. *)
Theorem syncContent_without_digit now newId book data w :
  Data.path data <> "introduction.md" ->
  hasDigit (Data.path data) = false ->
  let r := eval (syncContent now newId book data) w in
  let found := eval (Chapter_findOne_path (Book.id book) (Data.path data)) w in
  chapters (exec (syncContent now newId book data) w) = chapters w /\
  (found = inr None -> r = inl ValidationError) /\
  (forall chapter, found = inr (Some chapter) -> r = inl CastError).
Proof.
  intros Hne Hd. cbv zeta.
  assert (Hnan : chapterOrder (Data.path data) = Js.JNaN).
  { unfold chapterOrder. apply String.eqb_neq in Hne.
    rewrite Hne, (match_digits_none _ Hd). reflexivity. }
  rewrite findOne_path_eval. unfold exec, eval. rewrite syncContent_run.
  destruct (find (byPath (Book.id book) (Data.path data)) (chapters w))
    as [chapter|].
  - unfold bind, Chapter_updateOne, mongoSchema.castUpdate.
    change (Modifier.order (syncModifier data (chapters w) chapter))
      with (chapterOrder (Data.path data)).
    rewrite Hnan. cbn.
    split; [reflexivity|]. split; [discriminate | reflexivity].
  - unfold bind, Chapter_create, mongoSchema.validate.
    change (Chapter.order (syncDocument now newId book data (chapters w)))
      with (chapterOrder (Data.path data)).
    rewrite Hnan. rewrite !andb_false_r. cbn.
    split; [reflexivity|]. split; [reflexivity | discriminate].
Qed.

(** X28.  [syncContent] never stores an order that is not a number: if
    no stored chapter has the order NaN before the call, none has it
    after the call, whatever the payload. *)
Theorem syncContent_stores_no_NaN now newId book data w :
  Forall (fun c => Chapter.order c <> Js.JNaN) (chapters w) ->
  Forall (fun c => Chapter.order c <> Js.JNaN)
         (chapters (exec (syncContent now newId book data) w)).
Proof.
  intros Hall. unfold exec.
  destruct (syncContent_cases now newId book data w)
    as (_ & _ & _ & Hcases).
  destruct Hcases as [(e & _ & Hcs) | [(doc & _ & _ & _ & Hvalid & Hcs)
                                      | (n & chapter & _ & _ & Hcast & Hcs)]];
    rewrite Hcs.
  - exact Hall.
  - apply Forall_app. split; [exact Hall|]. constructor; [|constructor].
    unfold mongoSchema.validate in Hvalid.
    apply andb_prop in Hvalid as [_ Horder].
    now apply castNumber_spec.
  - apply Forall_update_first; [|exact Hall].
    intros c _. unfold mongoSchema.castUpdate in Hcast.
    now apply castNumber_spec.
Qed.

(* ===================================================================== *)
(** ** Further properties: addBookmark on any purchase *)
(* ===================================================================== *)

Lemma forEach_live_selection chapterId : forall n k arr,
  exists keep,
    forEach_live (pullIfSameChapter chapterId) n k arr = filter keep arr.
Proof.
  intros n k arr.
  apply (forEach_live_invariant
           (fun a => exists keep, a = filter keep arr)).
  - intros x a _ [keep ->]. unfold pullIfSameChapter.
    destruct (String.eqb (Bookmark.chapterId x) chapterId).
    + unfold pull. rewrite filter_and. eexists. reflexivity.
    + now exists keep.
  - exists (fun _ => true). now rewrite filter_all.
Qed.

Lemma first_match_split {A} (p : A -> bool) (l : list A) :
  filter p l <> [] ->
  exists l1 b l2, l = l1 ++ b :: l2 /\ p b = true /\
    forallb (fun x => negb (p x)) l1 = true.
Proof.
  induction l as [|a l IH]; simpl; [contradiction|].
  destruct (p a) eqn:Ea.
  - intros _. exists [], a, l. repeat split. exact Ea.
  - intros H. destruct (IH H) as (l1 & b & l2 & -> & Hb & H1).
    exists (a :: l1), b, l2. repeat split; [exact Hb|].
    simpl. now rewrite Ea, H1.
Qed.

(** The iteration reaches the first bookmark of the chapter with the
    array untouched, and visits it. *)
Lemma forEach_live_reaches chapterId l1 b l2 : forall n k,
  forallb (otherChapter chapterId) l1 = true ->
  k <= length l1 -> length l1 < n + k ->
  exists n',
    forEach_live (pullIfSameChapter chapterId) n k (l1 ++ b :: l2) =
    forEach_live (pullIfSameChapter chapterId) n' (S (length l1))
      (pullIfSameChapter chapterId b (l1 ++ b :: l2)).
Proof.
  intros n. induction n as [|n IH]; intros k H1 Hk Hn; [lia|].
  simpl. destruct (Nat.eq_dec k (length l1)) as [->|Hne].
  - rewrite nth_error_app2 by lia. rewrite Nat.sub_diag. simpl.
    now exists n.
  - rewrite nth_error_app1 by lia.
    destruct (nth_error l1 k) as [x|] eqn:E;
      [|apply nth_error_None in E; lia].
    assert (Ho : otherChapter chapterId x = true).
    { rewrite forallb_forall in H1. apply H1.
      eapply nth_error_In; eassumption. }
    unfold pullIfSameChapter at 2. unfold otherChapter in Ho.
    apply negb_true_iff in Ho. rewrite Ho.
    apply IH; [exact H1 | lia | lia].
Qed.

Lemma filter_drop_length {A} (p q : A -> bool) l1 b l2 :
  p b = true -> q b = false ->
  length (filter p (filter q (l1 ++ b :: l2)))
  < length (filter p (l1 ++ b :: l2)).
Proof.
  intros Hp Hq. rewrite !filter_app, !length_app. simpl.
  rewrite Hq, Hp. simpl.
  pose proof (filter_filter_length p q l1).
  pose proof (filter_filter_length p q l2). lia.
Qed.

(** Whatever the purchase holds, the iteration takes out at least one
    bookmark of the chapter when there is one, and adds none. *)
Lemma forEach_takes_one chapterId arr :
  length (filter (sameChapter chapterId)
            (forEach (pullIfSameChapter chapterId) arr))
  <= Nat.pred (length (filter (sameChapter chapterId) arr)).
Proof.
  destruct (filter (sameChapter chapterId) arr) as [|m ms] eqn:E.
  - destruct (forEach_selection chapterId arr) as [keep ->].
    pose proof (filter_filter_length (sameChapter chapterId) keep arr) as H.
    rewrite E in H. simpl in *. lia.
  - assert (Hne : filter (sameChapter chapterId) arr <> [])
      by (rewrite E; discriminate).
    destruct (first_match_split _ _ Hne) as (l1 & b & l2 & -> & Hb & H1).
    change (forallb (otherChapter chapterId) l1 = true) in H1.
    unfold forEach.
    destruct (forEach_live_reaches chapterId l1 b l2
                (length (l1 ++ b :: l2)) 0 H1 ltac:(lia)
                ltac:(rewrite length_app; simpl; lia)) as [n' ->].
    destruct (forEach_live_selection chapterId n' (S (length l1))
                (pullIfSameChapter chapterId b (l1 ++ b :: l2)))
      as [keep ->].
    unfold pullIfSameChapter. unfold sameChapter in Hb. rewrite Hb.
    unfold pull.
    pose proof (filter_filter_length (sameChapter chapterId) keep
                  (filter (fun x => negb (String.eqb (Bookmark._id x)
                                                     (Bookmark._id b)))
                          (l1 ++ b :: l2))) as Hsel.
    assert (Hq : negb (String.eqb (Bookmark._id b) (Bookmark._id b)) = false)
      by (now rewrite String.eqb_refl).
    pose proof (filter_drop_length (sameChapter chapterId)
                  (fun x => negb (String.eqb (Bookmark._id x) (Bookmark._id b)))
                  l1 b l2 Hb Hq) as Hdrop.
    rewrite <- E. lia.
Qed.

(** X26.  Whatever bookmarks the purchase holds, a successful
    [addBookmark] leaves at least one bookmark of the chapter, the new
    one, and never more of them than there were before (or one, when
    there was none): an old bookmark of the chapter, if any, is always
    taken out. *)
Theorem addBookmark_count newId chapterId hash text userId w p' w' :
  addBookmark newId chapterId hash text userId w = (inr p', w') ->
  exists p,
    In p (purchases w) /\
    Purchase._id p' = Purchase._id p /\
    1 <= length (filter (sameChapter chapterId) (Purchase.bookmarks p')) /\
    length (filter (sameChapter chapterId) (Purchase.bookmarks p'))
    <= Nat.max 1 (length (filter (sameChapter chapterId)
                                 (Purchase.bookmarks p))).
Proof.
  intros Hrun.
  destruct (addBookmark_success _ _ _ _ _ _ _ _ Hrun)
    as (chapter & book & p & _ & _ & _ & Hp & -> & _).
  exists p. split; [eapply find_some; eassumption|].
  split; [reflexivity|].
  cbn [Purchase.bookmarks Purchase.with_bookmarks]. unfold newBookmarks.
  rewrite filter_app, length_app. cbn [filter].
  unfold sameChapter at 2 4. cbn [Bookmark.chapterId].
  rewrite String.eqb_refl. cbn [length].
  pose proof (forEach_takes_one chapterId (Purchase.bookmarks p)). lia.
Qed.

End ChapterModel.

(* ===================================================================== *)
(** ** The claims on the sample store *)
(* ===================================================================== *)

(** C2 (the code departs from the claim).  A purchase holds two
    bookmarks of chapter c8 next to each other.  [addBookmark] for c8
    pulls the first; the second has moved to the index just visited and
    is skipped, so the saved purchase holds two bookmarks of c8. *)
Theorem addBookmark_adjacent_duplicates :
  exists p',
    eval (addBookmark "k3" "c8" "#logs" "Logs" (Some "u1")) Sample.doubledWorld
      = inr p' /\
    Purchase.bookmarks p' =
      [Sample.bookmark "k2" "c8"; Bookmark.mk "k3" "c8" "#logs" "Logs"] /\
    length (filter (sameChapter "c8") (Purchase.bookmarks p')) = 2.
Proof.
  eexists. split; [reflexivity|]. split; reflexivity.
Qed.

(** C1, as first stated, fails: the admin flag is set, no user id is
    supplied, the chapter is not free, and the object has no content. *)
Lemma getBySlug_admin_without_user :
  Chapter.isFree Sample.deploy = false /\
  exists obj,
    getBySlug Sample.bookBySlug "builder-book" "deploy" None (Js.JBool true)
              Sample.world = (inr obj, Sample.world) /\
    ChapterObj._id obj = Chapter._id Sample.deploy /\
    ChapterObj.content obj = None.
Proof.
  split; [reflexivity|]. eexists. split; [reflexivity|].
  split; reflexivity.
Qed.

(** C4, as first stated, fails on a path without digits, where there is
    no embedded integer and the order is NaN, and on a path whose
    integer is 2^53, where the sum is rounded back to 2^53. *)
Lemma chapterOrder_not_integer_plus_one :
  (firstEmbeddedInteger "README.md" = None /\
   chapterOrder "README.md" = Js.JNaN) /\
  (firstEmbeddedInteger "9007199254740992.md" = Some 9007199254740992%Z /\
   chapterOrder "9007199254740992.md" = Js.JNum 9007199254740992 /\
   chapterOrder "9007199254740992.md" <> Js.JNum (9007199254740992 + 1)).
Proof.
  split; [split; reflexivity|].
  split; [reflexivity|]. split; [vm_compute; reflexivity|].
  vm_compute. discriminate.
Qed.


Lemma found_inj {A} (a b : A) :
  @inr Error (option A) (Some a) = inr (Some b) -> a = b.
Proof. congruence. Qed.

Lemma getBySlug_content_witness :
  Sample.bookBySlug Sample.world "builder-book" (Some "u1") = Some Sample.book /\
  eval (Chapter_findOne_slug (Book._id Sample.book) "deploy") Sample.world
    = inr (Some Sample.deploy) /\
  exists obj,
    getBySlug Sample.bookBySlug "builder-book" "deploy" (Some "u1")
              Js.JUndefined Sample.world = (inr obj, Sample.world) /\
    ChapterObj.content obj = Some "## Heroku".
Proof.
  split; [reflexivity|]. split; [reflexivity|].
  destruct (getBySlug_content Sample.bookBySlug "builder-book" "deploy"
              (Some "u1") Js.JUndefined Sample.world Sample.book Sample.deploy
              eq_refl eq_refl) as (obj & Hrun & _ & Hyes).
  exists obj. split; [exact Hrun|].
  apply Hyes. right. split; [reflexivity|]. left.
  exists Sample.purchase. reflexivity.
Defined.

Lemma getBySlug_not_found_witness :
  eval (getBySlug Sample.bookBySlug "builder-book" "no-such-chapter"
                  (Some "u1") Js.JUndefined) Sample.world
    = inl (mkError "Not found") /\
  exists obj,
    getBySlug Sample.bookBySlug "builder-book" "introduction" None
              Js.JUndefined Sample.world = (inr obj, Sample.world) /\
    ChapterObj.book obj = Some Sample.book.
Proof.
  split.
  - apply (proj1 (getBySlug_not_found Sample.bookBySlug "builder-book"
                    "no-such-chapter" (Some "u1") Js.JUndefined Sample.world)).
    right. exists Sample.book. split; reflexivity.
  - destruct (proj2 (proj2 (getBySlug_not_found Sample.bookBySlug
                "builder-book" "introduction" None Js.JUndefined
                Sample.world)) Sample.book Sample.introduction
                eq_refl eq_refl) as (obj & Hrun & _ & Hbook & _).
    exists obj. split; [exact Hrun | exact Hbook].
Defined.


Lemma addBookmark_frame_witness :
  let r := addBookmark "k3" "c8" "#logs" "Logs" (Some "u1") Sample.world in
  exists p',
    fst r = inr p' /\
    filter (otherChapter "c8") (Purchase.bookmarks p')
      = [Sample.bookmark "k1" "c0"] /\
    Purchase.userId p' = "u1".
Proof.
  cbv zeta.
  set (p' := Purchase.mk "p1" "u1" "b1"
               [Sample.bookmark "k1" "c0"; Bookmark.mk "k3" "c8" "#logs" "Logs"]).
  set (w' := mkWorld (chapters Sample.world) (books Sample.world) [p']
               Sample.defaults []).
  assert (Hids : forall p, In p (purchases Sample.world) ->
                 NoDup (map Bookmark._id (Purchase.bookmarks p))).
  { intros p [<-|[]]. simpl.
    repeat constructor; simpl; intros H; repeat destruct H as [H|H];
      try discriminate; exact H. }
  destruct (addBookmark_frame "k3" "c8" "#logs" "Logs" (Some "u1")
              Sample.world p' w' Hids eq_refl)
    as (chapter & book & p & Hc & Hb & Hp & Hother & _ & Huser & _).
  apply found_inj in Hc. subst chapter.
  apply found_inj in Hb. subst book.
  apply found_inj in Hp. subst p.
  exists p'. split; [reflexivity|]. split; [exact Hother | exact Huser].
Defined.

Lemma sample_updatable :
  updatable Sample.slugFor Sample.payload Sample.world Sample.deploy.
Proof.
  split; [vm_compute; discriminate|]. intros _ _. vm_compute. reflexivity.
Qed.

Lemma syncContent_idempotent_witness :
  let sync := syncContent Sample.he_decode Sample.headings Sample.output
                          Sample.slugFor in
  let w1 := exec (sync 1%Z "c9" Sample.book Sample.payload) Sample.world in
  exec (sync 2%Z "cA" Sample.book Sample.payload) w1 = w1 /\
  eval (sync 2%Z "cA" Sample.book Sample.payload) w1 = inr (Updated 1).
Proof.
  cbv zeta.
  assert (Hnd : NoDup (map Chapter._id (chapters Sample.world))).
  { simpl. repeat constructor; simpl; intros H; repeat destruct H as [H|H];
      try discriminate; exact H. }
  assert (Hfresh : ~ In "c9" (map Chapter._id (chapters Sample.world))).
  { simpl. intros H. repeat destruct H as [H|H]; try discriminate; exact H. }
  destruct (syncContent_idempotent Sample.he_decode Sample.headings
              Sample.output Sample.slugFor 1%Z "c9" 2%Z "cA"
              Sample.book Sample.payload Sample.world Hnd Hfresh)
    as (Hsame & Hreturns & _).
  split; [exact Hsame|].
  destruct (Hreturns (Updated 1) eq_refl) as (chapter & _ & _ & Hsecond).
  exact Hsecond.
Defined.


Lemma chapterOrder_spec_witness :
  "chapter-12.md" <> "introduction.md" /\
  firstEmbeddedInteger "chapter-12.md" = Some 12%Z /\
  (12 < 2 ^ 53)%Z /\
  chapterOrder "chapter-12.md" = Js.JNum 13.
Proof.
  assert (Hne : "chapter-12.md" <> "introduction.md") by discriminate.
  assert (Hlt : (12 < 2 ^ 53)%Z) by reflexivity.
  split; [exact Hne|]. split; [reflexivity|]. split; [exact Hlt|].
  exact (proj1 (proj2 chapterOrder_spec) "chapter-12.md" 12%Z Hne eq_refl Hlt).
Defined.

Lemma chapterOrder_without_digit_witness :
  "README.md" <> "introduction.md" /\ hasDigit "README.md" = false /\
  chapterOrder "README.md" = Js.JNaN.
Proof.
  assert (Hne : "README.md" <> "introduction.md") by discriminate.
  split; [exact Hne|]. split; [reflexivity|].
  exact (proj2 (proj1 chapterOrder_without_digit "README.md" Hne eq_refl)).
Defined.

Lemma getSections_level2_witness :
  eval (getSections Sample.he_decode Sample.headings Sample.output
                    (Data.body Sample.payload)) Sample.world =
  inr [SectionEntry.mk "Heroku  & Now!" 2 "heroku-now-";
       SectionEntry.mk "Custom domain" 2 "custom-domain"] /\
  eval (getSections Sample.he_decode Sample.headings Sample.output
                    "# Title only") Sample.world = inr [].
Proof.
  split.
  - pose proof (getSections_level2 Sample.he_decode Sample.headings
                  Sample.output (Data.body Sample.payload) Sample.world) as H.
    cbv zeta in H. exact (eq_trans (proj1 H) eq_refl).
  - pose proof (getSections_level2 Sample.he_decode Sample.headings
                  Sample.output "# Title only" Sample.world) as H.
    cbv zeta in H. apply (proj2 H).
    intros h [<-|[]]. discriminate.
Defined.

(* ===================================================================== *)
(** ** The further properties on the sample store *)
(* ===================================================================== *)

Lemma sample_bookmark_ids :
  forall p, In p (purchases Sample.world) ->
  NoDup (map Bookmark._id (Purchase.bookmarks p)).
Proof.
  intros p [<-|[]]. simpl.
  repeat constructor; simpl; intros H; repeat destruct H as [H|H];
    try discriminate; exact H.
Qed.

Lemma sample_one_per_chapter :
  forall p, In p (purchases Sample.world) ->
  onePerChapter (Purchase.bookmarks p).
Proof.
  intros p [<-|[]] c. unfold Sample.purchase, Sample.bookmark.
  cbn [Purchase.bookmarks filter]. unfold sameChapter.
  cbn [Bookmark.chapterId].
  destruct (String.eqb "c0" c) eqn:E0; destruct (String.eqb "c8" c) eqn:E8;
    cbn [length]; try lia.
  apply String.eqb_eq in E0. apply String.eqb_eq in E8. congruence.
Qed.

Lemma sample_purchase_ids : NoDup (map Purchase._id (purchases Sample.world)).
Proof. simpl. repeat constructor. intros []. Qed.

Lemma sample_chapter_ids : NoDup (map Chapter._id (chapters Sample.world)).
Proof.
  simpl. repeat constructor; simpl; intros H; repeat destruct H as [H|H];
    try discriminate; exact H.
Qed.

Lemma sample_unique_paths : uniquePaths (chapters Sample.world).
Proof.
  intros b p. unfold Sample.world, Sample.introduction, Sample.deploy.
  cbn [chapters filter]. unfold byPath.
  cbn [option_eqb Chapter.bookId Chapter.githubFilePath].
  destruct (String.eqb "b1" b); cbn [andb length]; [|lia].
  destruct (String.eqb "introduction.md" p) eqn:E0;
    destruct (String.eqb "chapter-08.md" p) eqn:E8; cbn [length]; try lia.
  apply String.eqb_eq in E0. apply String.eqb_eq in E8. congruence.
Qed.

Lemma chapterOrder_exact_up_to_15_digits_witness :
  exists n,
    firstEmbeddedInteger "chapter-03.md" = Some n /\
    chapterOrder "chapter-03.md" = Js.JNum (n + 1).
Proof.
  assert (Hne : "chapter-03.md" <> "introduction.md") by discriminate.
  assert (Hrun : firstDigitRun "chapter-03.md" <> []) by discriminate.
  assert (Hlen : length (firstDigitRun "chapter-03.md") <= 15)
    by (vm_compute; lia).
  destruct (chapterOrder_exact_up_to_15_digits "chapter-03.md" Hne Hrun Hlen)
    as (n & Hn & _ & Horder).
  exists n. split; [exact Hn | exact Horder].
Defined.

Lemma addBookmark_shape_witness :
  exists p',
    eval (addBookmark "k3" "c8" "#logs" "Logs" (Some "u1")) Sample.world
      = inr p' /\
    length (Purchase.bookmarks p') <= 3.
Proof.
  set (p' := Purchase.mk "p1" "u1" "b1"
               [Sample.bookmark "k1" "c0"; Bookmark.mk "k3" "c8" "#logs" "Logs"]).
  set (w' := mkWorld (chapters Sample.world) (books Sample.world) [p']
               Sample.defaults []).
  destruct (addBookmark_shape "k3" "c8" "#logs" "Logs" (Some "u1")
              Sample.world p' w' eq_refl)
    as (p & keep & Hin & _ & _ & Hlen).
  exists p'. split; [reflexivity|].
  destruct Hin as [<-|[]]. exact Hlen.
Defined.

Lemma addBookmark_keeps_invariant_witness :
  exists p',
    eval (addBookmark "k3" "c8" "#logs" "Logs" (Some "u1")) Sample.world
      = inr p' /\
    onePerChapter (Purchase.bookmarks p') /\
    filter (sameChapter "c8") (Purchase.bookmarks p')
      = [Bookmark.mk "k3" "c8" "#logs" "Logs"].
Proof.
  set (p' := Purchase.mk "p1" "u1" "b1"
               [Sample.bookmark "k1" "c0"; Bookmark.mk "k3" "c8" "#logs" "Logs"]).
  set (w' := mkWorld (chapters Sample.world) (books Sample.world) [p']
               Sample.defaults []).
  assert (Hinv : forall p, In p (purchases Sample.world) ->
     NoDup (map Bookmark._id (Purchase.bookmarks p)) /\
     onePerChapter (Purchase.bookmarks p) /\
     ~ In "k3" (map Bookmark._id (Purchase.bookmarks p))).
  { intros p Hp. split; [now apply sample_bookmark_ids|].
    split; [now apply sample_one_per_chapter|].
    destruct Hp as [<-|[]]. simpl. intros H.
    repeat destruct H as [H|H]; try discriminate; exact H. }
  destruct (addBookmark_keeps_invariant "k3" "c8" "#logs" "Logs" (Some "u1")
              Sample.world p' w' Hinv eq_refl) as (_ & Hone & Hsame).
  exists p'. split; [reflexivity|]. split; [exact Hone | exact Hsame].
Defined.

Lemma addBookmark_then_findOne_witness :
  let r := addBookmark "k3" "c8" "#logs" "Logs" (Some "u1") Sample.world in
  exists p',
    fst r = inr p' /\
    eval (Purchase_findOne (Some "u1") "b1") (snd r) = inr (Some p').
Proof.
  cbv zeta.
  set (p' := Purchase.mk "p1" "u1" "b1"
               [Sample.bookmark "k1" "c0"; Bookmark.mk "k3" "c8" "#logs" "Logs"]).
  set (w' := mkWorld (chapters Sample.world) (books Sample.world) [p']
               Sample.defaults []).
  destruct (addBookmark_then_findOne "k3" "c8" "#logs" "Logs" (Some "u1")
              Sample.world p' w' sample_purchase_ids eq_refl)
    as (chapter & book & Hc & Hb & Hp).
  apply found_inj in Hc. subst chapter.
  apply found_inj in Hb. subst book.
  exists p'. split; [reflexivity | exact Hp].
Defined.

Lemma addBookmark_twice_witness :
  exists p2,
    eval (addBookmark "k4" "c8" "#scale" "Scale" (Some "u1"))
         (exec (addBookmark "k3" "c8" "#logs" "Logs" (Some "u1")) Sample.world)
      = inr p2 /\
    Purchase.bookmarks p2 =
      [Sample.bookmark "k1" "c0"; Bookmark.mk "k4" "c8" "#scale" "Scale"].
Proof.
  set (p1 := Purchase.mk "p1" "u1" "b1"
               [Sample.bookmark "k1" "c0"; Bookmark.mk "k3" "c8" "#logs" "Logs"]).
  set (w1 := mkWorld (chapters Sample.world) (books Sample.world) [p1]
               Sample.defaults []).
  assert (Hinv : forall p, In p (purchases Sample.world) ->
     NoDup (map Bookmark._id (Purchase.bookmarks p)) /\
     length (filter (sameChapter "c8") (Purchase.bookmarks p)) <= 1 /\
     ~ In "k3" (map Bookmark._id (Purchase.bookmarks p))).
  { intros p Hp. split; [now apply sample_bookmark_ids|].
    split; [now apply sample_one_per_chapter|].
    destruct Hp as [<-|[]]. simpl. intros H.
    repeat destruct H as [H|H]; try discriminate; exact H. }
  destruct (addBookmark_twice "k3" "#logs" "Logs" "k4" "#scale" "Scale"
              "c8" (Some "u1") Sample.world p1 w1
              sample_purchase_ids Hinv eq_refl)
    as (p & p2 & w2 & Hin & _ & Hrun & Hbs).
  exists p2. split.
  - change (exec (addBookmark "k3" "c8" "#logs" "Logs" (Some "u1"))
                 Sample.world) with w1.
    unfold eval. now rewrite Hrun.
  - destruct Hin as [<-|[]]. exact Hbs.
Defined.

Lemma addBookmark_then_getBySlug_witness :
  exists obj,
    eval (getBySlug Sample.bookBySlug "builder-book" "deploy" (Some "u1")
                    Js.JUndefined)
         (exec (addBookmark "k3" "c8" "#logs" "Logs" (Some "u1")) Sample.world)
      = inr obj /\
    ChapterObj.bookmark obj = Some (Bookmark.mk "k3" "c8" "#logs" "Logs") /\
    ChapterObj.content obj = Some "## Heroku".
Proof.
  set (p' := Purchase.mk "p1" "u1" "b1"
               [Sample.bookmark "k1" "c0"; Bookmark.mk "k3" "c8" "#logs" "Logs"]).
  set (w' := mkWorld (chapters Sample.world) (books Sample.world) [p']
               Sample.defaults []).
  destruct (addBookmark_then_getBySlug Sample.bookBySlug
              "k3" "c8" "#logs" "Logs" (Some "u1") Js.JUndefined
              "builder-book" "deploy" Sample.world p' w'
              Sample.book Sample.deploy
              sample_purchase_ids sample_chapter_ids
              eq_refl eq_refl eq_refl eq_refl)
    as (obj & Hrun & Hb & _ & Hc).
  exists obj. split; [|split; [exact Hb | exact Hc]].
  change (exec (addBookmark "k3" "c8" "#logs" "Logs" (Some "u1"))
               Sample.world) with w'.
  unfold eval. now rewrite Hrun.
Defined.

Lemma getBySlug_isPurchased_witness :
  exists obj,
    getBySlug Sample.bookBySlug "builder-book" "deploy" (Some "u2")
              (Js.JBool true) Sample.world = (inr obj, Sample.world) /\
    ChapterObj.isPurchased obj = Some (Js.JBool true).
Proof.
  destruct (getBySlug_isPurchased Sample.bookBySlug "builder-book" "deploy"
              (Some "u2") (Js.JBool true) Sample.world Sample.book
              Sample.deploy eq_refl eq_refl) as (obj & Hrun & _ & _ & Hadmin).
  exists obj. split; [exact Hrun|].
  apply Hadmin; [reflexivity|]. intros [p Hp]. discriminate Hp.
Defined.

Lemma getBySlug_bookmark_witness :
  exists obj,
    getBySlug Sample.bookBySlug "builder-book" "deploy" (Some "u1")
              Js.JUndefined Sample.world = (inr obj, Sample.world) /\
    ChapterObj.bookmark obj = Some (Sample.bookmark "k2" "c8").
Proof.
  destruct (getBySlug_bookmark Sample.bookBySlug "builder-book" "deploy"
              (Some "u1") Js.JUndefined Sample.world Sample.book
              Sample.deploy eq_refl eq_refl) as (obj & Hrun & _ & Hlast & _).
  exists obj. split; [exact Hrun|].
  apply (Hlast Sample.purchase [Sample.bookmark "k1" "c0"]
               (Sample.bookmark "k2" "c8") []); try reflexivity.
  intros x [].
Defined.

Lemma getBySlug_withholds_content_only_witness :
  exists obj,
    getBySlug Sample.bookBySlug "builder-book" "deploy" None
              Js.JUndefined Sample.world = (inr obj, Sample.world) /\
    ChapterObj.content obj = None /\
    ChapterObj.htmlContent obj = "## Heroku".
Proof.
  destruct (getBySlug_withholds_content_only Sample.bookBySlug
              "builder-book" "deploy" None Js.JUndefined Sample.world
              Sample.book Sample.deploy eq_refl eq_refl eq_refl
              (or_introl eq_refl)) as (obj & Hrun & Hc & Hh & _).
  exists obj. split; [exact Hrun|]. split; [exact Hc | exact Hh].
Defined.

Lemma sample_creatable :
  creatable Sample.he_decode Sample.output Sample.slugFor Sample.book
            Sample2.payload Sample.world.
Proof.
  repeat split; try (vm_compute; discriminate).
Qed.

Lemma syncContent_new_chapter_witness :
  exists doc,
    eval (syncContent Sample.he_decode Sample.headings Sample.output
            Sample.slugFor 7%Z "c9" Sample.book Sample2.payload) Sample.world
      = inr (Created doc) /\
    Chapter.slug doc = "testing-jest-enzyme" /\
    Chapter.order doc = Js.JNum 10 /\
    Chapter.sections doc = [SectionEntry.mk "Unit tests" 2 "unit-tests"].
Proof.
  pose proof (syncContent_new_chapter Sample.he_decode Sample.headings
                Sample.output Sample.slugFor 7%Z "c9" Sample.book
                Sample2.payload Sample.world eq_refl sample_creatable) as H.
  cbv zeta in H.
  destruct H as (doc & Hrun & _ & _ & _ & _ & _ & _ & Hslug & _ & _ & _ & _
                 & Horder & Hsections).
  exists doc. split; [exact Hrun|]. split; [exact Hslug|].
  split; [exact Horder | exact Hsections].
Defined.

Lemma syncContent_update_keeps_witness :
  eval (syncContent Sample.he_decode Sample.headings Sample.output
          Sample.slugFor 7%Z "c9" Sample.book Sample.payload) Sample.world
    = inr (Updated 1) /\
  exists chapter',
    eval (Chapter_findById "c8")
         (exec (syncContent Sample.he_decode Sample.headings Sample.output
                  Sample.slugFor 7%Z "c9" Sample.book Sample.payload)
               Sample.world) = inr (Some chapter') /\
    Chapter.createdAt chapter' = 0%Z /\
    Chapter.title chapter' = "Deploy to Heroku".
Proof.
  pose proof (syncContent_update_keeps Sample.he_decode Sample.headings
                Sample.output Sample.slugFor 7%Z "c9" Sample.book
                Sample.payload Sample.world Sample.deploy
                sample_chapter_ids eq_refl sample_updatable) as H.
  cbv zeta in H.
  destruct H as (Hreturns & chapter' & Hfind & _ & _ & _ & Hdate & Htitle & _).
  split; [exact Hreturns|].
  exists chapter'. split; [exact Hfind|]. split; [exact Hdate | exact Htitle].
Defined.

Lemma syncContent_keeps_unique_paths_witness :
  uniquePaths
    (chapters
       (exec (syncContent Sample.he_decode Sample.headings Sample.output
                Sample.slugFor 7%Z "c9" Sample.book Sample2.payload)
             Sample.world)) /\
  length
    (filter (byPath "b1" "chapter-09.md")
       (chapters
          (exec (syncContent Sample.he_decode Sample.headings Sample.output
                   Sample.slugFor 7%Z "c9" Sample.book Sample2.payload)
                Sample.world))) = 1.
Proof.
  destruct (syncContent_keeps_unique_paths Sample.he_decode
              Sample.headings Sample.output Sample.slugFor 7%Z "c9"
              Sample.book Sample2.payload Sample.world
              sample_unique_paths) as [Huniq Hone].
  split; [exact Huniq | exact (Hone eq_refl)].
Defined.

Lemma syncContent_then_getBySlug_witness :
  exists obj,
    eval (getBySlug Sample.bookBySlug "builder-book" "testing-jest-enzyme"
                    None Js.JUndefined)
         (exec (syncContent Sample.he_decode Sample.headings Sample.output
                  Sample.slugFor 7%Z "c9" Sample.book Sample2.payload)
               Sample.world) = inr obj /\
    ChapterObj.title obj = "Testing: Jest & Enzyme" /\
    ChapterObj.content obj = Some "## Unit tests".
Proof.
  pose proof (syncContent_then_getBySlug Sample.he_decode Sample.headings
                Sample.output Sample.slugFor Sample.bookBySlug 7%Z "c9"
                Sample.book Sample2.payload "builder-book" None Js.JUndefined
                Sample.world eq_refl sample_creatable eq_refl) as H.
  cbv zeta in H.
  destruct H as (obj & Hrun & _ & Htitle & _ & _ & Hfree).
  exists obj. split; [|split; [exact Htitle | exact (Hfree eq_refl)]].
  exact (f_equal fst Hrun).
Defined.

Lemma syncContent_without_digit_witness :
  chapters (exec (syncContent Sample.he_decode Sample.headings Sample.output
                    Sample.slugFor 7%Z "c9" Sample.book Sample3.payload)
                 Sample.world) = chapters Sample.world /\
  eval (syncContent Sample.he_decode Sample.headings Sample.output
          Sample.slugFor 7%Z "c9" Sample.book Sample3.payload) Sample.world
    = inl ValidationError /\
  eval (syncContent Sample.he_decode Sample.headings Sample.output
          Sample.slugFor 7%Z "c9" Sample.book Sample3.payload) Sample3.world
    = inl CastError.
Proof.
  assert (Hne : Data.path Sample3.payload <> "introduction.md")
    by discriminate.
  assert (Hd : hasDigit (Data.path Sample3.payload) = false) by reflexivity.
  destruct (syncContent_without_digit Sample.he_decode Sample.headings
              Sample.output Sample.slugFor 7%Z "c9" Sample.book
              Sample3.payload Sample.world Hne Hd) as (Hsame & Hnew & _).
  destruct (syncContent_without_digit Sample.he_decode Sample.headings
              Sample.output Sample.slugFor 7%Z "c9" Sample.book
              Sample3.payload Sample3.world Hne Hd) as (_ & _ & Hold).
  split; [exact Hsame|]. split; [exact (Hnew eq_refl)|].
  exact (Hold Sample3.readme eq_refl).
Defined.

Lemma sample_orders :
  Forall (fun c => Chapter.order c <> Js.JNaN) (chapters Sample.world).
Proof. repeat constructor; discriminate. Qed.

Lemma syncContent_stores_no_NaN_witness :
  Forall (fun c => Chapter.order c <> Js.JNaN)
    (chapters
       (exec (syncContent Sample.he_decode Sample.headings Sample.output
                Sample.slugFor 7%Z "c9" Sample.book Sample2.payload)
             Sample.world)).
Proof.
  exact (syncContent_stores_no_NaN Sample.he_decode Sample.headings
           Sample.output Sample.slugFor 7%Z "c9" Sample.book Sample2.payload
           Sample.world sample_orders).
Defined.

Lemma addBookmark_count_witness :
  exists p',
    eval (addBookmark "k3" "c8" "#logs" "Logs" (Some "u1")) Sample.doubledWorld
      = inr p' /\
    length (filter (sameChapter "c8") (Purchase.bookmarks p')) <= 2.
Proof.
  set (p' := Purchase.mk "p1" "u1" "b1"
               [Sample.bookmark "k2" "c8"; Bookmark.mk "k3" "c8" "#logs" "Logs"]).
  set (w' := mkWorld (chapters Sample.doubledWorld) (books Sample.doubledWorld)
               [p'] Sample.defaults []).
  destruct (addBookmark_count "k3" "c8" "#logs" "Logs" (Some "u1")
              Sample.doubledWorld p' w' eq_refl)
    as (p & Hin & _ & _ & Hle).
  exists p'. split; [reflexivity|].
  destruct Hin as [<-|[]]. exact Hle.
Defined.
